(** * A2A task-lifecycle protocol engine: shallow embedding and properties

    Embedded sources
    - [shared/custom_types.py]: wire vocabulary, JSON-RPC envelope, errors.
    - [shared/server.py]: [A2AServer._process_request], [_handle_exception],
      [_create_response], [log_a2a_communication].
    - [agents/claude_cli/base_cli_task_manager.py]: [CLIAgentTaskManager].
    - [shared/agent.py]: [CurrencyAgent.invoke_async].
    - [host/base_host_agent.py]: [RemoteAgentConnection.send_message],
      [BaseHostAgent.send_message] and its helpers.

    [shared/abc_task_manager.py] ([InMemoryTaskManager]), [shared/utils.py]
    and [shared/push_notification_auth.py] are imported by the sources but
    are not part of the tree; what the handlers need of them is modelled
    from the specification and marked as such.

    Timestamps ([TaskStatus.timestamp]) are wall-clock values and are left
    out of the records.

    A Python [str] is represented by its UTF-8 encoding: a Rocq [string]
    is the sequence of its bytes, and lengths, indices and slices count
    code points ([utf8_length], [utf8_take]).  The texts of exceptions
    stand for Python's and pydantic's; pydantic's validation messages in
    particular are not reproduced, and no property depends on them. *)

From Stdlib Require Import ZArith String List Floats.
From stdpp Require Import gmap strings list pretty.

Local Open Scope string_scope.

(** ** Decoded JSON as Python values

    Numbers are [int] ([JInt]) or [float] ([JFloat], an IEEE 754 double:
    a number written with a fraction or an exponent, [Infinity], [NaN]);
    a [JDict] lists the dict's entries in order, keys distinct. *)
#[warnings="-register-all"]
Inductive json : Type :=
  | JNull
  | JBool (b : bool)
  | JInt (n : Z)
  | JStr (s : string)
  | JList (l : list json)
  | JDict (d : list (string * json))
  | JFloat (f : float).

(** [math.isfinite(f)] *)
Definition float_finite (f : float) : bool :=
  negb (PrimFloat.is_nan f || PrimFloat.is_infinity f).

(** The integer a float is equal to, if there is one. *)
Definition float_to_Z (f : float) : option Z :=
  match Prim2SF f with
  | S754_zero _ => Some 0%Z
  | S754_finite sign m e =>
      let v := if (0 <=? e)%Z then Some (Z.pos m * 2 ^ e)%Z
               else if (Z.pos m mod 2 ^ (- e) =? 0)%Z then Some (Z.pos m / 2 ^ (- e))%Z
               else None in
      if sign then option_map Z.opp v else v
  | _ => None
  end.

(** pydantic's conversion of a float to an [int] in lax mode: the float
    has no fractional part and lies strictly between [-2^63] and [2^63]. *)
Definition float_as_int (f : float) : option Z :=
  match float_to_Z f with
  | Some n => if (- 2 ^ 63 <? n)%Z && (n <? 2 ^ 63)%Z then Some n else None
  | None => None
  end.

(** No [nan] and no infinity anywhere in the value: what
    [json.dumps(v, allow_nan=False)] asks for. *)
Fixpoint finite_json (v : json) : bool :=
  match v with
  | JFloat f => float_finite f
  | JList l => forallb finite_json l
  | JDict d => forallb (fun kv => finite_json (snd kv)) d
  | _ => true
  end.

(** [type(obj).__name__] *)
Definition type_name (obj : json) : string :=
  match obj with
  | JNull => "NoneType"
  | JBool _ => "bool"
  | JInt _ => "int"
  | JStr _ => "str"
  | JList _ => "list"
  | JDict _ => "dict"
  | JFloat _ => "float"
  end.

(** ** Python strings, as UTF-8

    A byte [10xxxxxx] continues the code point begun before it. *)
Definition is_continuation (c : Ascii.ascii) : bool :=
  match c with
  | Ascii.Ascii _ _ _ _ _ _ b6 b7 => b7 && negb b6
  end.


(** [s[:n]]: the first [n] code points. *)
Fixpoint utf8_take (n : nat) (s : string) : string :=
  match s with
  | EmptyString => EmptyString
  | String c rest =>
      if is_continuation c then String c (utf8_take n rest)
      else match n with
           | O => EmptyString
           | S n' => String c (utf8_take n' rest)
           end
  end.

(** The code points of [s], each as a string of its own. *)
Fixpoint code_points (s : string) : list string :=
  match s with
  | EmptyString => []
  | String c rest =>
      let starts_inside :=
        match rest with
        | String c' _ => is_continuation c'
        | EmptyString => false
        end in
      match code_points rest with
      | cp :: cps =>
          if starts_inside then String c cp :: cps
          else String c EmptyString :: cp :: cps
      | [] => [String c EmptyString]
      end
  end.

(** ** Python results: a value or a raised exception

    [ValidationError] is pydantic's; it keeps the message and the input
    value of the first entry of the error list. *)

Inductive exn : Type :=
  | JSONDecodeError
  | ValidationError (msg : string) (input : json)
  | ValueError (msg : string)
  | TypeError (msg : string)
  | AttributeError (msg : string)
  | KeyError (key : string)
  | IndexError (msg : string)
  | NameError (name : string)
  | UnboundLocalError (name : string)
  | RuntimeError (msg : string).

(** [str(e)] *)
Definition exn_str (e : exn) : string :=
  match e with
  | JSONDecodeError => "Expecting value"
  | ValidationError m _ => m
  | ValueError m | TypeError m | AttributeError m
  | IndexError m | RuntimeError m => m
  | KeyError k => "'" ++ k ++ "'"
  | NameError n => "name '" ++ n ++ "' is not defined"
  | UnboundLocalError n =>
      "cannot access local variable '" ++ n ++ "' where it is not associated with a value"
  end.

Inductive res (A : Type) : Type :=
  | Ok (a : A)
  | Raise (e : exn).
Arguments Ok {A} a.
Arguments Raise {A} e.

Definition res_bind {A B} (r : res A) (k : A -> res B) : res B :=
  match r with
  | Ok a => k a
  | Raise e => Raise e
  end.

Definition is_Ok {A} (r : res A) : bool :=
  match r with Ok _ => true | Raise _ => false end.

(** ** custom_types.py *)

Inductive TaskState : Type :=
  | SUBMITTED | WORKING | INPUT_REQUIRED | AUTH_REQUIRED
  | COMPLETED | CANCELED | REJECTED | FAILED | UNKNOWN.

Module A2AErrorCodes.
Definition PARSE_ERROR : Z := (-32700)%Z.
Definition INVALID_REQUEST : Z := (-32600)%Z.
Definition METHOD_NOT_FOUND : Z := (-32601)%Z.
Definition INVALID_PARAMS : Z := (-32602)%Z.
Definition INTERNAL_ERROR : Z := (-32603)%Z.
Definition TASK_NOT_FOUND : Z := (-32001)%Z.
Definition TASK_NOT_CANCELABLE : Z := (-32002)%Z.
Definition PUSH_NOTIFICATION_NOT_SUPPORTED : Z := (-32003)%Z.
Definition UNSUPPORTED_OPERATION : Z := (-32004)%Z.
Definition CONTENT_TYPE_NOT_SUPPORTED : Z := (-32005)%Z.
Definition INVALID_AGENT_RESPONSE : Z := (-32006)%Z.
End A2AErrorCodes.

Inductive Role : Type := user | agent.

Record FileContent : Type := {
  file_name : option string;
  file_mimeType : option string;
  file_bytes : option string;
  file_uri : option string }.

(** Legacy parts, discriminated by [type]. *)
Inductive Part : Type :=
  | TextPart (text : string)
  | FilePart (file : FileContent)
  | DataPart (data : json).

(** A2A parts, discriminated by [kind]. *)
Inductive A2APart : Type :=
  | A2ATextPart (text : string) (mimeType : option string)
  | A2AFilePart (file : FileContent)
  | A2ADataPart (data : json).

Definition kind (p : A2APart) : string :=
  match p with
  | A2ATextPart _ _ => "text"
  | A2AFilePart _ => "file"
  | A2ADataPart _ => "data"
  end.

Record A2AMessage : Type := {
  a2a_role : Role;
  a2a_parts : list A2APart;
  messageId : string;
  taskId : option string;
  contextId : option string }.

Record Message : Type := {
  role : Role;
  parts : list Part }.

Inductive StatusMessage : Type :=
  | LegacyMessage (m : Message)
  | ProtocolMessage (m : A2AMessage).

Record TaskStatus : Type := {
  state : TaskState;
  message : option StatusMessage }.

Record Artifact : Type := {
  artifactId : string;
  artifact_parts : list A2APart;
  append : option bool;
  lastChunk : option bool }.

Record Task : Type := {
  id : string;
  task_contextId : string;
  status : TaskStatus;
  artifacts : option (list Artifact);
  history : option (list Message) }.

Record TaskStatusUpdateEvent : Type := {
  status_taskId : string;
  status_contextId : string;
  event_status : TaskStatus;
  final : bool }.

Record TaskArtifactUpdateEvent : Type := {
  artifact_taskId : string;
  artifact_contextId : string;
  artifact : Artifact }.

Record PushNotificationConfig : Type := {
  url : string;
  token : option string }.

Record TaskIdParams : Type := {
  params_id : string;
  query_historyLength : option Z }.

Record TaskSendParams : Type := {
  send_id : string;
  sessionId : string;
  send_message : Message;
  acceptedOutputModes : option (list string);
  pushNotification : option PushNotificationConfig;
  historyLength : option Z }.

Record TaskPushNotificationConfig : Type := {
  config_id : string;
  pushNotificationConfig : PushNotificationConfig }.

Record MessageSendParams : Type := {
  params_message : A2AMessage }.

(** [id: int | str | None] of [JSONRPCMessage]. *)
Inductive JId : Type :=
  | IdInt (n : Z)
  | IdStr (s : string)
  | IdNone.

(** [data: Any | None]: the values the code puts there are decoded JSON. *)
Record JSONRPCError : Type := {
  code : Z;
  error_message : string;
  data : option json }.

Record A2AMessageResponse : Type := {
  resp_parts : list A2APart;
  resp_messageId : string;
  resp_contextId : option string }.

Record A2ATaskResponse : Type := {
  tr_id : string;
  tr_contextId : string;
  tr_status : TaskStatus;
  tr_artifacts : option (list Artifact) }.

(** [result: Any] of [JSONRPCResponse], restricted to the values the
    handlers put there. *)
Inductive ResultValue : Type :=
  | ResTask (t : Task)
  | ResA2ATask (t : A2ATaskResponse)
  | ResA2AMessage (m : A2AMessageResponse)
  | ResStatusEvent (e : TaskStatusUpdateEvent)
  | ResArtifactEvent (e : TaskArtifactUpdateEvent)
  | ResPushConfig (c : TaskPushNotificationConfig).

Record JSONRPCResponse : Type := {
  response_id : JId;
  result : option ResultValue;
  error : option JSONRPCError }.

(** [JSONRPCResponse(id=.., result=.., error=..)]: pydantic runs the
    [validate_result_or_error] model validator after the fields are set and
    the constructor raises when it does.  The subclasses [SendTaskResponse],
    [A2AMessageSendResponse], [SendTaskStreamingResponse] inherit it.  The
    input pydantic reports for this error is the mapping of the keyword
    arguments, which holds model instances and is not decoded JSON; no
    call site of the sources passes both keywords or neither. *)
Definition validate_result_or_error (self : JSONRPCResponse) : res JSONRPCResponse :=
  match result self, error self with
  | Some _, Some _ =>
      Raise (ValidationError "result and error are mutually exclusive" JNull)
  | None, None =>
      Raise (ValidationError "Either result or error must be present" JNull)
  | _, _ => Ok self
  end.

Definition new_JSONRPCResponse (i : JId) (r : option ResultValue)
    (e : option JSONRPCError) : res JSONRPCResponse :=
  validate_result_or_error {| response_id := i; result := r; error := e |}.

(** Keyword arguments at the call sites of the error classes. *)
Inductive kwargs : Type :=
  | no_kwargs
  | kw_data (d : json)
  | kw_message (m : string).

(** The error classes define [__init__(self, data=None)]; a call with
    [message=...] does not match that signature and raises [TypeError]
    before the body runs. *)
Definition init_with_data (cls : string) (c : Z) (m : string) (kw : kwargs)
    : res JSONRPCError :=
  match kw with
  | no_kwargs => Ok {| code := c; error_message := m; data := None |}
  | kw_data d => Ok {| code := c; error_message := m; data := Some d |}
  | kw_message _ =>
      Raise (TypeError (cls ++ ".__init__() got an unexpected keyword argument 'message'"))
  end.

Definition JSONParseError : kwargs -> res JSONRPCError :=
  init_with_data "JSONParseError" A2AErrorCodes.PARSE_ERROR "Invalid JSON payload".
Definition InvalidRequestError : kwargs -> res JSONRPCError :=
  init_with_data "InvalidRequestError" A2AErrorCodes.INVALID_REQUEST "Invalid JSON-RPC Request".
Definition InvalidParamsError : kwargs -> res JSONRPCError :=
  init_with_data "InvalidParamsError" A2AErrorCodes.INVALID_PARAMS "Invalid method parameters".
Definition InternalError : kwargs -> res JSONRPCError :=
  init_with_data "InternalError" A2AErrorCodes.INTERNAL_ERROR "Internal server error".

(** [MethodNotFoundError(method=None)], [TaskNotFoundError(task_id=None)],
    [ContentTypeNotSupportedError(content_type=None)]. *)
Definition MethodNotFoundError (method : option string) : JSONRPCError :=
  match method with
  | Some m => if decide (m = "") then
                {| code := A2AErrorCodes.METHOD_NOT_FOUND;
                   error_message := "Method not found"; data := None |}
              else
                {| code := A2AErrorCodes.METHOD_NOT_FOUND;
                   error_message := "Method not found: " ++ m;
                   data := Some (JDict [("method", JStr m)]) |}
  | None => {| code := A2AErrorCodes.METHOD_NOT_FOUND;
               error_message := "Method not found"; data := None |}
  end.

Definition TaskNotFoundError (task_id : option string) : JSONRPCError :=
  match task_id with
  | Some t => if decide (t = "") then
                {| code := A2AErrorCodes.TASK_NOT_FOUND;
                   error_message := "Task not found"; data := None |}
              else
                {| code := A2AErrorCodes.TASK_NOT_FOUND;
                   error_message := "Task not found: " ++ t;
                   data := Some (JDict [("task_id", JStr t)]) |}
  | None => {| code := A2AErrorCodes.TASK_NOT_FOUND;
               error_message := "Task not found"; data := None |}
  end.

Definition ContentTypeNotSupportedError : JSONRPCError :=
  {| code := A2AErrorCodes.CONTENT_TYPE_NOT_SUPPORTED;
     error_message := "Incompatible content types"; data := None |}.

(** ** custom_types.py: [model_dump(exclude_none=True)]

    The fields of each model in declaration order, those that are [None]
    left out.  A field the records above do not carry is at its default:
    [None] (left out) or, for [kind], [type] and the [mimeType] of a data
    part, its literal.  [timestamp] is left out with the records. *)

Definition dump_optional {A} (key : string) (dump : A -> json) (o : option A)
    : list (string * json) :=
  match o with
  | Some a => [(key, dump a)]
  | None => []
  end.

Definition TaskState_value (st : TaskState) : string :=
  match st with
  | SUBMITTED => "submitted"
  | WORKING => "working"
  | INPUT_REQUIRED => "input-required"
  | AUTH_REQUIRED => "auth-required"
  | COMPLETED => "completed"
  | CANCELED => "canceled"
  | REJECTED => "rejected"
  | FAILED => "failed"
  | UNKNOWN => "unknown"
  end.

Definition Role_value (r : Role) : string :=
  match r with
  | user => "user"
  | agent => "agent"
  end.

Definition dump_FileContent (f : FileContent) : json :=
  JDict (dump_optional "name" JStr (file_name f)
         ++ dump_optional "mimeType" JStr (file_mimeType f)
         ++ dump_optional "bytes" JStr (file_bytes f)
         ++ dump_optional "uri" JStr (file_uri f))%list.

Definition dump_Part (p : Part) : json :=
  match p with
  | TextPart text => JDict [("type", JStr "text"); ("text", JStr text)]
  | FilePart file => JDict [("type", JStr "file"); ("file", dump_FileContent file)]
  | DataPart data => JDict [("type", JStr "data"); ("data", data)]
  end.

Definition dump_A2APart (p : A2APart) : json :=
  match p with
  | A2ATextPart text mimeType =>
      JDict ([("kind", JStr "text"); ("text", JStr text)]
             ++ dump_optional "mimeType" JStr mimeType)%list
  | A2AFilePart file => JDict [("kind", JStr "file"); ("file", dump_FileContent file)]
  | A2ADataPart data =>
      JDict [("kind", JStr "data"); ("data", data); ("mimeType", JStr "application/json")]
  end.

Definition dump_Message (m : Message) : json :=
  JDict [("role", JStr (Role_value (role m))); ("parts", JList (map dump_Part (parts m)))].

Definition dump_A2AMessage (m : A2AMessage) : json :=
  JDict ([("role", JStr (Role_value (a2a_role m)));
          ("parts", JList (map dump_A2APart (a2a_parts m)));
          ("messageId", JStr (messageId m))]
         ++ dump_optional "taskId" JStr (taskId m)
         ++ dump_optional "contextId" JStr (contextId m)
         ++ [("kind", JStr "message")])%list.

Definition dump_StatusMessage (m : StatusMessage) : json :=
  match m with
  | LegacyMessage m => dump_Message m
  | ProtocolMessage m => dump_A2AMessage m
  end.

Definition dump_TaskStatus (st : TaskStatus) : json :=
  JDict ([("state", JStr (TaskState_value (state st)))]
         ++ dump_optional "message" dump_StatusMessage (message st))%list.

Definition dump_Artifact (a : Artifact) : json :=
  JDict ([("artifactId", JStr (artifactId a));
          ("parts", JList (map dump_A2APart (artifact_parts a)))]
         ++ dump_optional "append" JBool (append a)
         ++ dump_optional "lastChunk" JBool (lastChunk a))%list.

Definition dump_A2ATaskResponse (t : A2ATaskResponse) : json :=
  JDict ([("id", JStr (tr_id t)); ("contextId", JStr (tr_contextId t));
          ("status", dump_TaskStatus (tr_status t))]
         ++ dump_optional "artifacts" (fun l => JList (map dump_Artifact l)) (tr_artifacts t)
         ++ [("kind", JStr "task")])%list.

Definition dump_Task (t : Task) : json :=
  JDict ([("id", JStr (id t)); ("contextId", JStr (task_contextId t));
          ("status", dump_TaskStatus (status t))]
         ++ dump_optional "artifacts" (fun l => JList (map dump_Artifact l)) (artifacts t)
         ++ dump_optional "history" (fun l => JList (map dump_Message l)) (history t)
         ++ [("kind", JStr "task")])%list.

Definition dump_A2AMessageResponse (m : A2AMessageResponse) : json :=
  JDict ([("role", JStr "agent");
          ("parts", JList (map dump_A2APart (resp_parts m)));
          ("messageId", JStr (resp_messageId m))]
         ++ dump_optional "contextId" JStr (resp_contextId m)
         ++ [("kind", JStr "message")])%list.

Definition dump_TaskStatusUpdateEvent (e : TaskStatusUpdateEvent) : json :=
  JDict [("taskId", JStr (status_taskId e)); ("contextId", JStr (status_contextId e));
         ("status", dump_TaskStatus (event_status e)); ("kind", JStr "status-update");
         ("final", JBool (final e))].

Definition dump_TaskArtifactUpdateEvent (e : TaskArtifactUpdateEvent) : json :=
  JDict [("taskId", JStr (artifact_taskId e)); ("contextId", JStr (artifact_contextId e));
         ("artifact", dump_Artifact (artifact e)); ("kind", JStr "artifact-update");
         ("append", JBool false); ("lastChunk", JBool false); ("final", JBool false)].

Definition dump_PushNotificationConfig (c : PushNotificationConfig) : json :=
  JDict ([("url", JStr (url c))] ++ dump_optional "token" JStr (token c))%list.

Definition dump_TaskPushNotificationConfig (c : TaskPushNotificationConfig) : json :=
  JDict [("id", JStr (config_id c));
         ("pushNotificationConfig", dump_PushNotificationConfig (pushNotificationConfig c))].

Definition dump_ResultValue (v : ResultValue) : json :=
  match v with
  | ResTask t => dump_Task t
  | ResA2ATask t => dump_A2ATaskResponse t
  | ResA2AMessage m => dump_A2AMessageResponse m
  | ResStatusEvent e => dump_TaskStatusUpdateEvent e
  | ResArtifactEvent e => dump_TaskArtifactUpdateEvent e
  | ResPushConfig c => dump_TaskPushNotificationConfig c
  end.

Definition dump_JId (i : JId) : option json :=
  match i with
  | IdInt n => Some (JInt n)
  | IdStr s => Some (JStr s)
  | IdNone => None
  end.

Definition dump_JSONRPCError (e : JSONRPCError) : json :=
  JDict ([("code", JInt (code e)); ("message", JStr (error_message e))]
         ++ dump_optional "data" (fun d => d) (data e))%list.

Definition dump_JSONRPCResponse (r : JSONRPCResponse) : json :=
  JDict ([("jsonrpc", JStr "2.0")]
         ++ dump_optional "id" (fun j => j) (dump_JId (response_id r))
         ++ dump_optional "result" dump_ResultValue (result r)
         ++ dump_optional "error" dump_JSONRPCError (error r))%list.

(** ** The task manager's mutable state and its monad *)

(** Items put on a consumer's queue by [enqueue_events_for_sse]. *)
Inductive SSEItem : Type :=
  | StatusItem (e : TaskStatusUpdateEvent)
  | ArtifactItem (e : TaskArtifactUpdateEvent)
  | ErrorItem (e : JSONRPCError).

(** The attributes of [InMemoryTaskManager] ([tasks],
    [push_notification_infos], [task_sse_subscribers]) together with three
    observation logs: how many uuids were drawn, with which arguments the
    agent was called, and which push notifications were sent. *)
Record TM : Type := {
  tasks : gmap string Task;
  push_notification_infos : gmap string PushNotificationConfig;
  task_sse_subscribers : gmap string (list nat);
  sse_queues : gmap nat (list SSEItem);
  uuid_count : nat;
  agent_calls : list (string * string);
  sent_notifications : list (string * Task) }.

Definition set_tasks (f : gmap string Task -> gmap string Task) (s : TM) : TM :=
  {| tasks := f (tasks s);
     push_notification_infos := push_notification_infos s;
     task_sse_subscribers := task_sse_subscribers s;
     sse_queues := sse_queues s;
     uuid_count := uuid_count s;
     agent_calls := agent_calls s;
     sent_notifications := sent_notifications s |}.

Definition set_push_notification_infos
    (f : gmap string PushNotificationConfig -> gmap string PushNotificationConfig)
    (s : TM) : TM :=
  {| tasks := tasks s;
     push_notification_infos := f (push_notification_infos s);
     task_sse_subscribers := task_sse_subscribers s;
     sse_queues := sse_queues s;
     uuid_count := uuid_count s;
     agent_calls := agent_calls s;
     sent_notifications := sent_notifications s |}.

Definition set_sse (subs : gmap string (list nat)) (qs : gmap nat (list SSEItem))
    (s : TM) : TM :=
  {| tasks := tasks s;
     push_notification_infos := push_notification_infos s;
     task_sse_subscribers := subs;
     sse_queues := qs;
     uuid_count := uuid_count s;
     agent_calls := agent_calls s;
     sent_notifications := sent_notifications s |}.

Definition M (A : Type) : Type := TM -> res A * TM.

Definition ret {A} (a : A) : M A := fun s => (Ok a, s).
Definition raise {A} (e : exn) : M A := fun s => (Raise e, s).
Definition bind {A B} (m : M A) (k : A -> M B) : M B :=
  fun s => match m s with
           | (Ok a, s') => k a s'
           | (Raise e, s') => (Raise e, s')
           end.
Definition lift {A} (r : res A) : M A := fun s => (r, s).

(** [try: m  except Exception as e: h e] *)
Definition try_except {A} (m : M A) (h : exn -> M A) : M A :=
  fun s => match m s with
           | (Ok a, s') => (Ok a, s')
           | (Raise e, s') => h e s'
           end.

Declare Scope tm_scope.
Delimit Scope tm_scope with tm.
Notation "'let*' x ':=' m 'in' k" := (bind m (fun x => k))
  (at level 10, x name, m at level 200, k at level 200, only parsing) : tm_scope.
Notation "m ;; k" := (bind m (fun _ => k))
  (at level 100, k at level 200, only parsing, right associativity) : tm_scope.
Local Open Scope tm_scope.

(** [AgentResponse = Dict[str, Any]]: the three keys the handlers read,
    each possibly missing. *)
Record AgentResponse : Type := {
  is_task_complete : option bool;
  require_user_input : option bool;
  content : option string }.

(** [d[key]] and [d.get(key, default)] *)
Definition getitem {A} (key : string) (v : option A) : res A :=
  match v with
  | Some a => Ok a
  | None => Raise (KeyError key)
  end.
Definition get_default {A} (v : option A) (default : A) : A :=
  match v with
  | Some a => a
  | None => default
  end.

(** The [CLIAgent] protocol.  [stream] is an async generator: the items it
    yields, a [Raise] standing for an exception raised at that point. *)
Record CLIAgent : Type := {
  SUPPORTED_CONTENT_TYPES : list string;
  invoke_async : string -> string -> res AgentResponse;
  stream : string -> string -> list (res AgentResponse) }.

(** [PushNotificationSenderAuth], seen through the one answer the manager
    uses: whether the challenge sent to a url was answered. *)
Record PushNotificationSenderAuth : Type := {
  verify_push_notification_url : string -> bool }.

Record CLIAgentTaskManager : Type := {
  self_agent : CLIAgent;
  notification_sender_auth : PushNotificationSenderAuth }.

(** [a or b] on an optional string: [None] and the empty string are falsy. *)
Definition truthy (o : option string) : bool :=
  match o with
  | Some s => if decide (s = "") then false else true
  | None => false
  end.

Module InMemoryTaskManager.

(** Modelled from the spec: [shared/abc_task_manager.py] is missing.
    [upsert(id, initialMessage)] creates the task if absent
    (state SUBMITTED, history [initialMessage]); if present it appends
    the message to history and leaves the state untouched. *)
Definition upsert_task (p : TaskSendParams) : M Task :=
  fun s =>
    let t := match tasks s !! send_id p with
             | None =>
                 {| id := send_id p; task_contextId := sessionId p;
                    status := {| state := SUBMITTED; message := None |};
                    artifacts := None;
                    history := Some [send_message p] |}
             | Some t =>
                 {| id := id t; task_contextId := task_contextId t;
                    status := status t; artifacts := artifacts t;
                    history := Some (default [] (history t) ++ [send_message p])%list |}
             end in
    (Ok t, set_tasks (insert (send_id p) t) s).

(** Modelled from the spec: [updateState(id, newStatus, newArtifacts?)]
    replaces [status], appends [newArtifacts] to [artifacts], returns the
    new snapshot, and fails if the id is unknown. *)
Definition update_store (task_id : string) (st : TaskStatus)
    (arts : option (list Artifact)) : M Task :=
  fun s =>
    match tasks s !! task_id with
    | None => (Raise (ValueError ("Task " ++ task_id ++ " not found")), s)
    | Some t =>
        let t' := {| id := id t; task_contextId := task_contextId t;
                     status := st;
                     artifacts := match arts with
                                  | None => artifacts t
                                  | Some l => Some (default [] (artifacts t) ++ l)%list
                                  end;
                     history := history t |} in
        (Ok t', set_tasks (insert task_id t') s)
    end.

(** Modelled from the spec: [get(id, historyLimit?)] returns a snapshot;
    if a limit is given it truncates the returned history to the most
    recent N entries without mutating the stored one. *)
Definition append_task_history (t : Task) (historyLength : option Z) : Task :=
{| id := id t; task_contextId := task_contextId t; status := status t;
   artifacts := artifacts t;
   history :=
     match historyLength, history t with
     | Some n, Some h => Some (drop (length h - Z.to_nat n) h)
     | _, h => h
     end |}.

(** Modelled from the spec: the registry's store and lookup, keyed by
    task id. *)
Definition set_push_notification_info (task_id : string)
    (c : PushNotificationConfig) : M unit :=
  fun s => (Ok tt, set_push_notification_infos (insert task_id c) s).

Definition has_push_notification_info (task_id : string) : M bool :=
  fun s => (Ok (bool_decide (is_Some (push_notification_infos s !! task_id))), s).

Definition get_push_notification_info (task_id : string) : M PushNotificationConfig :=
  fun s => match push_notification_infos s !! task_id with
           | Some c => (Ok c, s)
           | None => (Raise (KeyError task_id), s)
           end.

(** Modelled from the spec: [subscribe(taskId)] attaches a new consumer
    with an empty queue; a resubscription fails if the task is unknown
    or already finalized, that is, has no registration in the hub. *)
Definition setup_sse_consumer (task_id : string) (is_resubscribe : bool) : M nat :=
  fun s =>
    match task_sse_subscribers s !! task_id with
    | None =>
        if is_resubscribe then
          (Raise (ValueError "Task not found for resubscription"), s)
        else
          let q := size (sse_queues s) in
          (Ok q, set_sse (<[task_id := [q]]> (task_sse_subscribers s))
                         (<[q := []]> (sse_queues s)) s)
    | Some qs =>
        let q := size (sse_queues s) in
        (Ok q, set_sse (<[task_id := (qs ++ [q])%list]> (task_sse_subscribers s))
                       (<[q := []]> (sse_queues s)) s)
    end.

Definition is_final (item : SSEItem) : bool :=
  match item with
  | StatusItem e => final e
  | _ => false
  end.

Definition put_item (item : SSEItem) (qs : gmap nat (list SSEItem)) (q : nat)
    : gmap nat (list SSEItem) :=
  <[q := (default [] (qs !! q) ++ [item])%list]> qs.

(** Modelled from the spec: [publish(taskId, event)] enqueues one event
    for every currently attached consumer of the task; once an event
    marked final is published the hub discards the task's registration. *)
Definition enqueue_events_for_sse (task_id : string) (item : SSEItem) : M unit :=
  fun s =>
    match task_sse_subscribers s !! task_id with
    | None => (Ok tt, s)
    | Some consumers =>
        let qs := foldl (put_item item) (sse_queues s) consumers in
        let subs := if is_final item then delete task_id (task_sse_subscribers s)
                    else task_sse_subscribers s in
        (Ok tt, set_sse subs qs s)
    end.

End InMemoryTaskManager.

(** ** JSON-RPC requests *)

(** A validated request: [id] and the typed [params]; the [method] literal
    is carried by the constructor of [A2ARequest] below. *)
Record Req (P : Type) : Type := {
  req_id : JId;
  req_params : P }.
Arguments req_id {P} r.
Arguments req_params {P} r.

Inductive A2ARequest : Type :=
  | A2AMessageSendRequest (r : Req MessageSendParams)
  | A2AMessageStreamRequest (r : Req MessageSendParams)
  | GetTaskRequest (r : Req TaskIdParams)
  | CancelTaskRequest (r : Req TaskIdParams)
  | SetTaskPushNotificationRequest (r : Req TaskPushNotificationConfig)
  | GetTaskPushNotificationRequest (r : Req TaskIdParams)
  | TaskResubscriptionRequest (r : Req TaskIdParams)
  | SendTaskRequest (r : Req TaskSendParams)
  | SendTaskStreamingRequest (r : Req TaskSendParams).

(** What a handler hands back to the server: one response, or the async
    iterator reading a consumer queue. *)
Inductive HandlerResult : Type :=
  | Single (r : JSONRPCResponse)
  | EventStream (request_id : JId) (task_id : string) (queue : nat).

(** [TaskStatusUpdateEvent(...)] and [TaskArtifactUpdateEvent(...)] by
    keyword: [taskId] and [contextId] are required fields without a
    default, so pydantic raises when a call does not pass them; keywords
    that are not fields (such as [id]) are ignored.  The input of the
    error is the mapping of the keyword arguments, not decoded JSON. *)
Definition new_TaskStatusUpdateEvent (kw_taskId kw_contextId : option string)
    (st : TaskStatus) (fin : bool) : res TaskStatusUpdateEvent :=
  match kw_taskId, kw_contextId with
  | Some t, Some c =>
      Ok {| status_taskId := t; status_contextId := c; event_status := st; final := fin |}
  | _, _ => Raise (ValidationError "Field required" JNull)
  end.

Definition new_TaskArtifactUpdateEvent (kw_taskId kw_contextId : option string)
    (a : Artifact) : res TaskArtifactUpdateEvent :=
  match kw_taskId, kw_contextId with
  | Some t, Some c =>
      Ok {| artifact_taskId := t; artifact_contextId := c; artifact := a |}
  | _, _ => Raise (ValidationError "Field required" JNull)
  end.

(** ** base_cli_task_manager.py: [CLIAgentTaskManager] *)

Section CLIAgentTaskManager.

(** [uuid4 n] is the n-th value drawn from [uuid.uuid4()], as text. *)
Variable uuid4 : nat -> string.
(** [utils.are_modalities_compatible], from the missing [shared/utils.py]. *)
Variable are_modalities_compatible : option (list string) -> list string -> bool.
Variable self : CLIAgentTaskManager.

Import InMemoryTaskManager.

Definition fresh_uuid : M string :=
  fun s =>
    (Ok (uuid4 (uuid_count s)),
     {| tasks := tasks s;
        push_notification_infos := push_notification_infos s;
        task_sse_subscribers := task_sse_subscribers s;
        sse_queues := sse_queues s;
        uuid_count := S (uuid_count s);
        agent_calls := agent_calls s;
        sent_notifications := sent_notifications s |}).

Definition log_agent_call (query session_id : string) (s : TM) : TM :=
  {| tasks := tasks s;
     push_notification_infos := push_notification_infos s;
     task_sse_subscribers := task_sse_subscribers s;
     sse_queues := sse_queues s;
     uuid_count := uuid_count s;
     agent_calls := (agent_calls s ++ [(query, session_id)])%list;
     sent_notifications := sent_notifications s |}.

(** [await self.agent.invoke_async(query, session_id)] *)
Definition agent_invoke_async (query session_id : string) : M AgentResponse :=
  fun s => (invoke_async (self_agent self) query session_id,
            log_agent_call query session_id s).

(** [self.agent.stream(query, session_id)] *)
Definition agent_stream (query session_id : string) : M (list (res AgentResponse)) :=
  fun s => (Ok (stream (self_agent self) query session_id),
            log_agent_call query session_id s).

(** Modelled from the spec: [utils.new_incompatible_types_error] is
    missing; the error is the protocol's ContentTypeNotSupported. *)
Definition new_incompatible_types_error (request_id : JId) : res JSONRPCResponse :=
  new_JSONRPCResponse request_id None (Some ContentTypeNotSupportedError).

Definition _get_user_query (task_send_params : TaskSendParams) : res string :=
  match parts (send_message task_send_params) with
  | [] => Raise (IndexError "list index out of range")
  | TextPart text :: _ => Ok text
  | _ :: _ => Raise (ValueError "Only text parts are supported")
  end.

(** The delivery itself ([send_push_notification]) is recorded in
    [sent_notifications]. *)
Definition send_task_notification (task : Task) : M unit :=
  let* has := has_push_notification_info (id task) in
  if negb has then ret tt
  else
    let* push_info := get_push_notification_info (id task) in
    fun s =>
      (Ok tt,
       {| tasks := tasks s;
          push_notification_infos := push_notification_infos s;
          task_sse_subscribers := task_sse_subscribers s;
          sse_queues := sse_queues s;
          uuid_count := uuid_count s;
          agent_calls := agent_calls s;
          sent_notifications := (sent_notifications s ++ [(url push_info, task)])%list |}).

Definition set_push_notification_info (task_id : string)
    (push_notification_config : PushNotificationConfig) : M bool :=
  let is_verified :=
    verify_push_notification_url (notification_sender_auth self)
      (url push_notification_config) in
  if negb is_verified then ret false
  else
    InMemoryTaskManager.set_push_notification_info task_id push_notification_config ;;
    ret true.

Definition _validate_request (request : Req TaskSendParams)
    : res (option JSONRPCResponse) :=
  let task_send_params := req_params request in
  if negb (are_modalities_compatible (acceptedOutputModes task_send_params)
             (SUPPORTED_CONTENT_TYPES (self_agent self))) then
    res_bind (new_incompatible_types_error (req_id request)) (fun r => Ok (Some r))
  else
    match pushNotification task_send_params with
    | Some pn =>
        if decide (url pn = "") then
          res_bind (InvalidParamsError (kw_message "Push notification URL is missing"))
            (fun e =>
               res_bind (new_JSONRPCResponse (req_id request) None (Some e))
                 (fun r => Ok (Some r)))
        else Ok None
    | None => Ok None
    end.

Definition _process_agent_response (request : Req TaskSendParams)
    (agent_response : AgentResponse) : M JSONRPCResponse :=
  let task_send_params := req_params request in
  let task_id := send_id task_send_params in
  let history_length := historyLength task_send_params in
  let* text := lift (getitem "content" (content agent_response)) in
  let parts := [A2ATextPart text (Some "text/plain")] in
  let* rui := lift (getitem "require_user_input" (require_user_input agent_response)) in
  let* sa := (if (rui : bool) then
           let* mid := fresh_uuid in
           ret ({| state := INPUT_REQUIRED;
                   message := Some (ProtocolMessage
                     {| a2a_role := agent; a2a_parts := parts;
                        messageId := "msg_" ++ mid;
                        taskId := None; contextId := None |}) |},
                None)
         else
           let* aid := fresh_uuid in
           ret ({| state := COMPLETED; message := None |},
                Some {| artifactId := "artifact_" ++ aid; artifact_parts := parts;
                        append := None; lastChunk := None |})) in
  let task_status := fst sa in
  let artifact := snd sa in
  let* task := update_store task_id task_status
            (match artifact with None => None | Some a => Some [a] end) in
  let task_result := append_task_history task history_length in
  send_task_notification task ;;
  lift (new_JSONRPCResponse (req_id request) (Some (ResTask task_result)) None).

(** [verified] is the outcome of the nested test
    [if pushNotification: if not await set_push_notification_info(...)]:
    true when the request carries no push config. *)
Definition on_send_task (request : Req TaskSendParams) : M JSONRPCResponse :=
  let* validation_error := lift (_validate_request request) in
  match validation_error with
  | Some ve => lift (new_JSONRPCResponse (req_id request) None (error ve))
  | None =>
      let* verified :=
        match pushNotification (req_params request) with
        | Some pn => set_push_notification_info (send_id (req_params request)) pn
        | None => ret true
        end in
      if negb verified then
        let* e := lift (InvalidParamsError (kw_message "Push notification URL is invalid")) in
        lift (new_JSONRPCResponse (req_id request) None (Some e))
      else
        upsert_task (req_params request) ;;
        let* task := update_store (send_id (req_params request))
                  {| state := WORKING; message := None |} None in
        send_task_notification task ;;
        let task_send_params := req_params request in
        let* query := lift (_get_user_query task_send_params) in
        let* agent_response :=
          try_except (agent_invoke_async query (sessionId task_send_params))
            (fun e => raise (ValueError ("Error invoking agent: " ++ exn_str e))) in
        _process_agent_response request agent_response
  end.

(** The loop [for part in request.params.message.parts:
    if part.kind == "text": message_text += part.text], from
    [message_text = ""]. *)
Definition message_text_of (ps : list A2APart) : string :=
  fold_left (fun message_text part =>
               match part with
               | A2ATextPart text _ => message_text ++ text
               | _ => message_text
               end) ps "".

(** [opt or str(uuid.uuid4())]: the uuid is drawn only when [opt] is falsy. *)
Definition or_uuid (opt : option string) : M string :=
  if truthy opt then ret (default "" opt) else fresh_uuid.

(** [on_a2a_message_send] is defined twice in the class body; the second
    definition, embedded here, replaces the first. *)
Definition on_a2a_message_send (request : Req MessageSendParams) : M JSONRPCResponse :=
  let msg := params_message (req_params request) in
  let message_text := message_text_of (a2a_parts msg) in
  let* task_id := or_uuid (taskId msg) in
  let* session_id := or_uuid (contextId msg) in
  try_except
    (let* agent_response := agent_invoke_async message_text session_id in
     if get_default (is_task_complete agent_response) false then
       let content := get_default (content agent_response) "Task completed" in
       let* aid := fresh_uuid in
       let artifact := {| artifactId := aid;
                          artifact_parts := [A2ATextPart content (Some "text/plain")];
                          append := None; lastChunk := None |} in
       let task_response :=
         {| tr_id := task_id; tr_contextId := session_id;
            tr_status := {| state := COMPLETED; message := None |};
            tr_artifacts := Some [artifact] |} in
       lift (new_JSONRPCResponse (req_id request) (Some (ResA2ATask task_response)) None)
     else
       let content := get_default (content agent_response) "Task in progress" in
       let task_response :=
         {| tr_id := task_id; tr_contextId := session_id;
            tr_status :=
              {| state := INPUT_REQUIRED;
                 message := Some (LegacyMessage
                   {| role := agent; parts := [TextPart content] |}) |};
            tr_artifacts := None |} in
       lift (new_JSONRPCResponse (req_id request) (Some (ResA2ATask task_response)) None))
    (fun e =>
       let error_task :=
         {| tr_id := task_id; tr_contextId := session_id;
            tr_status :=
              {| state := FAILED;
                 message := Some (LegacyMessage
                   {| role := agent; parts := [TextPart ("Error: " ++ exn_str e)] |}) |};
            tr_artifacts := None |} in
       lift (new_JSONRPCResponse (req_id request) (Some (ResA2ATask error_task)) None)).

(** One iteration of the [async for] loop of [_run_streaming_agent]. *)
Definition stream_item (task_send_params : TaskSendParams) (item : AgentResponse)
    : M unit :=
  let* is_task_complete := lift (getitem "is_task_complete" (is_task_complete item)) in
  let* require_user_input :=
    lift (getitem "require_user_input" (require_user_input item)) in
  let* text := lift (getitem "content" (content item)) in
  let parts := [A2ATextPart text (Some "text/plain")] in
  let* chunk :=
    (if negb is_task_complete && negb require_user_input then
       let* mid := fresh_uuid in
       ret (WORKING,
            Some (ProtocolMessage {| a2a_role := agent; a2a_parts := parts;
                                     messageId := "msg_" ++ mid;
                                     taskId := None; contextId := None |}),
            None, false)
     else if (require_user_input : bool) then
       let* mid := fresh_uuid in
       ret (INPUT_REQUIRED,
            Some (ProtocolMessage {| a2a_role := agent; a2a_parts := parts;
                                     messageId := "msg_" ++ mid;
                                     taskId := None; contextId := None |}),
            None, true)
     else
       let* aid := fresh_uuid in
       ret (COMPLETED, None,
            Some {| artifactId := "artifact_" ++ aid; artifact_parts := parts;
                    append := Some false; lastChunk := None |},
            true)) in
  let '(task_state, message, artifact, end_stream) := chunk in
  let task_status := {| state := task_state; message := message |} in
  let* latest_task :=
    update_store (send_id task_send_params) task_status
      (match artifact with None => None | Some a => Some [a] end) in
  send_task_notification latest_task ;;
  match artifact with
  | Some a =>
      (* TaskArtifactUpdateEvent(id=..., artifact=artifact) *)
      let* task_artifact_update_event := lift (new_TaskArtifactUpdateEvent None None a) in
      enqueue_events_for_sse (send_id task_send_params)
        (ArtifactItem task_artifact_update_event)
  | None => ret tt
  end ;;
  (* TaskStatusUpdateEvent(id=..., status=task_status, final=end_stream) *)
  let* task_update_event :=
    lift (new_TaskStatusUpdateEvent None None task_status end_stream) in
  enqueue_events_for_sse (send_id task_send_params) (StatusItem task_update_event).

Fixpoint stream_loop (task_send_params : TaskSendParams)
    (items : list (res AgentResponse)) : M unit :=
  match items with
  | [] => ret tt
  | Ok item :: rest =>
      stream_item task_send_params item ;; stream_loop task_send_params rest
  | Raise e :: _ => raise e
  end.

Definition _run_streaming_agent (request : Req TaskSendParams) : M unit :=
  let task_send_params := req_params request in
  let* query := lift (_get_user_query task_send_params) in
  try_except
    (let* items := agent_stream query (sessionId task_send_params) in
     stream_loop task_send_params items)
    (fun e =>
       let* err := lift (InternalError (kw_message
                     ("An error occurred while streaming the response: " ++ exn_str e))) in
       enqueue_events_for_sse (send_id task_send_params) (ErrorItem err)).

(** [asyncio.create_task(coro)]: the coroutine runs as a background task;
    an exception that ends it is not raised in the caller. *)
Definition create_task (coro : M unit) : M unit :=
  fun s => (Ok tt, snd (coro s)).

Definition on_send_task_subscribe (request : Req TaskSendParams) : M HandlerResult :=
  try_except
    (let* error := lift (_validate_request request) in
     match error with
     | Some ve => ret (Single ve)
     | None =>
         upsert_task (req_params request) ;;
         let* verified :=
           match pushNotification (req_params request) with
           | Some pn => set_push_notification_info (send_id (req_params request)) pn
           | None => ret true
           end in
         if negb verified then
           let* e := lift (InvalidParamsError
                             (kw_message "Push notification URL is invalid")) in
           let* r := lift (new_JSONRPCResponse (req_id request) None (Some e)) in
           ret (Single r)
         else
           let task_send_params := req_params request in
           let* sse_event_queue := setup_sse_consumer (send_id task_send_params) false in
           create_task (_run_streaming_agent request) ;;
           ret (EventStream (req_id request) (send_id task_send_params) sse_event_queue)
     end)
    (fun e =>
       let* err := lift (InternalError
                           (kw_message "An error occurred while streaming the response")) in
       let* r := lift (new_JSONRPCResponse (req_id request) None (Some err)) in
       ret (Single r)).

Definition on_resubscribe_to_task (request : Req TaskIdParams) : M HandlerResult :=
  let task_id_params := req_params request in
  try_except
    (let* sse_event_queue := setup_sse_consumer (params_id task_id_params) true in
     ret (EventStream (req_id request) (params_id task_id_params) sse_event_queue))
    (fun e =>
       let* err := lift (InternalError (kw_message
                     ("An error occurred while reconnecting to stream: " ++ exn_str e))) in
       let* r := lift (new_JSONRPCResponse (req_id request) None (Some err)) in
       ret (Single r)).

End CLIAgentTaskManager.

(** ** server.py: [A2AServer] *)

(** The HTTP request body: [await request.json()] decodes it, raises
    [json.decoder.JSONDecodeError] on text that is not JSON, or raises
    another [ValueError] before it gets that far (bytes that are not
    UTF-8 give [UnicodeDecodeError], an integer literal beyond the digit
    limit gives [ValueError]). *)
Inductive Request : Type :=
  | Malformed
  | Undecodable (msg : string)
  | Body (body : json).

Definition request_json (request : Request) : res json :=
  match request with
  | Malformed => Raise JSONDecodeError
  | Undecodable msg => Raise (ValueError msg)
  | Body body => Ok body
  end.

Fixpoint assoc (key : string) (d : list (string * json)) : option json :=
  match d with
  | [] => None
  | (k, v) :: rest => if decide (k = key) then Some v else assoc key rest
  end.

(** [obj.get(key, default)]; only dicts have [get]. *)
Definition py_get (obj : json) (key : string) (default : json) : res json :=
  match obj with
  | JDict d => Ok (get_default (assoc key d) default)
  | _ => Raise (AttributeError ("'" ++ type_name obj ++ "' object has no attribute 'get'"))
  end.

(** [obj == 'literal'] *)
Definition py_eq_str (obj : json) (literal : string) : bool :=
  match obj with
  | JStr s => String.eqb s literal
  | _ => false
  end.

(** [obj.keys()] *)
Definition py_keys (obj : json) : res (list string) :=
  match obj with
  | JDict d => Ok (map fst d)
  | _ => Raise (AttributeError ("'" ++ type_name obj ++ "' object has no attribute 'keys'"))
  end.

Definition chars (s : string) : list json := map JStr (code_points s).

(** [for x in obj]: lists yield their elements, dicts their keys, strings
    their characters; the other values are not iterable. *)
Definition py_iter (obj : json) : res (list json) :=
  match obj with
  | JList l => Ok l
  | JDict d => Ok (map (fun kv => JStr (fst kv)) d)
  | JStr s => Ok (chars s)
  | _ => Raise (TypeError ("'" ++ type_name obj ++ "' object is not iterable"))
  end.

(** pydantic field validation of the values the server passes to the
    model constructors. *)
Definition validate_str (field : string) (v : json) : res string :=
  match v with
  | JStr s => Ok s
  | _ => Raise (ValidationError (field ++ ": Input should be a valid string") v)
  end.

Definition validate_optional_str (field : string) (v : json) : res (option string) :=
  match v with
  | JNull => Ok None
  | JStr s => Ok (Some s)
  | _ => Raise (ValidationError (field ++ ": Input should be a valid string") v)
  end.

Definition validate_role (v : json) : res Role :=
  match v with
  | JStr s => if decide (s = "user") then Ok user
              else if decide (s = "agent") then Ok agent
              else Raise (ValidationError "role: Input should be 'user' or 'agent'" v)
  | _ => Raise (ValidationError "role: Input should be 'user' or 'agent'" v)
  end.

(** [id: int | str | None]; pydantic's lax mode turns a bool into an
    int, and a float into an int when it has no fractional part and
    fits 64 bits ([float_as_int]). *)
Definition validate_id (v : json) : res JId :=
  match v with
  | JNull => Ok IdNone
  | JInt n => Ok (IdInt n)
  | JStr s => Ok (IdStr s)
  | JBool b => Ok (IdInt (if b then 1 else 0))
  | JFloat f =>
      match float_as_int f with
      | Some n => Ok (IdInt n)
      | None => Raise (ValidationError "id: Input should be a valid integer or string" v)
      end
  | _ => Raise (ValidationError "id: Input should be a valid integer or string" v)
  end.

(** Starlette responses.  [content] is the response model before
    [model_dump(exclude_none=True)], which drops the fields that are
    [None] (an [id] of [None] included). *)
Inductive HTTPResponse : Type :=
  | JSONResponse (content : JSONRPCResponse) (status_code : Z)
  | EventSourceResponse (request_id : JId) (task_id : string) (queue : nat).

(** [JSONResponse(content.model_dump(exclude_none=True), status_code=...)]:
    the constructor renders the body with [json.dumps(..., allow_nan=False)],
    which raises [ValueError] on a float that is not finite. *)
Definition new_JSONResponse (content : JSONRPCResponse) (status_code : Z)
    : res HTTPResponse :=
  if finite_json (dump_JSONRPCResponse content) then
    Ok (JSONResponse content status_code)
  else Raise (ValueError "Out of range float values are not JSON compliant").

(** [json.loads(e.json())] for a pydantic [ValidationError]: the list of
    its error entries, of which one entry with its [msg] and [input] is
    kept ([type], [loc] and [url] are left out). *)
Definition validation_errors (msg : string) (input : json) : json :=
  JList [JDict [("msg", JStr msg); ("input", input)]].

(** The [TaskManager] interface the server is constructed with. *)
Record TaskManager : Type := {
  on_a2a_message_send_ : Req MessageSendParams -> M HandlerResult;
  on_get_task_ : Req TaskIdParams -> M HandlerResult;
  on_send_task_ : Req TaskSendParams -> M HandlerResult;
  on_send_task_subscribe_ : Req TaskSendParams -> M HandlerResult;
  on_cancel_task_ : Req TaskIdParams -> M HandlerResult;
  on_set_task_push_notification_ : Req TaskPushNotificationConfig -> M HandlerResult;
  on_get_task_push_notification_ : Req TaskIdParams -> M HandlerResult;
  on_resubscribe_to_task_ : Req TaskIdParams -> M HandlerResult }.

(** Names bound by the [from shared.custom_types import ...] statements
    inside the body of [_process_request].  An import inside a function
    makes its names local to the whole function, so reading one of them on
    a path that has not executed the import raises [UnboundLocalError]. *)
Record Locals : Type := {
  local_A2AMessageSendRequest : bool;
  local_InvalidRequestError : bool;
  local_JSONRPCResponse : bool }.

Definition no_locals : Locals :=
  {| local_A2AMessageSendRequest := false;
     local_InvalidRequestError := false;
     local_JSONRPCResponse := false |}.

Definition load_fast (name : string) (bound : bool) : res unit :=
  if bound then Ok tt else Raise (UnboundLocalError name).

(** The names [server.py] imports from [custom_types] at module level. *)
Definition server_globals : list string :=
  [ "A2ARequest"; "AgentCard"; "CancelTaskRequest"; "GetTaskPushNotificationRequest";
    "GetTaskRequest"; "InternalError"; "InvalidRequestError"; "JSONParseError";
    "JSONRPCResponse"; "SendTaskRequest"; "SendTaskStreamingRequest";
    "SetTaskPushNotificationRequest"; "TaskResubscriptionRequest";
    "A2AMessageSendRequest"; "A2AMessageSendResponse"; "A2AMessage"; "A2APart" ].

Definition load_global (name : string) : res unit :=
  if existsb (String.eqb name) server_globals then Ok tt else Raise (NameError name).

Section A2AServer.

(** [A2ARequest.validate_python]: pydantic's [TypeAdapter] over the union
    of request models discriminated by [method]. *)
Variable validate_python : json -> res A2ARequest.
Variable task_manager : TaskManager.

Definition _handle_exception (e : exn) : res HTTPResponse :=
  res_bind
    match e with
    | JSONDecodeError => JSONParseError no_kwargs
    | ValidationError m input => InvalidRequestError (kw_data (validation_errors m input))
    | _ => InternalError no_kwargs
    end
    (fun json_rpc_error =>
       res_bind (new_JSONRPCResponse IdNone None (Some json_rpc_error))
         (fun response => new_JSONResponse response 400)).

Definition _create_response (result : HandlerResult) : res HTTPResponse :=
  match result with
  | EventStream rid tid q => Ok (EventSourceResponse rid tid q)
  | Single r => new_JSONResponse r 200
  end.

(** The [for part_data in message_data.get('parts', [])] loop. *)
Fixpoint parse_parts (items : list json) : res (list A2APart) :=
  match items with
  | [] => Ok []
  | part_data :: rest =>
      res_bind (py_get part_data "kind" JNull) (fun k =>
      if py_eq_str k "text" then
        res_bind (py_get part_data "text" (JStr "")) (fun t =>
        res_bind (py_get part_data "mimeType" (JStr "text/plain")) (fun mt =>
        res_bind (validate_str "text" t) (fun text =>
        res_bind (validate_optional_str "mimeType" mt) (fun mimeType =>
        res_bind (parse_parts rest) (fun parts =>
        Ok (A2ATextPart text mimeType :: parts))))))
      else parse_parts rest)
  end.

(** The inner [try] of the [message/send] branch: the request built by
    hand from the body. *)
Definition parse_message_send (body : json) : res (Req MessageSendParams) :=
  res_bind (py_get body "params" (JDict [])) (fun params =>
  res_bind (py_get params "message" (JDict [])) (fun message_data =>
  res_bind (py_get message_data "parts" (JList [])) (fun parts_data =>
  res_bind (py_iter parts_data) (fun items =>
  res_bind (parse_parts items) (fun parts =>
  res_bind (py_get message_data "role" (JStr "user")) (fun r =>
  res_bind (py_get message_data "messageId" (JStr "auto")) (fun mid =>
  res_bind (validate_role r) (fun role =>
  res_bind (validate_str "messageId" mid) (fun messageId =>
  let a2a_message :=
    {| a2a_role := role; a2a_parts := parts; messageId := messageId;
       taskId := None; contextId := None |} in
  let params := {| params_message := a2a_message |} in
  res_bind (py_get body "id" (JStr "auto")) (fun i =>
  res_bind (validate_id i) (fun request_id =>
  Ok {| req_id := request_id; req_params := params |}))))))))))).

(** [JSONResponse(JSONRPCResponse(id=body.get('id'),
    error=InvalidRequestError(data=str(e))).model_dump(...), status_code=400)],
    reading the two class names from the given local bindings. *)
Definition invalid_request_response (locals : Locals) (body : json) (e : exn)
    : res HTTPResponse :=
  res_bind (load_fast "JSONRPCResponse" (local_JSONRPCResponse locals)) (fun _ =>
  res_bind (py_get body "id" JNull) (fun i =>
  res_bind (load_fast "InvalidRequestError" (local_InvalidRequestError locals)) (fun _ =>
  res_bind (InvalidRequestError (kw_data (JStr (exn_str e)))) (fun err =>
  res_bind (validate_id i) (fun request_id =>
  res_bind (new_JSONRPCResponse request_id None (Some err)) (fun r =>
  new_JSONResponse r 400)))))).

(** The [isinstance] chain.  Its first test reads the local name
    [A2AMessageSendRequest]; its second reads the global name
    [A2AMessageStreamRequest]. *)
Definition dispatch (locals : Locals) (json_rpc_request : A2ARequest) : M HandlerResult :=
  lift (load_fast "A2AMessageSendRequest" (local_A2AMessageSendRequest locals)) ;;
  match json_rpc_request with
  | A2AMessageSendRequest r => on_a2a_message_send_ task_manager r
  | _ =>
      lift (load_global "A2AMessageStreamRequest") ;;
      match json_rpc_request with
      | A2AMessageSendRequest r => on_a2a_message_send_ task_manager r
      | A2AMessageStreamRequest r => on_a2a_message_send_ task_manager r
      | GetTaskRequest r => on_get_task_ task_manager r
      | SendTaskRequest r => on_send_task_ task_manager r
      | SendTaskStreamingRequest r => on_send_task_subscribe_ task_manager r
      | CancelTaskRequest r => on_cancel_task_ task_manager r
      | SetTaskPushNotificationRequest r => on_set_task_push_notification_ task_manager r
      | GetTaskPushNotificationRequest r => on_get_task_push_notification_ task_manager r
      | TaskResubscriptionRequest r => on_resubscribe_to_task_ task_manager r
      end
  end.

(** The body of the outer [try] of [_process_request]. *)
Definition process_request_body (request : Request) : M HTTPResponse :=
  let* body := lift (request_json request) in
  let* method := lift (py_get body "method" JNull) in
  lift (py_keys body) ;;
  let* params := lift (py_get body "params" (JDict [])) in
  lift (py_keys params) ;;
  if py_eq_str method "message/send" then
    match parse_message_send body with
    | Ok json_rpc_request =>
        let locals := {| local_A2AMessageSendRequest := true;
                         local_InvalidRequestError := false;
                         local_JSONRPCResponse := false |} in
        let* result := dispatch locals (A2AMessageSendRequest json_rpc_request) in
        lift (_create_response result)
    | Raise e =>
        let locals := {| local_A2AMessageSendRequest := true;
                         local_InvalidRequestError := true;
                         local_JSONRPCResponse := true |} in
        lift (invalid_request_response locals body e)
    end
  else
    match validate_python body with
    | Ok json_rpc_request =>
        let* result := dispatch no_locals json_rpc_request in
        lift (_create_response result)
    | Raise e => lift (invalid_request_response no_locals body e)
    end.

Definition _process_request (request : Request) : M HTTPResponse :=
  try_except (process_request_body request)
    (fun e => lift (_handle_exception e)).

End A2AServer.

(** ** [A2ARequest = TypeAdapter(Union[...], discriminator="method")]

    The request models of [custom_types.py] as validators of decoded
    JSON.  Fields the records above do not carry ([metadata],
    [authentication], [configuration], the message threading ids) are not
    looked at. *)

Section TypeAdapter.

(** Source of the [default_factory] values of [id], [sessionId] and
    [messageId]. *)
Variable uuid4 : nat -> string.

Definition required (d : list (string * json)) (key : string) : res json :=
  match assoc key d with
  | Some v => Ok v
  | None => Raise (ValidationError (key ++ ": Field required") (JDict d))
  end.

Definition validate_dict (field : string) (v : json) : res (list (string * json)) :=
  match v with
  | JDict d => Ok d
  | _ => Raise (ValidationError (field ++ ": Input should be a valid dictionary") v)
  end.

(** A decimal integer literal: an optional sign and digits. *)
Fixpoint digits_value (s : string) (acc : Z) : option Z :=
  match s with
  | EmptyString => Some acc
  | String c rest =>
      let n := Ascii.nat_of_ascii c in
      if (48 <=? n)%nat && (n <=? 57)%nat then
        digits_value rest (10 * acc + Z.of_nat (n - 48))%Z
      else None
  end.

Definition int_of_text (s : string) : option Z :=
  match s with
  | EmptyString => None
  | String sign (String _ _ as rest) =>
      if (Ascii.nat_of_ascii sign =? 45)%nat then option_map Z.opp (digits_value rest 0)
      else if (Ascii.nat_of_ascii sign =? 43)%nat then digits_value rest 0
      else digits_value s 0
  | _ => digits_value s 0
  end.

(** [int] in pydantic's lax mode: a bool, a float without fractional
    part that fits 64 bits and a string that spells a decimal integer
    are converted (the
    other spellings pydantic accepts, with blanks or underscores, are not
    modelled). *)
Definition validate_int (field : string) (v : json) : res Z :=
  match v with
  | JInt n => Ok n
  | JBool b => Ok (if b then 1 else 0)%Z
  | JFloat f =>
      match float_as_int f with
      | Some n => Ok n
      | None => Raise (ValidationError (field ++ ": Input should be a valid integer") v)
      end
  | JStr s =>
      match int_of_text s with
      | Some n => Ok n
      | None => Raise (ValidationError (field ++ ": Input should be a valid integer") v)
      end
  | _ => Raise (ValidationError (field ++ ": Input should be a valid integer") v)
  end.

Definition optional {A} (d : list (string * json)) (key : string)
    (validate : json -> res A) : res (option A) :=
  match assoc key d with
  | None | Some JNull => Ok None
  | Some v => res_bind (validate v) (fun a => Ok (Some a))
  end.

Definition with_default {A} (d : list (string * json)) (key : string)
    (validate : json -> res A) (default : A) : res A :=
  match assoc key d with
  | None => Ok default
  | Some v => validate v
  end.

Fixpoint validate_list {A} (validate : json -> res A) (l : list json) : res (list A) :=
  match l with
  | [] => Ok []
  | v :: rest =>
      res_bind (validate v) (fun a =>
      res_bind (validate_list validate rest) (fun r => Ok (a :: r)))
  end.

Definition validate_list_of {A} (field : string) (validate : json -> res A) (v : json)
    : res (list A) :=
  match v with
  | JList l => validate_list validate l
  | _ => Raise (ValidationError (field ++ ": Input should be a valid list") v)
  end.

(** [FileContent] with its [check_content] validator. *)
Definition validate_FileContent (v : json) : res FileContent :=
  res_bind (validate_dict "file" v) (fun d =>
  res_bind (optional d "name" (validate_str "name")) (fun name =>
  res_bind (optional d "mimeType" (validate_str "mimeType")) (fun mime =>
  res_bind (optional d "bytes" (validate_str "bytes")) (fun bytes =>
  res_bind (optional d "uri" (validate_str "uri")) (fun uri =>
  if negb (truthy bytes || truthy uri) then
    Raise (ValidationError "Either 'bytes' or 'uri' must be present in the file data" v)
  else if truthy bytes && truthy uri then
    Raise (ValidationError "Only one of 'bytes' or 'uri' can be present in the file data" v)
  else Ok {| file_name := name; file_mimeType := mime;
             file_bytes := bytes; file_uri := uri |}))))).

Definition validate_Part (v : json) : res Part :=
  res_bind (validate_dict "part" v) (fun d =>
  res_bind (required d "type") (fun tag =>
  match tag with
  | JStr "text" =>
      res_bind (required d "text") (fun t =>
      res_bind (validate_str "text" t) (fun text => Ok (TextPart text)))
  | JStr "file" =>
      res_bind (required d "file") (fun f =>
      res_bind (validate_FileContent f) (fun file => Ok (FilePart file)))
  | JStr "data" =>
      res_bind (required d "data") (fun x =>
      res_bind (validate_dict "data" x) (fun _ => Ok (DataPart x)))
  | _ => Raise (ValidationError "type: Input tag does not match any of the expected tags" v)
  end)).

Definition validate_A2APart (v : json) : res A2APart :=
  res_bind (validate_dict "part" v) (fun d =>
  res_bind (required d "kind") (fun tag =>
  match tag with
  | JStr "text" =>
      res_bind (required d "text") (fun t =>
      res_bind (validate_str "text" t) (fun text =>
      res_bind (with_default d "mimeType" (validate_optional_str "mimeType")
                  (Some "text/plain")) (fun mime =>
      Ok (A2ATextPart text mime))))
  | JStr "file" =>
      res_bind (required d "file") (fun f =>
      res_bind (validate_FileContent f) (fun file => Ok (A2AFilePart file)))
  | JStr "data" =>
      res_bind (required d "data") (fun x =>
      res_bind (validate_dict "data" x) (fun _ => Ok (A2ADataPart x)))
  | _ => Raise (ValidationError "kind: Input tag does not match any of the expected tags" v)
  end)).

Definition validate_Message (v : json) : res Message :=
  res_bind (validate_dict "message" v) (fun d =>
  res_bind (required d "role") (fun r =>
  res_bind (validate_role r) (fun role =>
  res_bind (required d "parts") (fun ps =>
  res_bind (validate_list_of "parts" validate_Part ps) (fun parts =>
  Ok {| role := role; parts := parts |}))))).

Definition validate_A2AMessage (v : json) : res A2AMessage :=
  res_bind (validate_dict "message" v) (fun d =>
  res_bind (required d "role") (fun r =>
  res_bind (validate_role r) (fun role =>
  res_bind (required d "parts") (fun ps =>
  res_bind (validate_list_of "parts" validate_A2APart ps) (fun parts =>
  res_bind (with_default d "messageId" (validate_str "messageId")
              ("msg_" ++ uuid4 0)) (fun mid =>
  res_bind (optional d "taskId" (validate_str "taskId")) (fun tid =>
  res_bind (optional d "contextId" (validate_str "contextId")) (fun cid =>
  Ok {| a2a_role := role; a2a_parts := parts; messageId := mid;
        taskId := tid; contextId := cid |})))))))).

Definition validate_PushNotificationConfig (v : json) : res PushNotificationConfig :=
  res_bind (validate_dict "pushNotification" v) (fun d =>
  res_bind (required d "url") (fun u =>
  res_bind (validate_str "url" u) (fun url =>
  res_bind (optional d "token" (validate_str "token")) (fun token =>
  Ok {| url := url; token := token |})))).

(** [TaskIdParams]; with [with_history], [TaskQueryParams]. *)
Definition validate_TaskIdParams (with_history : bool) (v : json) : res TaskIdParams :=
  res_bind (validate_dict "params" v) (fun d =>
  res_bind (required d "id") (fun i =>
  res_bind (validate_str "id" i) (fun task_id =>
  res_bind (if with_history then optional d "historyLength" (validate_int "historyLength")
            else Ok None) (fun h =>
  Ok {| params_id := task_id; query_historyLength := h |})))).

Definition validate_TaskSendParams (v : json) : res TaskSendParams :=
  res_bind (validate_dict "params" v) (fun d =>
  res_bind (required d "id") (fun i =>
  res_bind (validate_str "id" i) (fun task_id =>
  res_bind (with_default d "sessionId" (validate_str "sessionId") (uuid4 0)) (fun sid =>
  res_bind (required d "message") (fun m =>
  res_bind (validate_Message m) (fun message =>
  res_bind (optional d "acceptedOutputModes"
              (validate_list_of "acceptedOutputModes" (validate_str "acceptedOutputModes")))
           (fun modes =>
  res_bind (optional d "pushNotification" validate_PushNotificationConfig) (fun pn =>
  res_bind (optional d "historyLength" (validate_int "historyLength")) (fun h =>
  Ok {| send_id := task_id; sessionId := sid; send_message := message;
        acceptedOutputModes := modes; pushNotification := pn;
        historyLength := h |}))))))))).

Definition validate_TaskPushNotificationConfig (v : json)
    : res TaskPushNotificationConfig :=
  res_bind (validate_dict "params" v) (fun d =>
  res_bind (required d "id") (fun i =>
  res_bind (validate_str "id" i) (fun task_id =>
  res_bind (required d "pushNotificationConfig") (fun c =>
  res_bind (validate_PushNotificationConfig c) (fun config =>
  Ok {| config_id := task_id; pushNotificationConfig := config |}))))).

Definition validate_MessageSendParams (v : json) : res MessageSendParams :=
  res_bind (validate_dict "params" v) (fun d =>
  res_bind (required d "message") (fun m =>
  res_bind (validate_A2AMessage m) (fun message =>
  Ok {| params_message := message |}))).

(** The [JSONRPCRequest] envelope around typed [params]. *)
Definition validate_Req {P} (validate_params : json -> res P)
    (d : list (string * json)) : res (Req P) :=
  res_bind (match assoc "jsonrpc" d with
            | None | Some (JStr "2.0") => Ok tt
            | Some v => Raise (ValidationError "jsonrpc: Input should be '2.0'" v)
            end) (fun _ =>
  res_bind (with_default d "id" validate_id (IdStr (uuid4 0))) (fun request_id =>
  res_bind (required d "params") (fun p =>
  res_bind (validate_params p) (fun params =>
  Ok {| req_id := request_id; req_params := params |})))).

Definition supported_methods : list string :=
  [ "message/send"; "message/stream"; "tasks/get"; "tasks/cancel";
    "tasks/pushNotification/set"; "tasks/pushNotification/get";
    "tasks/resubscribe"; "tasks/send"; "tasks/sendSubscribe" ].

Definition validate_python (body : json) : res A2ARequest :=
  match body with
  | JDict d =>
      match assoc "method" d with
      | Some (JStr "message/send") =>
          res_bind (validate_Req validate_MessageSendParams d)
            (fun r => Ok (A2AMessageSendRequest r))
      | Some (JStr "message/stream") =>
          res_bind (validate_Req validate_MessageSendParams d)
            (fun r => Ok (A2AMessageStreamRequest r))
      | Some (JStr "tasks/get") =>
          res_bind (validate_Req (validate_TaskIdParams true) d)
            (fun r => Ok (GetTaskRequest r))
      | Some (JStr "tasks/cancel") =>
          res_bind (validate_Req (validate_TaskIdParams false) d)
            (fun r => Ok (CancelTaskRequest r))
      | Some (JStr "tasks/pushNotification/set") =>
          res_bind (validate_Req validate_TaskPushNotificationConfig d)
            (fun r => Ok (SetTaskPushNotificationRequest r))
      | Some (JStr "tasks/pushNotification/get") =>
          res_bind (validate_Req (validate_TaskIdParams false) d)
            (fun r => Ok (GetTaskPushNotificationRequest r))
      | Some (JStr "tasks/resubscribe") =>
          res_bind (validate_Req (validate_TaskIdParams true) d)
            (fun r => Ok (TaskResubscriptionRequest r))
      | Some (JStr "tasks/send") =>
          res_bind (validate_Req validate_TaskSendParams d)
            (fun r => Ok (SendTaskRequest r))
      | Some (JStr "tasks/sendSubscribe") =>
          res_bind (validate_Req validate_TaskSendParams d)
            (fun r => Ok (SendTaskStreamingRequest r))
      | Some _ =>
          Raise (ValidationError
                   "Input tag found using 'method' does not match any of the expected tags"
                   body)
      | None =>
          Raise (ValidationError "Unable to extract tag using discriminator 'method'" body)
      end
  | _ => Raise (ValidationError "Input should be a valid dictionary or object" body)
  end.

End TypeAdapter.

(** ** The server wired to a [CLIAgentTaskManager] *)

Section Wiring.

Variable uuid4 : nat -> string.
Variable are_modalities_compatible : option (list string) -> list string -> bool.
Variable self : CLIAgentTaskManager.

Definition single (m : M JSONRPCResponse) : M HandlerResult :=
  let* r := m in ret (Single r).

Definition terminal (st : TaskState) : bool :=
  match st with
  | COMPLETED | CANCELED | REJECTED | FAILED => true
  | _ => false
  end.

(** Modelled from the spec: [on_get_task] of the missing
    [InMemoryTaskManager] is [TaskStore.get]; an unknown id is the
    lifecycle error TaskNotFound. *)
Definition on_get_task (request : Req TaskIdParams) : M JSONRPCResponse :=
  fun s =>
    match tasks s !! params_id (req_params request) with
    | Some t =>
        (new_JSONRPCResponse (req_id request)
           (Some (ResTask (InMemoryTaskManager.append_task_history t
                             (query_historyLength (req_params request))))) None, s)
    | None =>
        (new_JSONRPCResponse (req_id request) None
           (Some (TaskNotFoundError (Some (params_id (req_params request))))), s)
    end.

(** Modelled from the spec: [on_cancel_task] is [TaskStore.cancel]; it
    moves the task to CANCELED only if its state is not terminal and
    fails with TaskNotCancelable otherwise. *)
Definition on_cancel_task (request : Req TaskIdParams) : M JSONRPCResponse :=
  fun s =>
    let task_id := params_id (req_params request) in
    match tasks s !! task_id with
    | Some t =>
        if terminal (state (status t)) then
          (new_JSONRPCResponse (req_id request) None
             (Some {| code := A2AErrorCodes.TASK_NOT_CANCELABLE;
                      error_message := "Task cannot be canceled";
                      data := Some (JDict [("task_id", JStr task_id)]) |}), s)
        else
          let t' := {| id := id t; task_contextId := task_contextId t;
                       status := {| state := CANCELED; message := None |};
                       artifacts := artifacts t; history := history t |} in
          (new_JSONRPCResponse (req_id request) (Some (ResTask t')) None,
           set_tasks (insert task_id t') s)
    | None =>
        (new_JSONRPCResponse (req_id request) None
           (Some (TaskNotFoundError (Some task_id))), s)
    end.

(** Modelled from the spec: [on_set_task_push_notification] validates
    that [config.url] is present and registers the config; a failed
    registration is answered with an error. *)
Definition on_set_task_push_notification (request : Req TaskPushNotificationConfig)
    : M JSONRPCResponse :=
  let p := req_params request in
  let* registered :=
    (if decide (url (pushNotificationConfig p) = "") then ret false
     else set_push_notification_info self (config_id p) (pushNotificationConfig p)) in
  if (registered : bool) then
    lift (new_JSONRPCResponse (req_id request) (Some (ResPushConfig p)) None)
  else
    let* e := lift (InvalidParamsError no_kwargs) in
    lift (new_JSONRPCResponse (req_id request) None (Some e)).

(** Modelled from the spec: [on_get_task_push_notification] is the
    registry's [get]; an absent config is answered with an error. *)
Definition on_get_task_push_notification (request : Req TaskIdParams)
    : M JSONRPCResponse :=
  fun s =>
    let task_id := params_id (req_params request) in
    match push_notification_infos s !! task_id with
    | Some c =>
        (new_JSONRPCResponse (req_id request)
           (Some (ResPushConfig {| config_id := task_id; pushNotificationConfig := c |}))
           None, s)
    | None =>
        (res_bind (InternalError no_kwargs)
           (fun e => new_JSONRPCResponse (req_id request) None (Some e)), s)
    end.

Definition cli_task_manager : TaskManager :=
  {| on_a2a_message_send_ r := single (on_a2a_message_send uuid4 self r);
     on_get_task_ r := single (on_get_task r);
     on_send_task_ r := single (on_send_task uuid4 are_modalities_compatible self r);
     on_send_task_subscribe_ :=
       on_send_task_subscribe uuid4 are_modalities_compatible self;
     on_cancel_task_ r := single (on_cancel_task r);
     on_set_task_push_notification_ r := single (on_set_task_push_notification r);
     on_get_task_push_notification_ r := single (on_get_task_push_notification r);
     on_resubscribe_to_task_ := on_resubscribe_to_task |}.

End Wiring.

(** * Further embedded code *)

(** ** More of Python's behaviour on decoded JSON *)

(** [bool(obj)] *)
Definition py_truthy (obj : json) : bool :=
  match obj with
  | JNull => false
  | JBool b => b
  | JInt n => negb (n =? 0)%Z
  | JStr s => negb (String.eqb s "")
  | JList l => match l with [] => false | _ => true end
  | JDict d => match d with [] => false | _ => true end
  | JFloat f => negb (PrimFloat.is_zero f)
  end.


(** [obj[0]]: lists and strings are indexed by position, dicts by key (and
    decoded JSON has no integer keys). *)
Definition py_first (obj : json) : res json :=
  match obj with
  | JList (x :: _) => Ok x
  | JList [] => Raise (IndexError "list index out of range")
  | JStr EmptyString => Raise (IndexError "string index out of range")
  | JStr s => Ok (JStr (utf8_take 1 s))
  | JDict _ => Raise (KeyError "0")
  | _ => Raise (TypeError ("'" ++ type_name obj ++ "' object is not subscriptable"))
  end.

(** ** server.py: [log_a2a_communication] *)








(** ** shared/agent.py: [CurrencyAgent.invoke_async] *)

Definition unable_to_process : AgentResponse :=
  {| is_task_complete := Some false; require_user_input := Some true;
     content := Some "Unable to process request" |}.

(** The [async for item in self.stream(...)] loop with its
    [result_items] list. *)
Fixpoint invoke_async_loop (items : list (res AgentResponse))
    (result_items : list AgentResponse) : res AgentResponse :=
  match items with
  | [] => Ok (match last result_items with
              | Some item => item
              | None => unable_to_process
              end)
  | Raise e :: _ => Raise e
  | Ok item :: rest =>
      if get_default (is_task_complete item) false then Ok item
      else invoke_async_loop rest (result_items ++ [item])%list
  end.

Definition CurrencyAgent_invoke_async
    (self_stream : string -> string -> list (res AgentResponse))
    (query sessionId : string) : res AgentResponse :=
  invoke_async_loop (self_stream query sessionId) [].

(** ** host/base_host_agent.py *)

(** What the host's calls raise.  The first three come from [requests];
    the constructors after [PyError] stand for the exceptions the file
    builds, with the values their messages are formatted from. *)
Inductive host_exn : Type :=
  | ConnectionError
  | HTTPError (status_code : Z)
  | ResponseNotJSON
  | PyError (e : exn)
  (** [RuntimeError(f"Remote agent error: {resp['error']}")] *)
  | RemoteAgentError (error : json)
  (** [ValueError(f'Agent {agent_name} not found')] *)
  | AgentNotFound (agent_name : string)
  (** [ValueError(f'Agent {agent_name} task failed')] *)
  | TaskFailed (agent_name : string)
  (** [ValueError(f'Agent {agent_name} task was canceled')] *)
  | TaskCanceled (agent_name : string)
  (** [RuntimeError(f"Error sending to {agent_name}: {e}")] *)
  | SendError (agent_name : string) (cause : host_exn).

Inductive hres (A : Type) : Type :=
  | Returned (a : A)
  | Raised (e : host_exn).
Arguments Returned {A} a.
Arguments Raised {A} e.

Definition of_res {A} (r : res A) : hres A :=
  match r with
  | Ok a => Returned a
  | Raise e => Raised (PyError e)
  end.

(** What [requests.post] comes back with: no response at all, or a status
    code and a body that is JSON or not. *)
Inductive HTTPResult : Type :=
  | Unreachable
  | Responded (status_code : Z) (body : option json).

(** [key in obj] *)
Definition py_in (key : string) (obj : json) : res bool :=
  match obj with
  | JDict d => Ok (match assoc key d with Some _ => true | None => false end)
  | JList l => Ok (existsb (fun x => py_eq_str x key) l)
  | JStr s => Ok (match index 0 key s with Some _ => true | None => false end)
  | _ => Raise (TypeError ("argument of type '" ++ type_name obj ++ "' is not iterable"))
  end.

(** [obj[key]] for a string key *)
Definition py_getitem (obj : json) (key : string) : res json :=
  match obj with
  | JDict d => match assoc key d with
               | Some v => Ok v
               | None => Raise (KeyError key)
               end
  | JList _ => Raise (TypeError "list indices must be integers or slices, not str")
  | JStr _ => Raise (TypeError "string indices must be integers, not 'str'")
  | _ => Raise (TypeError ("'" ++ type_name obj ++ "' object is not subscriptable"))
  end.

(** [self.state] of [BaseHostAgent] (its keys are set in [__init__] and
    never removed), the connections by agent name, the count of uuids the
    host process has drawn, and the network the host talks to. *)
Record Host (Net : Type) : Type := {
  session_active : bool;
  context_id : json;
  task_id : json;
  active_agent : option string;
  host_type : string;
  remote_agent_connections : list (string * string);
  host_uuids : nat;
  network : Net }.
Arguments session_active {Net} h.
Arguments context_id {Net} h.
Arguments task_id {Net} h.
Arguments active_agent {Net} h.
Arguments host_type {Net} h.
Arguments remote_agent_connections {Net} h.
Arguments host_uuids {Net} h.
Arguments network {Net} h.

(** [self.remote_agent_connections.get(agent_name)], the connection
    standing for its [base_url]. *)
Fixpoint connection_of (agent_name : string) (connections : list (string * string))
    : option string :=
  match connections with
  | [] => None
  | (name, base_url) :: rest =>
      if String.eqb name agent_name then Some base_url else connection_of agent_name rest
  end.

(** The dict [BaseHostAgent.send_message] returns. *)
Record HostReply : Type := {
  reply_status : json;
  reply_message : json;
  reply_agent : string }.

Section HostAgent.

Variable Net : Type.
(** [requests.post(url, json=payload, timeout=30)] *)
Variable post : string -> json -> Net -> HTTPResult * Net.
(** [host_uuid4 n] is the n-th value of [str(uuid.uuid4())] in the host
    process. *)
Variable host_uuid4 : nat -> string.

Definition HM (A : Type) : Type := Host Net -> hres A * Host Net.

Definition hret {A} (a : A) : HM A := fun h => (Returned a, h).
Definition hraise {A} (e : host_exn) : HM A := fun h => (Raised e, h).
Definition hbind {A B} (m : HM A) (k : A -> HM B) : HM B :=
  fun h => match m h with
           | (Returned a, h') => k a h'
           | (Raised e, h') => (Raised e, h')
           end.
Definition hlift {A} (r : res A) : HM A := fun h => (of_res r, h).
Definition htry {A} (m : HM A) (handler : host_exn -> HM A) : HM A :=
  fun h => match m h with
           | (Returned a, h') => (Returned a, h')
           | (Raised e, h') => handler e h'
           end.

Definition update_state (session : bool) (context task : json)
    (active : option string) (h : Host Net) : Host Net :=
  {| session_active := session; context_id := context; task_id := task;
     active_agent := active; host_type := host_type h;
     remote_agent_connections := remote_agent_connections h;
     host_uuids := host_uuids h; network := network h |}.

Definition set_session_active (b : bool) : HM unit :=
  fun h => (Returned tt, update_state b (context_id h) (task_id h) (active_agent h) h).

Definition host_fresh_uuid : HM string :=
  fun h =>
    (Returned (host_uuid4 (host_uuids h)),
     {| session_active := session_active h; context_id := context_id h;
        task_id := task_id h; active_agent := active_agent h;
        host_type := host_type h;
        remote_agent_connections := remote_agent_connections h;
        host_uuids := S (host_uuids h); network := network h |}).

Definition requests_post (url : string) (payload : json) : HM HTTPResult :=
  fun h =>
    let (r, net) := post url payload (network h) in
    (Returned r,
     {| session_active := session_active h; context_id := context_id h;
        task_id := task_id h; active_agent := active_agent h;
        host_type := host_type h;
        remote_agent_connections := remote_agent_connections h;
        host_uuids := host_uuids h; network := net |}).

(** [value if value else str(uuid.uuid4())] for the two optional ids. *)
Definition or_fresh (value : json) : HM json :=
  if py_truthy value then hret value
  else hbind host_fresh_uuid (fun u => hret (JStr u)).

(** The [payload] dict of [RemoteAgentConnection.send_message]. *)
Definition message_send_payload (request_id message message_id : string)
    (context task : json) : json :=
  JDict [("jsonrpc", JStr "2.0");
         ("id", JStr request_id);
         ("method", JStr "message/send");
         ("params",
          JDict [("message",
                  JDict [("role", JStr "user");
                         ("parts", JList [JDict [("kind", JStr "text");
                                                 ("text", JStr message)]]);
                         ("messageId", JStr message_id);
                         ("contextId", context);
                         ("taskId", task)])])].

(** [RemoteAgentConnection.send_message] *)
Definition connection_send_message (base_url message : string)
    (context task : json) : HM json :=
  hbind (or_fresh task) (fun task =>
  hbind (or_fresh context) (fun context =>
  hbind host_fresh_uuid (fun request_id =>
  hbind host_fresh_uuid (fun message_id =>
  let payload := message_send_payload request_id message message_id context task in
  hbind (requests_post base_url payload) (fun r =>
  match r with
  | Unreachable => hraise ConnectionError
  | Responded status_code body =>
      if (400 <=? status_code)%Z && (status_code <? 600)%Z then
        hraise (HTTPError status_code)
      else
        match body with
        | None => hraise ResponseNotJSON
        | Some resp =>
            hbind (hlift (py_in "error" resp)) (fun has_error =>
            hbind (if (has_error : bool) then
                     hbind (hlift (py_getitem resp "error")) (fun error =>
                     match error with
                     | JNull => hret tt
                     | _ => hraise (RemoteAgentError error)
                     end)
                   else hret tt) (fun _ =>
            hlift (py_get resp "result" (JDict []))))
        end
  end))))).

(** [BaseHostAgent._extract_message] *)
Definition _extract_message (result : json) : res json :=
  res_bind (py_get result "artifacts" (JList [])) (fun artifacts =>
  res_bind
    (if py_truthy artifacts then
       res_bind (py_first artifacts) (fun artifact =>
       res_bind (py_get artifact "parts" (JList [JDict []])) (fun parts =>
       if py_truthy parts then
         res_bind (py_first parts) (fun part =>
         res_bind (py_get part "text" (JStr "")) (fun text => Ok (Some text)))
       else Ok None))
     else Ok None) (fun from_artifacts =>
  match from_artifacts with
  | Some text => Ok text
  | None =>
      res_bind (py_get result "status" (JDict [])) (fun status =>
      res_bind
        (if py_truthy status then
           res_bind (py_get status "message" (JDict [])) (fun message =>
           if py_truthy message then
             res_bind (py_get message "parts" (JList [JDict []])) (fun parts =>
             if py_truthy parts then
               res_bind (py_first parts) (fun part =>
               res_bind (py_get part "text" (JStr "")) (fun text => Ok (Some text)))
             else Ok None)
           else Ok None)
         else Ok None) (fun from_status =>
      match from_status with
      | Some text => Ok text
      | None => Ok (JStr "No content available")
      end))
  end)).

(** [BaseHostAgent.check_state]: the values under ['active_agent'] and
    ['host_type'] of the dict it returns. *)
Definition check_state (h : Host Net) : json * string :=
  if session_active h then
    (match active_agent h with Some a => JStr a | None => JNull end, host_type h)
  else (JStr "None", host_type h).

(** [BaseHostAgent.before_message_callback] *)
Definition before_message_callback : HM unit :=
  fun h => if negb (session_active h)
           then set_session_active true h
           else (Returned tt, h).

(** [state not in [COMPLETED, CANCELED, FAILED, UNKNOWN]] *)
Definition keeps_session (state : json) : bool :=
  negb (py_eq_str state "completed" || py_eq_str state "canceled"
        || py_eq_str state "failed" || py_eq_str state "unknown").

(** The body of the [try] of [BaseHostAgent.send_message]. *)
Definition send_and_process (agent_name base_url message : string)
    (context task : json) : HM HostReply :=
  hbind (connection_send_message base_url message context task) (fun result =>
  hbind (hlift (py_get result "status" (JDict []))) (fun status =>
  hbind (hlift (py_get status "state" (JStr "unknown"))) (fun state =>
  hbind (set_session_active (keeps_session state)) (fun _ =>
  hbind (hlift (py_get result "id" JNull)) (fun rid =>
  hbind (if py_truthy rid then
           fun h => (Returned tt,
                     update_state (session_active h) (context_id h) rid
                       (active_agent h) h)
         else hret tt) (fun _ =>
  hbind (hlift (py_get result "sessionId" JNull)) (fun sid =>
  hbind (if py_truthy sid then
           fun h => (Returned tt,
                     update_state (session_active h) sid (task_id h)
                       (active_agent h) h)
         else hret tt) (fun _ =>
  if py_eq_str state "input-required" then
    hbind (hlift (_extract_message result)) (fun text =>
    hret {| reply_status := JStr "input_required"; reply_message := text;
            reply_agent := agent_name |})
  else if py_eq_str state "completed" then
    hbind (hlift (_extract_message result)) (fun text =>
    hret {| reply_status := JStr "completed"; reply_message := text;
            reply_agent := agent_name |})
  else if py_eq_str state "failed" then hraise (TaskFailed agent_name)
  else if py_eq_str state "canceled" then hraise (TaskCanceled agent_name)
  else
    hbind (hlift (_extract_message result)) (fun text =>
    hret {| reply_status := state; reply_message := text;
            reply_agent := agent_name |}))))))))).

(** [BaseHostAgent.send_message] *)
Definition host_send_message (agent_name message : string) : HM HostReply :=
  fun h0 =>
    match connection_of agent_name (remote_agent_connections h0) with
    | None => (Raised (AgentNotFound agent_name), h0)
    | Some base_url =>
        hbind before_message_callback (fun _ =>
        hbind (fun h => (Returned tt,
                         update_state (session_active h) (context_id h) (task_id h)
                           (Some agent_name) h)) (fun _ =>
        fun h =>
          htry (send_and_process agent_name base_url message (context_id h) (task_id h))
            (fun e =>
               hbind (set_session_active false) (fun _ =>
               hraise (SendError agent_name e))) h)) h0
    end.

End HostAgent.

(** * Vocabulary of the properties *)

(** ** Observations on responses *)

Definition well_formed (r : JSONRPCResponse) : bool :=
  match result r, error r with
  | Some _, None | None, Some _ => true
  | _, _ => false
  end.

Definition http_content (r : res HTTPResponse) : option JSONRPCResponse :=
  match r with
  | Ok (JSONResponse c _) => Some c
  | _ => None
  end.

Definition http_error_code (r : res HTTPResponse) : option Z :=
  match http_content r with
  | Some c => option_map code (error c)
  | None => None
  end.

Definition http_id (r : res HTTPResponse) : option JId :=
  option_map response_id (http_content r).

Definition http_status (r : res HTTPResponse) : option Z :=
  match r with
  | Ok (JSONResponse _ status_code) => Some status_code
  | Ok (EventSourceResponse _ _ _) => Some 200%Z
  | Raise _ => None
  end.

Definition internal_error_response : JSONRPCResponse :=
  {| response_id := IdNone; result := None;
     error := Some {| code := A2AErrorCodes.INTERNAL_ERROR;
                      error_message := "Internal server error"; data := None |} |}.

(** The body [_handle_exception] builds for [e] can be rendered: the
    error list of a [ValidationError] repeats the input, which may hold a
    float that is not finite. *)
Definition renders (e : exn) : bool :=
  match e with
  | ValidationError _ input => finite_json input
  | _ => true
  end.

(** What [_handle_exception] raises when it cannot render its body. *)
Definition render_failure : exn :=
  ValueError "Out of range float values are not JSON compliant".

Definition handler_code (e : exn) : Z :=
  match e with
  | JSONDecodeError => A2AErrorCodes.PARSE_ERROR
  | ValidationError _ _ => A2AErrorCodes.INVALID_REQUEST
  | _ => A2AErrorCodes.INTERNAL_ERROR
  end.


(** The state reported for an outcome of [invoke_async]. *)
Definition reported_state (outcome : res AgentResponse) : TaskState :=
  match outcome with
  | Raise _ => FAILED
  | Ok r => if get_default (is_task_complete r) false then COMPLETED else INPUT_REQUIRED
  end.

Definition carries (st : TaskState) (t : A2ATaskResponse) : Prop :=
  match st with
  | COMPLETED =>
      message (tr_status t) = None
      /\ exists a text, tr_artifacts t = Some [a]
                        /\ artifact_parts a = [A2ATextPart text (Some "text/plain")]
  | _ =>
      tr_artifacts t = None
      /\ exists text, message (tr_status t)
                      = Some (LegacyMessage {| role := agent; parts := [TextPart text] |})
  end.


Definition params_is_object (d : list (string * json)) : bool :=
  match assoc "params" d with
  | None | Some (JDict _) => true
  | Some _ => false
  end.

Definition method_of (d : list (string * json)) : option json := assoc "method" d.

(** What the caller sees of a handler outcome that is not a result: an
    error response, or an exception (which the server turns into one). *)
Definition refusal (out : res JSONRPCResponse) : Prop :=
  match out with
  | Ok r => result r = None /\ is_Some (error r)
  | Raise _ => True
  end.

Section Validation.

Variable are_modalities_compatible : option (list string) -> list string -> bool.
Variable self : CLIAgentTaskManager.

(** The push-notification url of the request is refused by the
  verification challenge. *)
Definition push_refused (request : Req TaskSendParams) : bool :=
match pushNotification (req_params request) with
| Some pn => negb (verify_push_notification_url (notification_sender_auth self) (url pn))
| None => false
end.

(** The request is turned down by [_validate_request] or by the push
  verification. *)
Definition rejected (request : Req TaskSendParams) : bool :=
match _validate_request are_modalities_compatible self request with
| Ok None => push_refused request
| _ => true
end.

(** The three ways a [tasks/send] request fails the checks made before
  the store is touched: incompatible output modes, a push config with
  an empty url, a push url that fails the verification challenge. *)
Definition fails_validation (request : Req TaskSendParams) : Prop :=
are_modalities_compatible (acceptedOutputModes (req_params request))
  (SUPPORTED_CONTENT_TYPES (self_agent self)) = false
\/ exists pn,
     pushNotification (req_params request) = Some pn
     /\ (url pn = ""
         \/ verify_push_notification_url (notification_sender_auth self) (url pn)
            = false).

End Validation.

(** The state after the push registration of an accepted request. *)
Definition registered (request : Req TaskSendParams) (s : TM) : TM :=
  match pushNotification (req_params request) with
  | Some pn =>
      set_push_notification_infos (insert (send_id (req_params request)) pn) s
  | None => s
  end.

(** The claim's wording: the text fields of the parts whose kind is
    "text", concatenated in order. *)
Definition text_field (p : A2APart) : string :=
  match p with
  | A2ATextPart text _ => text
  | _ => ""
  end.

Definition concatenated_text (ps : list A2APart) : string :=
  fold_right String.append ""
    (map text_field (List.filter (fun p => String.eqb (kind p) "text") ps)).

(** The same on the wire: the [text] of the JSON parts whose [kind] is
    "text" (the empty string when the key is missing). *)
Definition json_text_field (part_data : json) : string :=
  match py_get part_data "text" (JStr "") with
  | Ok (JStr text) => text
  | _ => ""
  end.

Definition json_is_text (part_data : json) : bool :=
  match py_get part_data "kind" JNull with
  | Ok k => py_eq_str k "text"
  | Raise _ => false
  end.

Definition json_concatenated_text (items : list json) : string :=
  fold_right String.append "" (map json_text_field (List.filter json_is_text items)).

(** [body['params']['message']['parts']] as the router reads it. *)
Definition request_parts (body : json) : res (list json) :=
  res_bind (py_get body "params" (JDict [])) (fun params =>
  res_bind (py_get params "message" (JDict [])) (fun message_data =>
  res_bind (py_get message_data "parts" (JList [])) py_iter)).

(** What the server sends for the outcome of a handler: the tail of
    [_process_request], [_create_response] for a result and
    [_handle_exception] for an exception, the one [_create_response]
    raises included. *)
Definition answer (out : res HandlerResult) : res HTTPResponse :=
  match out with
  | Ok result =>
      match _create_response result with
      | Ok response => Ok response
      | Raise e => _handle_exception e
      end
  | Raise e => _handle_exception e
  end.


(** ** Vocabulary of the further properties *)

(** The network seen from a host when one A2A server answers every url:
    the decoded payload is handed to the server's [_process_request] and
    the response model comes back as its dump.  An event stream is not a
    JSON body, and neither is the page sent for an unhandled exception. *)
Definition serve (server : Request -> M HTTPResponse) (base_url : string)
    (payload : json) (s : TM) : HTTPResult * TM :=
  match server (Body payload) s with
  | (Ok (JSONResponse content status_code), s') =>
      (Responded status_code (Some (dump_JSONRPCResponse content)), s')
  | (Ok (EventSourceResponse _ _ _), s') => (Responded 200 None, s')
  | (Raise _, s') => (Responded 500 None, s')
  end.

(** What the host's [send_message] comes back with for an outcome of the
    remote agent's [invoke_async]. *)
Definition host_outcome (agent_name : string) (outcome : res AgentResponse)
    : hres HostReply :=
  match outcome with
  | Raise _ => Raised (SendError agent_name (TaskFailed agent_name))
  | Ok r =>
      if get_default (is_task_complete r) false then
        Returned {| reply_status := JStr "completed";
                    reply_message := JStr (get_default (content r) "Task completed");
                    reply_agent := agent_name |}
      else
        Returned {| reply_status := JStr "input_required";
                    reply_message := JStr (get_default (content r) "Task in progress");
                    reply_agent := agent_name |}
  end.

(** The id the [message/send] handler settles on: the given one unless it
    is missing or empty. *)
Definition chosen_id (given : option string) (generated : string) : string :=
  if truthy given then default "" given else generated.

(** A JSON part the router's loop gets through: an object, and when its
    [kind] is "text" its [text] is a string (or missing) and its
    [mimeType] a string or null (or missing). *)
Definition json_part_ok (part_data : json) : bool :=
  match part_data with
  | JDict d =>
      if py_eq_str (get_default (assoc "kind" d) JNull) "text" then
        match get_default (assoc "text" d) (JStr "") with
        | JStr _ =>
            match get_default (assoc "mimeType" d) (JStr "text/plain") with
            | JStr _ | JNull => true
            | _ => false
            end
        | _ => false
        end
      else true
  | _ => false
  end.


(** The text part the loop builds from a JSON part of kind "text". *)
Definition part_of_json (part_data : json) : A2APart :=
  A2ATextPart (json_text_field part_data)
    match py_get part_data "mimeType" (JStr "text/plain") with
    | Ok (JStr m) => Some m
    | _ => None
    end.

(** The local bindings once both imports of [_process_request] have run. *)
Definition all_locals : Locals :=
  {| local_A2AMessageSendRequest := true;
     local_InvalidRequestError := true;
     local_JSONRPCResponse := true |}.

(** [check_content]'s condition on a file: exactly one of [bytes] and
    [uri] is a non-empty string. *)
Definition one_of_bytes_uri (f : FileContent) : bool :=
  xorb (truthy (file_bytes f)) (truthy (file_uri f)).

(** The parts a model instance can hold: a file passed [check_content],
    [data] is a dict. *)
Definition part_valid (p : Part) : bool :=
  match p with
  | TextPart _ => true
  | FilePart f => one_of_bytes_uri f
  | DataPart (JDict _) => true
  | DataPart _ => false
  end.

Definition a2a_part_valid (p : A2APart) : bool :=
  match p with
  | A2ATextPart _ _ => true
  | A2AFilePart f => one_of_bytes_uri f
  | A2ADataPart (JDict _) => true
  | A2ADataPart _ => false
  end.

(** A text part whose [mimeType] is [None], with the field's default
    instead. *)
Definition with_default_mimeType (p : A2APart) : A2APart :=
  match p with
  | A2ATextPart text None => A2ATextPart text (Some "text/plain")
  | _ => p
  end.

(** [item.get("is_task_complete", False)] *)
Definition complete (item : AgentResponse) : bool :=
  get_default (is_task_complete item) false.

(** The host as [BaseHostAgent.__init__] leaves it, once the given
    connections are registered. *)
Definition initial_host {Net} (host_type : string)
    (connections : list (string * string)) (net : Net) : Host Net :=
  {| session_active := false; context_id := JNull; task_id := JNull;
     active_agent := None; host_type := host_type;
     remote_agent_connections := connections; host_uuids := 0; network := net |}.


(** ** Concrete agents, managers and requests used in the examples *)

Module Examples.

Definition uuid4 (n : nat) : string := "uuid-" ++ pretty n.

(** Two mode lists are compatible when one of them is missing or empty,
    or when they share a mode. *)
Definition are_modalities_compatible (client : option (list string))
    (server : list string) : bool :=
  match client, server with
  | None, _ | Some [], _ | _, [] => true
  | Some c, _ => existsb (fun x => existsb (String.eqb x) server) c
  end.

Definition working (text : string) : AgentResponse :=
  {| is_task_complete := Some false; require_user_input := Some false;
     content := Some text |}.
Definition completed (text : string) : AgentResponse :=
  {| is_task_complete := Some true; require_user_input := Some false;
     content := Some text |}.
Definition input_required (text : string) : AgentResponse :=
  {| is_task_complete := Some false; require_user_input := Some true;
     content := Some text |}.

(** Answers every query with a completed result; streams two working
    chunks and a completed one. *)
Definition greeter : CLIAgent :=
  {| SUPPORTED_CONTENT_TYPES := ["text"; "text/plain"];
     invoke_async _ _ := Ok (completed "Hi");
     stream _ _ := [Ok (working "one"); Ok (working "two"); Ok (completed "done")] |}.


Definition accepting : PushNotificationSenderAuth :=
  {| verify_push_notification_url _ := true |}.
Definition rejecting : PushNotificationSenderAuth :=
  {| verify_push_notification_url _ := false |}.

Definition manager (a : CLIAgent) (auth : PushNotificationSenderAuth)
    : CLIAgentTaskManager :=
  {| self_agent := a; notification_sender_auth := auth |}.

Definition server (a : CLIAgent) (auth : PushNotificationSenderAuth)
    : Request -> M HTTPResponse :=
  _process_request (validate_python uuid4)
    (cli_task_manager uuid4 are_modalities_compatible (manager a auth)).

Definition fresh : TM :=
  {| tasks := ∅; push_notification_infos := ∅; task_sse_subscribers := ∅;
     sse_queues := ∅; uuid_count := 0; agent_calls := [];
     sent_notifications := [] |}.

Definition hello : Message := {| role := user; parts := [TextPart "Hello"] |}.

Definition send_params (task_id : string) (m : Message)
    (pn : option PushNotificationConfig) : TaskSendParams :=
  {| send_id := task_id; sessionId := "C1"; send_message := m;
     acceptedOutputModes := None; pushNotification := pn; historyLength := None |}.

Definition json_text_part (text : string) : json :=
  JDict [("kind", JStr "text"); ("text", JStr text)].

(** [{"jsonrpc":"2.0","id":<i>,"method":<method>,"params":<params>}] *)
Definition envelope (i : json) (method : string) (params : json) : json :=
  JDict [("jsonrpc", JStr "2.0"); ("id", i); ("method", JStr method); ("params", params)].


Definition message_send_body (i : json) (parts : list json) : json :=
  envelope i "message/send"
    (JDict [("message", JDict [("role", JStr "user"); ("messageId", JStr "m1");
                               ("parts", JList parts)])]).

End Examples.

Definition image : Message :=
  {| role := user;
     parts := [FilePart {| file_name := None; file_mimeType := Some "image/png";
                           file_bytes := None;
                           file_uri := Some "file:///frame.png" |}] |}.


(** * Properties *)

(** ** The exception handler and the paths that end in it *)

Lemma _handle_exception_spec (e : exn) :
  renders e = true ->
  exists err,
    _handle_exception e
    = Ok (JSONResponse {| response_id := IdNone; result := None; error := Some err |} 400)
    /\ code err = handler_code e.
Proof.
  destruct e; simpl; intros H; try (eexists; split; reflexivity).
  unfold _handle_exception, new_JSONResponse. simpl. rewrite H. simpl.
  eexists; split; reflexivity.
Qed.

(** When the input repeated in the error list holds a float that is not
    finite, the handler itself raises. *)
Lemma _handle_exception_raises (e : exn) :
  renders e = false -> _handle_exception e = Raise render_failure.
Proof.
  destruct e; simpl; try discriminate. intros H.
  unfold _handle_exception, new_JSONResponse. simpl. rewrite H. reflexivity.
Qed.

Lemma _handle_exception_not_validation (e : exn) :
  (forall m input, e <> ValidationError m input) -> e <> JSONDecodeError ->
  _handle_exception e = Ok (JSONResponse internal_error_response 400).
Proof.
  intros Hv Hj; destruct e; try reflexivity; [congruence | exfalso; eapply Hv; eauto].
Qed.

Section RouterFacts.

Variable validate_python : json -> res A2ARequest.
Variable task_manager : TaskManager.

Lemma dispatch_no_locals (r : A2ARequest) (s : TM) :
  dispatch task_manager no_locals r s = (Raise (UnboundLocalError "A2AMessageSendRequest"), s).
Proof. reflexivity. Qed.

Lemma invalid_request_response_no_locals (body : json) (e : exn) :
  invalid_request_response no_locals body e = Raise (UnboundLocalError "JSONRPCResponse").
Proof. reflexivity. Qed.

(** A decoded body whose [method] is not the string [message/send] ends
    in the exception handler with an internal error, whatever pydantic
    says about it, and the manager's state is not touched. *)
Lemma _process_request_other_method (body : json) (s : TM) :
  (forall method, py_get body "method" JNull = Ok method ->
                  py_eq_str method "message/send" = false) ->
  _process_request validate_python task_manager (Body body) s
  = (Ok (JSONResponse internal_error_response 400), s).
Proof.
  intros Hm.
  unfold _process_request, try_except, process_request_body, bind, lift; simpl.
  destruct (py_get body "method" JNull) as [method|e] eqn:Em.
  2:{ destruct body; simpl in Em; try discriminate; inversion Em; reflexivity. }
  destruct (py_keys body) as [ks|e] eqn:Ek.
  2:{ destruct body; simpl in *; try discriminate. }
  destruct (py_get body "params" (JDict [])) as [params|e] eqn:Ep.
  2:{ destruct body; simpl in *; try discriminate. }
  destruct (py_keys params) as [pk|e] eqn:Epk.
  2:{ destruct params; simpl in Epk; try discriminate; inversion Epk; reflexivity. }
  rewrite (Hm method eq_refl).
  destruct (validate_python body); reflexivity.
Qed.

End RouterFacts.

(** ** Stepping through the monad *)

Lemma bind_Ok {A B} (m : M A) (k : A -> M B) (s s' : TM) (a : A) :
  m s = (Ok a, s') -> bind m k s = k a s'.
Proof. unfold bind; intros ->; reflexivity. Qed.

Lemma bind_Raise {A B} (m : M A) (k : A -> M B) (s s' : TM) (e : exn) :
  m s = (Raise e, s') -> bind m k s = (Raise e, s').
Proof. unfold bind; intros ->; reflexivity. Qed.

Lemma try_except_Ok {A} (m : M A) (h : exn -> M A) (s s' : TM) (a : A) :
  m s = (Ok a, s') -> try_except m h s = (Ok a, s').
Proof. unfold try_except; intros ->; reflexivity. Qed.

Lemma try_except_Raise {A} (m : M A) (h : exn -> M A) (s s' : TM) (e : exn) :
  m s = (Raise e, s') -> try_except m h s = h e s'.
Proof. unfold try_except; intros ->; reflexivity. Qed.

(** ** The [message/send] handler *)

Section MessageSendFacts.

Variable uuid4 : nat -> string.
Variable self : CLIAgentTaskManager.

Lemma on_a2a_message_send_spec (request : Req MessageSendParams) (s : TM) :
  exists t s' session_id,
    on_a2a_message_send uuid4 self request s
    = (Ok {| response_id := req_id request; result := Some (ResA2ATask t);
             error := None |}, s')
    /\ tasks s' = tasks s
    /\ push_notification_infos s' = push_notification_infos s
    /\ task_sse_subscribers s' = task_sse_subscribers s
    /\ sse_queues s' = sse_queues s
    /\ sent_notifications s' = sent_notifications s
    /\ agent_calls s'
       = (agent_calls s
          ++ [(message_text_of (a2a_parts (params_message (req_params request))),
               session_id)])%list
    /\ state (tr_status t)
       = reported_state
           (invoke_async (self_agent self)
              (message_text_of (a2a_parts (params_message (req_params request))))
              session_id)
    /\ carries (state (tr_status t)) t.
Proof.
  unfold on_a2a_message_send, or_uuid, bind, try_except, agent_invoke_async,
    fresh_uuid, lift, ret, reported_state.
  destruct (truthy (taskId (params_message (req_params request))));
    destruct (truthy (contextId (params_message (req_params request))));
    simpl;
    match goal with
    | |- context [invoke_async ?a ?q ?sid] =>
        destruct (invoke_async a q sid) as [r|e] eqn:Hinv
    end;
    simpl;
    try (destruct (get_default (is_task_complete r) false) eqn:Hc; simpl);
    do 3 eexists;
    (split; [reflexivity|]);
    simpl; rewrite ?Hinv, ?Hc; simpl;
    repeat split; eauto.
Qed.

(** What the handler answers holds no float, so it can be rendered. *)
Lemma on_a2a_message_send_renders (request : Req MessageSendParams) (s s' : TM)
    (response : JSONRPCResponse) :
  on_a2a_message_send uuid4 self request s = (Ok response, s') ->
  new_JSONResponse response 200 = Ok (JSONResponse response 200).
Proof.
  unfold on_a2a_message_send, or_uuid, bind, try_except, agent_invoke_async,
    fresh_uuid, lift, ret.
  destruct (truthy (taskId (params_message (req_params request))));
    destruct (truthy (contextId (params_message (req_params request))));
    simpl;
    match goal with
    | |- context [invoke_async ?a ?q ?sid] =>
        destruct (invoke_async a q sid) as [r|e] eqn:Hinv
    end;
    simpl;
    try (destruct (get_default (is_task_complete r) false) eqn:Hc; simpl);
    intros H; inversion H; subst;
    unfold new_JSONResponse; destruct (req_id request); reflexivity.
Qed.

End MessageSendFacts.

(** ** The router on [message/send] bodies *)


Ltac bind_inv H :=
  repeat match type of H with
         | res_bind ?x _ = Ok _ =>
             let E := fresh "E" in
             destruct x eqn:E; simpl in H; [|discriminate H]
         end.


Section MessageSendRouting.

Variable uuid4 : nat -> string.
Variable are_modalities_compatible : option (list string) -> list string -> bool.
Variable self : CLIAgentTaskManager.
Variable validate_python : json -> res A2ARequest.


(** A [message/send] body whose [params] is an object reaches the manual
    parsing; what happens next depends on its outcome alone. *)
Lemma _process_request_message_send (d : list (string * json)) (s : TM) :
  assoc "method" d = Some (JStr "message/send") ->
  params_is_object d = true ->
  _process_request validate_python
    (cli_task_manager uuid4 are_modalities_compatible self) (Body (JDict d)) s
  = match parse_message_send (JDict d) with
    | Ok r =>
        match on_a2a_message_send uuid4 self r s with
        | (Ok response, s') => (Ok (JSONResponse response 200), s')
        | (Raise e, s') => (_handle_exception e, s')
        end
    | Raise e =>
        match invalid_request_response all_locals (JDict d) e with
        | Ok response => (Ok response, s)
        | Raise e' => (_handle_exception e', s)
        end
    end.
Proof.
  intros Hm Hp.
  unfold _process_request, try_except, process_request_body, bind, lift.
  simpl request_json. cbv iota beta.
  unfold py_get at 1. unfold get_default. rewrite Hm. cbv iota beta.
  simpl py_keys. cbv iota beta.
  unfold params_is_object in Hp.
  unfold py_get at 1. unfold get_default.
  assert (Hk : exists pk, py_keys match assoc "params" d with
                                  | Some a => a
                                  | None => JDict []
                                  end = Ok pk).
  { destruct (assoc "params" d) as [[]|]; try discriminate; simpl; eauto. }
  destruct Hk as [pk ->]. cbv iota beta.
  change (py_eq_str (JStr "message/send") "message/send") with true. cbv iota.
  destruct (parse_message_send (JDict d)) as [r|e].
  - unfold dispatch, bind, lift; simpl. unfold single, bind, ret.
    destruct (on_a2a_message_send uuid4 self r s) as [[response|e] s'] eqn:Heq;
      [|reflexivity].
    cbv iota beta. unfold _create_response.
    rewrite (on_a2a_message_send_renders uuid4 self r s s' _ Heq). reflexivity.
  - fold all_locals.
    destruct (invalid_request_response all_locals (JDict d) e); reflexivity.
Qed.



End MessageSendRouting.

(** ** C6: result and error of a response *)

Lemma new_JSONResponse_Ok (content : JSONRPCResponse) (status_code : Z)
    (response : HTTPResponse) :
  new_JSONResponse content status_code = Ok response ->
  response = JSONResponse content status_code.
Proof.
  unfold new_JSONResponse.
  destruct (finite_json (dump_JSONRPCResponse content)); intros H; inversion H.
  reflexivity.
Qed.

Lemma invalid_request_response_well_formed (locals : Locals) (body : json) (e : exn)
    (response : HTTPResponse) :
  invalid_request_response locals body e = Ok response ->
  exists r c, response = JSONResponse r c /\ well_formed r = true.
Proof.
  unfold invalid_request_response. intros H. bind_inv H.
  apply new_JSONResponse_Ok in H. subst. do 2 eexists. split; reflexivity.
Qed.

Lemma process_request_body_well_formed
    (uuid4 : nat -> string)
    (are_modalities_compatible : option (list string) -> list string -> bool)
    (self : CLIAgentTaskManager) (validate_python : json -> res A2ARequest)
    (request : Request) (s s' : TM) (response : HTTPResponse) :
  process_request_body validate_python
    (cli_task_manager uuid4 are_modalities_compatible self) request s
  = (Ok response, s') ->
  exists r c, response = JSONResponse r c /\ well_formed r = true.
Proof.
  unfold process_request_body, bind, lift.
  destruct (request_json request) as [body|]; [|discriminate].
  destruct (py_get body "method" JNull) as [method|]; [|discriminate].
  destruct (py_keys body); [|discriminate].
  destruct (py_get body "params" (JDict [])) as [params|]; [|discriminate].
  destruct (py_keys params); [|discriminate].
  destruct (py_eq_str method "message/send").
  - destruct (parse_message_send body) as [r0|e].
    + unfold dispatch, bind, lift; simpl. unfold single, bind, ret.
      destruct (on_a2a_message_send_spec uuid4 self r0 s)
        as (t & s1 & sid & Heq & _).
      rewrite Heq. cbv iota beta. unfold _create_response.
      rewrite (on_a2a_message_send_renders uuid4 self r0 s s1 _ Heq).
      intros H; inversion H; subst. eauto.
    + destruct (invalid_request_response _ body e) as [resp|] eqn:Hr; [|discriminate].
      intros H; inversion H; subst.
      eapply invalid_request_response_well_formed; eauto.
  - destruct (validate_python body) as [r0|e]; simpl; discriminate.
Qed.

(** C6.  A [JSONRPCResponse] is constructed only when exactly one of
    [result] and [error] is set: the constructor succeeds exactly in those
    two cases, returns the fields it was given, and raises when both or
    neither are given.  Every response the server produces for a request
    carries exactly one of the two (when the server fails to render its
    answer it produces no response). *)
Theorem response_result_xor_error :
  (forall (i : JId) (r : option ResultValue) (e : option JSONRPCError),
      match new_JSONRPCResponse i r e with
      | Ok resp =>
          ((is_Some (result resp) /\ error resp = None)
           \/ (result resp = None /\ is_Some (error resp)))
          /\ result resp = r /\ error resp = e /\ response_id resp = i
      | Raise _ => (is_Some r /\ is_Some e) \/ (r = None /\ e = None)
      end)
  /\ (forall (uuid4 : nat -> string)
             (are_modalities_compatible : option (list string) -> list string -> bool)
             (self : CLIAgentTaskManager) (validate_python : json -> res A2ARequest)
             (request : Request) (s : TM),
        match fst (_process_request validate_python
                     (cli_task_manager uuid4 are_modalities_compatible self) request s)
        with
        | Ok (JSONResponse r _) => well_formed r = true
        | Ok (EventSourceResponse _ _ _) => True
        | Raise _ => True
        end).
Proof.
  split.
  - intros i r e.
    unfold new_JSONRPCResponse, validate_result_or_error; simpl.
    destruct r as [v|], e as [err|]; simpl.
    + left; split; eauto.
    + split; [left; split; eauto | auto].
    + split; [right; split; eauto | auto].
    + right; auto.
  - intros uuid4 amc self vp request s.
    unfold _process_request, try_except.
    destruct (process_request_body vp (cli_task_manager uuid4 amc self) request s)
      as [[resp|e] s'] eqn:Hb.
    + apply process_request_body_well_formed in Hb.
      destruct Hb as (r & c & -> & Hw). exact Hw.
    + unfold lift. cbn [fst]. destruct (renders e) eqn:Hr.
      * destruct (_handle_exception_spec e Hr) as (err & -> & _). reflexivity.
      * rewrite (_handle_exception_raises e Hr). exact I.
Qed.

(** ** C2: requests with an unknown method *)

(** C2, as amended.  A decoded request whose [method] is a string outside
    the supported method names is answered with status 400 by a JSON-RPC
    error response: no result, an error whose code is the invalid-request
    code -32600 or the internal-error code -32603, never the
    method-not-found code -32601; the manager's state is not touched. *)
Theorem unknown_method_error
    (validate_python : json -> res A2ARequest) (task_manager : TaskManager)
    (d : list (string * json)) (m : string) (s : TM) :
  method_of d = Some (JStr m) ->
  existsb (String.eqb m) supported_methods = false ->
  exists r e,
    _process_request validate_python task_manager (Body (JDict d)) s
    = (Ok (JSONResponse r 400), s)
    /\ result r = None /\ error r = Some e
    /\ (code e = A2AErrorCodes.INVALID_REQUEST \/ code e = A2AErrorCodes.INTERNAL_ERROR)
    /\ code e <> A2AErrorCodes.METHOD_NOT_FOUND.
Proof.
  intros Hm Hun.
  eexists internal_error_response, _. split.
  - apply _process_request_other_method.
    intros method Hget. simpl in Hget. unfold method_of in Hm.
    unfold get_default in Hget. rewrite Hm in Hget. inversion Hget; subst.
    simpl in Hun. simpl.
    destruct (String.eqb m "message/send"); [discriminate | reflexivity].
  - simpl. repeat split; auto.
Qed.

Lemma unknown_method_error_witness :
  exists r e,
    Examples.server Examples.greeter Examples.accepting
      (Body (Examples.envelope (JInt 1) "tasks/doesNotExist" (JDict []))) Examples.fresh
    = (Ok (JSONResponse r 400), Examples.fresh)
    /\ result r = None /\ error r = Some e
    /\ (code e = A2AErrorCodes.INVALID_REQUEST \/ code e = A2AErrorCodes.INTERNAL_ERROR)
    /\ code e <> A2AErrorCodes.METHOD_NOT_FOUND.
Proof.
  apply (unknown_method_error _ _ _ "tasks/doesNotExist"); reflexivity.
Defined.

(** The request of Scenario C is not answered with code -32601. *)
Lemma unknown_method_counterexample :
  exists c,
    http_error_code
      (fst (Examples.server Examples.greeter Examples.accepting
              (Body (Examples.envelope (JInt 1) "tasks/doesNotExist" (JDict [])))
              Examples.fresh)) = Some c
    /\ c <> A2AErrorCodes.METHOD_NOT_FOUND.
Proof.
  exists A2AErrorCodes.INTERNAL_ERROR. split; [vm_compute; reflexivity | discriminate].
Qed.

(** ** C7: the id of the response *)




(** ** The [tasks/send] handler *)

Section SendTaskFacts.

Variable uuid4 : nat -> string.
Variable are_modalities_compatible : option (list string) -> list string -> bool.
Variable self : CLIAgentTaskManager.

Local Abbreviation send_task := (on_send_task uuid4 are_modalities_compatible self).
Local Abbreviation validate := (_validate_request are_modalities_compatible self).

Lemma _validate_request_Some (request : Req TaskSendParams) (ve : JSONRPCResponse) :
  validate request = Ok (Some ve) ->
  ve = {| response_id := req_id request; result := None;
          error := Some ContentTypeNotSupportedError |}.
Proof.
  unfold _validate_request.
  destruct (are_modalities_compatible _ _); simpl.
  - destruct (pushNotification (req_params request)) as [pn|]; [|discriminate].
    destruct (decide (url pn = "")); discriminate.
  - intros H; inversion H; reflexivity.
Qed.

Lemma on_send_task_rejected (request : Req TaskSendParams) (s : TM) :
  rejected are_modalities_compatible self request = true ->
  exists out, send_task request s = (out, s) /\ refusal out.
Proof.
  unfold rejected, on_send_task, bind, lift.
  destruct (validate request) as [[ve|]|e] eqn:Hv.
  - intros _. apply _validate_request_Some in Hv. subst ve. simpl.
    eexists; split; [reflexivity|]. simpl. eauto.
  - unfold push_refused, set_push_notification_info, ret.
    destruct (pushNotification (req_params request)) as [pn|]; [|discriminate].
    destruct (verify_push_notification_url _ _); [discriminate|].
    intros _. simpl. eexists; split; [reflexivity|exact I].
  - intros _. eexists; split; [reflexivity|exact I].
Qed.


Lemma send_task_notification_frame (t : Task) (s : TM) :
  exists s',
    send_task_notification t s = (Ok tt, s')
    /\ tasks s' = tasks s
    /\ push_notification_infos s' = push_notification_infos s
    /\ task_sse_subscribers s' = task_sse_subscribers s
    /\ sse_queues s' = sse_queues s
    /\ uuid_count s' = uuid_count s
    /\ agent_calls s' = agent_calls s.
Proof.
  unfold send_task_notification, bind, ret,
    InMemoryTaskManager.has_push_notification_info,
    InMemoryTaskManager.get_push_notification_info.
  destruct (push_notification_infos s !! id t) as [c|] eqn:Hc.
  - rewrite bool_decide_eq_true_2 by eauto. simpl. rewrite Hc.
    eexists; split; [reflexivity|]. simpl. auto 10.
  - rewrite bool_decide_eq_false_2 by (intros [? ?]; discriminate). simpl.
    eexists; split; [reflexivity|]. auto 10.
Qed.

(** An accepted request reaches the store: the task is upserted and
    set to WORKING before the query is read from the message. *)
Lemma on_send_task_accepted (request : Req TaskSendParams) (s : TM) :
  rejected are_modalities_compatible self request = false ->
  exists t0 s1,
    let p := req_params request in
    let working := {| id := id t0; task_contextId := task_contextId t0;
                      status := {| state := WORKING; message := None |};
                      artifacts := artifacts t0; history := history t0 |} in
    InMemoryTaskManager.upsert_task p (registered request s)
      = (Ok t0, set_tasks (insert (send_id p) t0) (registered request s))
    /\ tasks s1 = <[send_id p := working]> (<[send_id p := t0]> (tasks s))
    /\ agent_calls s1 = agent_calls s
    /\ uuid_count s1 = uuid_count s
    /\ task_sse_subscribers s1 = task_sse_subscribers s
    /\ sse_queues s1 = sse_queues s
    /\ push_notification_infos s1 = push_notification_infos (registered request s)
    /\ send_task request s
       = (let* query := lift (_get_user_query p) in
          let* agent_response :=
            try_except (agent_invoke_async self query (sessionId p))
              (fun e => raise (ValueError ("Error invoking agent: " ++ exn_str e))) in
          _process_agent_response uuid4 request agent_response) s1.
Proof.
  unfold rejected, push_refused. intros Hrej.
  destruct (validate request) as [[ve|]|e] eqn:Hv; try discriminate.
  assert (Hreg :
    (match pushNotification (req_params request) with
     | Some pn => set_push_notification_info self (send_id (req_params request)) pn
     | None => ret true
     end) s = (Ok true, registered request s)).
  { unfold registered, set_push_notification_info.
    destruct (pushNotification (req_params request)) as [pn|]; [|reflexivity].
    destruct (verify_push_notification_url _ _); [reflexivity|discriminate]. }
  set (s0 := registered request s) in *.
  assert (Hs0 : tasks s0 = tasks s /\ agent_calls s0 = agent_calls s
                /\ uuid_count s0 = uuid_count s
                /\ task_sse_subscribers s0 = task_sse_subscribers s
                /\ sse_queues s0 = sse_queues s).
  { unfold s0, registered.
    destruct (pushNotification (req_params request)); simpl; auto. }
  destruct Hs0 as (Ht0 & Ha0 & Hu0 & Hsub0 & Hq0).
  assert (Hup : exists t0, InMemoryTaskManager.upsert_task (req_params request) s0
                = (Ok t0, set_tasks (insert (send_id (req_params request)) t0) s0)).
  { unfold InMemoryTaskManager.upsert_task. eexists; reflexivity. }
  destruct Hup as [t0 Hup].
  set (working := {| id := id t0; task_contextId := task_contextId t0;
                     status := {| state := WORKING; message := None |};
                     artifacts := artifacts t0; history := history t0 |}).
  set (sw := set_tasks (insert (send_id (req_params request)) working)
               (set_tasks (insert (send_id (req_params request)) t0) s0)).
  assert (Hupd : InMemoryTaskManager.update_store (send_id (req_params request))
                   {| state := WORKING; message := None |} None
                   (set_tasks (insert (send_id (req_params request)) t0) s0)
                 = (Ok working, sw)).
  { unfold InMemoryTaskManager.update_store. simpl tasks.
    rewrite lookup_insert_eq. reflexivity. }
  destruct (send_task_notification_frame working sw)
    as (s1 & Hn & Hnt & Hnp & Hns & Hnq & Hnu & Hna).
  exists t0, s1. cbv zeta. fold working.
  split; [exact Hup|].
  simpl in Hnt, Hnp, Hns, Hnq, Hnu, Hna.
  rewrite Hnt, Hnp, Hns, Hnq, Hnu, Hna, Ht0.
  repeat split; auto.
  unfold on_send_task.
  rewrite (bind_Ok _ _ s s None) by (unfold lift; rewrite Hv; reflexivity).
  cbv iota beta.
  rewrite (bind_Ok _ _ s s0 true Hreg). cbv beta.
  change (negb true) with false. cbv iota.
  rewrite (bind_Ok _ _ _ _ _ Hup). cbv beta.
  rewrite (bind_Ok _ _ _ _ _ Hupd). cbv beta.
  rewrite (bind_Ok _ _ _ _ _ Hn).
  reflexivity.
Qed.

End SendTaskFacts.

Section SendTaskOutcomes.

Variable uuid4 : nat -> string.
Variable are_modalities_compatible : option (list string) -> list string -> bool.
Variable self : CLIAgentTaskManager.

Local Abbreviation send_task := (on_send_task uuid4 are_modalities_compatible self).

Lemma agent_invoke_async_run (q sid : string) (s : TM) :
  agent_invoke_async self q sid s
  = (invoke_async (self_agent self) q sid, log_agent_call q sid s).
Proof. reflexivity. Qed.


(** An accepted request whose agent answers with [content] and
    [require_user_input]. *)
Lemma on_send_task_agent_answers (request : Req TaskSendParams) (s : TM)
    (q c : string) (r : AgentResponse) (b : bool) :
  rejected are_modalities_compatible self request = false ->
  _get_user_query (req_params request) = Ok q ->
  invoke_async (self_agent self) q (sessionId (req_params request)) = Ok r ->
  content r = Some c ->
  require_user_input r = Some b ->
  exists t s',
    send_task request s
    = (Ok {| response_id := req_id request;
             result := Some (ResTask (InMemoryTaskManager.append_task_history t
                                        (historyLength (req_params request))));
             error := None |}, s')
    /\ tasks s' !! send_id (req_params request) = Some t
    /\ agent_calls s' = (agent_calls s ++ [(q, sessionId (req_params request))])%list
    /\ if b then
         state (status t) = INPUT_REQUIRED
         /\ exists mid,
             message (status t)
             = Some (ProtocolMessage
                       {| a2a_role := agent;
                          a2a_parts := [A2ATextPart c (Some "text/plain")];
                          messageId := mid; taskId := None; contextId := None |})
       else
         state (status t) = COMPLETED
         /\ exists old aid,
             artifacts t
             = Some (old ++ [{| artifactId := aid;
                                artifact_parts := [A2ATextPart c (Some "text/plain")];
                                append := None; lastChunk := None |}])%list.
Proof.
  intros Hacc Hq Hinv Hc Hb.
  destruct (on_send_task_accepted uuid4 are_modalities_compatible self request s Hacc)
    as (t0 & s1 & Hup & Ht & Ha & _ & _ & _ & _ & Heq).
  cbv zeta in Ht, Heq. rewrite Heq.
  rewrite (bind_Ok _ _ s1 s1 q) by (unfold lift; rewrite Hq; reflexivity).
  cbv beta.
  erewrite bind_Ok.
  2:{ eapply try_except_Ok. rewrite agent_invoke_async_run, Hinv. reflexivity. }
  unfold _process_agent_response.
  rewrite (bind_Ok _ _ _ _ c) by (unfold lift; rewrite Hc; reflexivity).
  cbv beta.
  rewrite (bind_Ok _ _ _ _ b) by (unfold lift; rewrite Hb; reflexivity).
  cbv beta.
  destruct b.
  - erewrite bind_Ok; [|unfold bind, fresh_uuid, ret; reflexivity].
    cbv beta. simpl fst. simpl snd.
    erewrite bind_Ok.
    2:{ unfold InMemoryTaskManager.update_store. simpl tasks.
        rewrite Ht, lookup_insert_eq. reflexivity. }
    cbv beta.
    match goal with
    | |- context [bind (send_task_notification ?t) _ ?st] =>
        destruct (send_task_notification_frame t st)
          as (s2 & Hn & Hnt & _ & _ & _ & _ & Hna)
    end.
    erewrite bind_Ok; [|exact Hn].
    do 2 eexists. split; [reflexivity|].
    simpl in Hnt, Hna. rewrite Hnt, Hna, lookup_insert_eq, Ha.
    simpl. repeat split; eauto.
  - erewrite bind_Ok; [|unfold bind, fresh_uuid, ret; reflexivity].
    cbv beta. simpl fst. simpl snd.
    erewrite bind_Ok.
    2:{ unfold InMemoryTaskManager.update_store. simpl tasks.
        rewrite Ht, lookup_insert_eq. reflexivity. }
    cbv beta.
    match goal with
    | |- context [bind (send_task_notification ?t) _ ?st] =>
        destruct (send_task_notification_frame t st)
          as (s2 & Hn & Hnt & _ & _ & _ & _ & Hna)
    end.
    erewrite bind_Ok; [|exact Hn].
    do 2 eexists. split; [reflexivity|].
    simpl in Hnt, Hna. rewrite Hnt, Hna, lookup_insert_eq, Ha.
    simpl. repeat split; eauto.
Qed.

End SendTaskOutcomes.

(** ** C1: an agent that raises during a synchronous send *)




(** ** C5: what a synchronous send does to the store *)

(** C5, as amended.  [tasks/send]: for a request that passes validation
    and whose first part is text, the handler upserts the task, sets it
    to WORKING, calls the agent with the text, stores INPUT_REQUIRED with
    an agent message when the answer requires user input and COMPLETED
    with a new artifact otherwise, and returns the stored task.
    [message/send]: the handler calls the agent and answers with a task
    that is COMPLETED with one artifact when the agent reports completion
    and INPUT_REQUIRED with an agent message otherwise (FAILED when the
    agent raises); it does not touch the task store.  The third part
    spells out the order for [tasks/send]: upsert, then WORKING, then the
    query, the agent and the processing of its answer. *)
Theorem synchronous_send_effect
    (uuid4 : nat -> string)
    (are_modalities_compatible : option (list string) -> list string -> bool)
    (self : CLIAgentTaskManager) :
  (forall (request : Req TaskSendParams) (s : TM) (q c : string)
          (r : AgentResponse) (b : bool),
      rejected are_modalities_compatible self request = false ->
      _get_user_query (req_params request) = Ok q ->
      invoke_async (self_agent self) q (sessionId (req_params request)) = Ok r ->
      content r = Some c ->
      require_user_input r = Some b ->
      exists t s',
        on_send_task uuid4 are_modalities_compatible self request s
        = (Ok {| response_id := req_id request;
                 result := Some (ResTask (InMemoryTaskManager.append_task_history t
                                            (historyLength (req_params request))));
                 error := None |}, s')
        /\ tasks s' !! send_id (req_params request) = Some t
        /\ agent_calls s' = (agent_calls s ++ [(q, sessionId (req_params request))])%list
        /\ if b then
             state (status t) = INPUT_REQUIRED
             /\ exists mid,
                 message (status t)
                 = Some (ProtocolMessage
                           {| a2a_role := agent;
                              a2a_parts := [A2ATextPart c (Some "text/plain")];
                              messageId := mid; taskId := None; contextId := None |})
           else
             state (status t) = COMPLETED
             /\ exists old aid,
                 artifacts t
                 = Some (old ++ [{| artifactId := aid;
                                    artifact_parts := [A2ATextPart c (Some "text/plain")];
                                    append := None; lastChunk := None |}])%list)
  /\ (forall (request : Req MessageSendParams) (s : TM),
        exists t s' session_id,
          on_a2a_message_send uuid4 self request s
          = (Ok {| response_id := req_id request; result := Some (ResA2ATask t);
                   error := None |}, s')
          /\ tasks s' = tasks s
          /\ agent_calls s'
             = (agent_calls s
                ++ [(message_text_of (a2a_parts (params_message (req_params request))),
                     session_id)])%list
          /\ state (tr_status t)
             = reported_state
                 (invoke_async (self_agent self)
                    (message_text_of (a2a_parts (params_message (req_params request))))
                    session_id)
          /\ carries (state (tr_status t)) t)
  /\ (forall (request : Req TaskSendParams) (s : TM),
        rejected are_modalities_compatible self request = false ->
        exists t0 s1,
          let p := req_params request in
          let working := {| id := id t0; task_contextId := task_contextId t0;
                            status := {| state := WORKING; message := None |};
                            artifacts := artifacts t0; history := history t0 |} in
          InMemoryTaskManager.upsert_task p (registered request s)
          = (Ok t0, set_tasks (insert (send_id p) t0) (registered request s))
          /\ tasks s1 = <[send_id p := working]> (<[send_id p := t0]> (tasks s))
          /\ agent_calls s1 = agent_calls s
          /\ on_send_task uuid4 are_modalities_compatible self request s
             = (let* query := lift (_get_user_query p) in
                let* agent_response :=
                  try_except (agent_invoke_async self query (sessionId p))
                    (fun e => raise (ValueError ("Error invoking agent: " ++ exn_str e))) in
                _process_agent_response uuid4 request agent_response) s1).
Proof.
  split; [|split].
  - intros. eapply on_send_task_agent_answers; eauto.
  - intros request s.
    destruct (on_a2a_message_send_spec uuid4 self request s)
      as (t & s' & sid & Heq & Ht & _ & _ & _ & _ & Ha & Hst & Hc).
    exists t, s', sid. auto.
  - intros request s Hacc.
    destruct (on_send_task_accepted uuid4 are_modalities_compatible self request s Hacc)
      as (t0 & s1 & Hup & Ht & Ha & _ & _ & _ & _ & Heq).
    exists t0, s1. cbv zeta in *. auto.
Qed.

Lemma synchronous_send_effect_witness :
  exists t s',
    on_send_task Examples.uuid4 Examples.are_modalities_compatible
      (Examples.manager Examples.greeter Examples.accepting)
      {| req_id := IdInt 1; req_params := Examples.send_params "T1" Examples.hello None |}
      Examples.fresh
    = (Ok {| response_id := IdInt 1;
             result := Some (ResTask (InMemoryTaskManager.append_task_history t None));
             error := None |}, s')
    /\ tasks s' !! "T1" = Some t
    /\ agent_calls s' = [("Hello", "C1")]
    /\ state (status t) = COMPLETED
    /\ exists old aid,
        artifacts t
        = Some (old ++ [{| artifactId := aid;
                           artifact_parts := [A2ATextPart "Hi" (Some "text/plain")];
                           append := None; lastChunk := None |}])%list.
Proof.
  apply (proj1 (synchronous_send_effect Examples.uuid4
                  Examples.are_modalities_compatible
                  (Examples.manager Examples.greeter Examples.accepting))
           {| req_id := IdInt 1;
              req_params := Examples.send_params "T1" Examples.hello None |}
           Examples.fresh "Hello" "Hi" (Examples.completed "Hi") false); reflexivity.
Defined.

(** Scenario A sent as [message/send] to an empty store: the answer is a
    COMPLETED task, and the store still holds no task at all. *)
Lemma synchronous_send_counterexample :
  let request :=
    {| req_id := IdInt 1;
       req_params :=
         {| params_message :=
              {| a2a_role := user; a2a_parts := [A2ATextPart "Hello" (Some "text/plain")];
                 messageId := "m1"; taskId := Some "T1"; contextId := Some "C1" |} |} |} in
  let run := on_a2a_message_send Examples.uuid4
               (Examples.manager Examples.greeter Examples.accepting) request
               Examples.fresh in
  (exists t, fst run = Ok {| response_id := IdInt 1; result := Some (ResA2ATask t);
                             error := None |}
             /\ tr_id t = "T1" /\ state (tr_status t) = COMPLETED)
  /\ tasks (snd run) !! "T1" = None
  /\ tasks (snd run) = ∅.
Proof.
  cbv zeta. split; [eexists; split; [vm_compute; reflexivity|split; reflexivity]|].
  split; vm_compute; reflexivity.
Qed.

(** ** C9: requests rejected by validation *)

Section Rejection.

Variable uuid4 : nat -> string.
Variable are_modalities_compatible : option (list string) -> list string -> bool.
Variable self : CLIAgentTaskManager.

Lemma fails_validation_rejected (request : Req TaskSendParams) :
  fails_validation are_modalities_compatible self request ->
  rejected are_modalities_compatible self request = true.
Proof.
  unfold fails_validation, rejected, _validate_request, push_refused.
  intros [Hm | (pn & Hp & Hu)].
  - rewrite Hm. reflexivity.
  - rewrite Hp.
    destruct (are_modalities_compatible _ _); simpl; [|reflexivity].
    destruct (decide (url pn = "")) as [|Hne]; simpl; [reflexivity|].
    destruct Hu as [Hu|Hu]; [contradiction|]. rewrite Hu. reflexivity.
Qed.

End Rejection.




(** ** C4: push registration fails closed *)

(** C4.  If the verification challenge against [config.url] fails,
    [set_push_notification_info] returns false and stores nothing: the
    manager's state, and with it the registry, is what it was, so a task
    id without a config still has none afterwards.  A [tasks/send]
    request carrying such a config is turned down, again with the state
    untouched. *)
Theorem push_registration_fails_closed
    (uuid4 : nat -> string)
    (are_modalities_compatible : option (list string) -> list string -> bool)
    (self : CLIAgentTaskManager)
    (task_id : string) (config : PushNotificationConfig) (s : TM) :
  verify_push_notification_url (notification_sender_auth self) (url config) = false ->
  set_push_notification_info self task_id config s = (Ok false, s)
  /\ (forall s', snd (set_push_notification_info self task_id config s) = s' ->
                 push_notification_infos s' = push_notification_infos s
                 /\ (push_notification_infos s !! task_id = None ->
                     InMemoryTaskManager.has_push_notification_info task_id s'
                     = (Ok false, s')
                     /\ is_Ok (fst (InMemoryTaskManager.get_push_notification_info
                                      task_id s')) = false))
  /\ (forall request : Req TaskSendParams,
        pushNotification (req_params request) = Some config ->
        exists out,
          on_send_task uuid4 are_modalities_compatible self request s = (out, s)
          /\ refusal out).
Proof.
  intros Hv.
  assert (Hset : set_push_notification_info self task_id config s = (Ok false, s)).
  { unfold set_push_notification_info. rewrite Hv. reflexivity. }
  split; [exact Hset|]. split.
  - intros s' <-. rewrite Hset. simpl. split; [reflexivity|].
    intros Habs.
    unfold InMemoryTaskManager.has_push_notification_info,
      InMemoryTaskManager.get_push_notification_info.
    rewrite Habs. split; [|reflexivity].
    rewrite bool_decide_eq_false_2; [reflexivity|].
    intros [? ?]; discriminate.
  - intros request Hp.
    apply on_send_task_rejected, fails_validation_rejected.
    right. exists config. auto.
Qed.

Lemma push_registration_fails_closed_witness :
  set_push_notification_info (Examples.manager Examples.greeter Examples.rejecting)
    "T1" {| url := "http://callback.example/hook"; token := None |} Examples.fresh
  = (Ok false, Examples.fresh).
Proof.
  apply (proj1 (push_registration_fails_closed Examples.uuid4
                  Examples.are_modalities_compatible
                  (Examples.manager Examples.greeter Examples.rejecting)
                  "T1" {| url := "http://callback.example/hook"; token := None |}
                  Examples.fresh eq_refl)).
Defined.

(** ** C10: the query of [message/send] *)

Lemma append_assoc (a b c : string) : ((a ++ b) ++ c = a ++ (b ++ c))%string.
Proof.
  induction a as [|ch a IH]; [reflexivity|].
  change (String ch ((a ++ b) ++ c) = String ch (a ++ (b ++ c)))%string.
  f_equal. exact IH.
Qed.

Lemma append_nil_r (a : string) : (a ++ "" = a)%string.
Proof.
  induction a as [|ch a IH]; [reflexivity|].
  change (String ch (a ++ "") = String ch a)%string.
  f_equal. exact IH.
Qed.

Lemma message_text_of_acc (ps : list A2APart) (acc : string) :
  fold_left (fun message_text part =>
               match part with
               | A2ATextPart text _ => message_text ++ text
               | _ => message_text
               end) ps acc
  = (acc ++ concatenated_text ps)%string.
Proof.
  revert acc. induction ps as [|p ps IH]; intros acc.
  - simpl. symmetry. apply append_nil_r.
  - simpl fold_left. rewrite IH. unfold concatenated_text.
    destruct p; simpl; [rewrite append_assoc|..]; reflexivity.
Qed.

Lemma message_text_of_concatenated (ps : list A2APart) :
  message_text_of ps = concatenated_text ps.
Proof. unfold message_text_of. rewrite message_text_of_acc. reflexivity. Qed.

Lemma parse_parts_text (items : list json) (ps : list A2APart) :
  parse_parts items = Ok ps ->
  concatenated_text ps = json_concatenated_text items.
Proof.
  revert ps. induction items as [|it items IH]; intros ps H.
  - inversion H. reflexivity.
  - simpl in H. unfold json_concatenated_text. simpl List.filter.
    unfold json_is_text at 1.
    destruct (py_get it "kind" JNull) as [k|e] eqn:Ek; simpl in H; [|discriminate].
    destruct (py_eq_str k "text") eqn:Et.
    + bind_inv H. inversion H; subst.
      unfold concatenated_text. simpl List.filter. simpl map. simpl fold_right.
      fold (concatenated_text a3). fold (json_concatenated_text items).
      rewrite (IH a3 eq_refl).
      unfold json_text_field.
      match goal with
      | E : py_get it "text" _ = Ok ?a, V : validate_str _ ?a = Ok ?t |- _ =>
          rewrite E; destruct a; simpl in V; inversion V; subst
      end.
      reflexivity.
    + apply IH. assumption.
Qed.

(** C10.  The handler calls [invoke_async] exactly once, and the query it
    passes is the in-order concatenation of the text fields of the
    message's parts whose kind is "text"; file and data parts contribute
    nothing.  The same holds on the wire: for a body the router accepts,
    the query is the concatenation of the [text] of the JSON parts whose
    [kind] is "text". *)
Theorem message_send_query (uuid4 : nat -> string) (self : CLIAgentTaskManager) :
  (forall (request : Req MessageSendParams) (s : TM),
      exists session_id,
        agent_calls (snd (on_a2a_message_send uuid4 self request s))
        = (agent_calls s
           ++ [(concatenated_text (a2a_parts (params_message (req_params request))),
                session_id)])%list)
  /\ (forall (body : json) (request : Req MessageSendParams),
        parse_message_send body = Ok request ->
        exists items,
          request_parts body = Ok items
          /\ concatenated_text (a2a_parts (params_message (req_params request)))
             = json_concatenated_text items).
Proof.
  split.
  - intros request s.
    destruct (on_a2a_message_send_spec uuid4 self request s)
      as (t & s' & sid & Heq & _ & _ & _ & _ & _ & Ha & _).
    exists sid. rewrite Heq. simpl. rewrite Ha.
    rewrite message_text_of_concatenated. reflexivity.
  - intros body request H. unfold parse_message_send in H.
    bind_inv H. inversion H; subst; simpl.
    unfold request_parts.
    repeat match goal with
           | E : _ = Ok _ |- _ => rewrite E; simpl; clear E
           end.
    eexists; split; [reflexivity|].
    apply parse_parts_text. assumption.
Qed.

Lemma message_send_query_witness :
  exists items,
    request_parts (Examples.message_send_body (JInt 7)
                     [Examples.json_text_part "Hel";
                      JDict [("kind", JStr "data"); ("data", JDict [])];
                      Examples.json_text_part "lo"]) = Ok items
    /\ concatenated_text
         [A2ATextPart "Hel" (Some "text/plain"); A2ATextPart "lo" (Some "text/plain")]
       = json_concatenated_text items.
Proof.
  apply (proj2 (message_send_query Examples.uuid4
                  (Examples.manager Examples.greeter Examples.accepting))
           (Examples.message_send_body (JInt 7)
              [Examples.json_text_part "Hel";
               JDict [("kind", JStr "data"); ("data", JDict [])];
               Examples.json_text_part "lo"])
           {| req_id := IdInt 7;
              req_params :=
                {| params_message :=
                     {| a2a_role := user;
                        a2a_parts := [A2ATextPart "Hel" (Some "text/plain");
                                      A2ATextPart "lo" (Some "text/plain")];
                        messageId := "m1"; taskId := None; contextId := None |} |} |}).
  reflexivity.
Defined.

(** ** C3: what the streaming producer publishes *)

Section StreamingFacts.

Variable uuid4 : nat -> string.
Variable self : CLIAgentTaskManager.

(** Every iteration of the producer's loop ends in an exception, and no
    event has been put on any queue by then: the event constructors are
    called without [taskId] and [contextId]. *)
Lemma stream_item_raises (p : TaskSendParams) (item : AgentResponse) (s : TM) :
  exists e s',
    stream_item uuid4 p item s = (Raise e, s')
    /\ sse_queues s' = sse_queues s
    /\ task_sse_subscribers s' = task_sse_subscribers s.
Proof.
  unfold stream_item.
  destruct (is_task_complete item) as [c|];
    [|do 2 eexists; split; [reflexivity|auto]].
  destruct (require_user_input item) as [u|];
    [|do 2 eexists; split; [reflexivity|auto]].
  destruct (content item) as [text|];
    [|do 2 eexists; split; [reflexivity|auto]].
  rewrite (bind_Ok _ _ s s c) by reflexivity. cbv beta.
  rewrite (bind_Ok _ _ s s u) by reflexivity. cbv beta.
  rewrite (bind_Ok _ _ s s text) by reflexivity. cbv beta.
  destruct c, u; simpl andb; cbv iota;
    (erewrite bind_Ok; [|unfold bind, fresh_uuid, ret; reflexivity]);
    cbv beta iota;
    match goal with
    | |- context [bind (InMemoryTaskManager.update_store ?i ?st ?a) _ ?s0] =>
        destruct (InMemoryTaskManager.update_store i st a s0) as [[t|e] s1] eqn:Hu
    end;
    try (erewrite bind_Raise by exact Hu;
         unfold InMemoryTaskManager.update_store in Hu; simpl in Hu;
         destruct (tasks s !! send_id p); inversion Hu; subst;
         do 2 eexists; split; [reflexivity|auto]);
    (erewrite bind_Ok by exact Hu; cbv beta;
     unfold InMemoryTaskManager.update_store in Hu; simpl in Hu;
     destruct (tasks s !! send_id p); inversion Hu; subst; clear Hu;
     match goal with
     | |- context [bind (send_task_notification ?t) _ ?st] =>
         destruct (send_task_notification_frame t st)
           as (s2 & Hn & _ & _ & Hns & Hnq & _ & _)
     end;
     erewrite bind_Ok by exact Hn; cbv beta;
     do 2 eexists; split; [reflexivity|];
     simpl in Hns, Hnq; auto).
Qed.

Lemma stream_loop_publishes_nothing (p : TaskSendParams)
    (items : list (res AgentResponse)) (s : TM) :
  sse_queues (snd (stream_loop uuid4 p items s)) = sse_queues s
  /\ task_sse_subscribers (snd (stream_loop uuid4 p items s)) = task_sse_subscribers s
  /\ (items <> [] -> is_Ok (fst (stream_loop uuid4 p items s)) = false).
Proof.
  destruct items as [|[item|e] rest]; simpl.
  - repeat split; auto. congruence.
  - destruct (stream_item_raises p item s) as (e & s' & Heq & Hq & Hs).
    erewrite bind_Raise by exact Heq. simpl. auto.
  - auto.
Qed.

(** The producer leaves every consumer queue and the hub's
    registrations as they were, whatever the agent streams. *)
Lemma _run_streaming_agent_publishes_nothing (request : Req TaskSendParams) (s : TM) :
  sse_queues (snd (_run_streaming_agent uuid4 self request s)) = sse_queues s
  /\ task_sse_subscribers (snd (_run_streaming_agent uuid4 self request s))
     = task_sse_subscribers s.
Proof.
  unfold _run_streaming_agent.
  destruct (_get_user_query (req_params request)) as [q|e] eqn:Hq.
  2:{ erewrite bind_Raise by reflexivity. auto. }
  rewrite (bind_Ok _ _ s s q) by reflexivity. cbv beta.
  unfold try_except.
  rewrite (bind_Ok _ _ s
             (log_agent_call q (sessionId (req_params request)) s)
             (stream (self_agent self) q (sessionId (req_params request))))
    by reflexivity.
  cbv beta.
  pose proof (stream_loop_publishes_nothing (req_params request)
                (stream (self_agent self) q (sessionId (req_params request)))
                (log_agent_call q (sessionId (req_params request)) s))
    as (Hql & Hsl & _).
  destruct (stream_loop _ _ _ _) as [[u|e] s'].
  - simpl in *. auto.
  - simpl in Hql, Hsl. erewrite bind_Raise by reflexivity. simpl. auto.
Qed.

End StreamingFacts.

(** C3.  Scenario B on the code: [tasks/sendSubscribe] for a new task T2
    whose agent streams two working chunks and a completed one.  The
    handler returns the event stream of consumer queue 0; the producer
    stores the first chunk's WORKING status and then fails to construct
    its [TaskStatusUpdateEvent], so the queue stays empty, no final event
    is published and the task stays registered in the hub: none of the
    four events of the scenario is delivered and the stream never
    closes.  The same holds for every request and every agent: the
    producer never changes a consumer queue. *)
Theorem streaming_scenario_delivers_nothing :
  (let run := on_send_task_subscribe Examples.uuid4 Examples.are_modalities_compatible
                (Examples.manager Examples.greeter Examples.accepting)
                {| req_id := IdInt 1;
                   req_params := Examples.send_params "T2" Examples.hello None |}
                Examples.fresh in
   stream Examples.greeter "Hello" "C1"
   = [Ok (Examples.working "one"); Ok (Examples.working "two");
      Ok (Examples.completed "done")]
   /\ fst run = Ok (EventStream (IdInt 1) "T2" 0)
   /\ sse_queues (snd run) !! 0 = Some []
   /\ task_sse_subscribers (snd run) !! "T2" = Some [0]
   /\ option_map (fun t => state (status t)) (tasks (snd run) !! "T2") = Some WORKING
   /\ agent_calls (snd run) = [("Hello", "C1")])
  /\ (forall (uuid4 : nat -> string) (self : CLIAgentTaskManager)
             (request : Req TaskSendParams) (s : TM),
        sse_queues (snd (_run_streaming_agent uuid4 self request s)) = sse_queues s
        /\ task_sse_subscribers (snd (_run_streaming_agent uuid4 self request s))
           = task_sse_subscribers s).
Proof.
  split.
  - cbv zeta. repeat split; vm_compute; reflexivity.
  - intros. apply _run_streaming_agent_publishes_nothing.
Qed.

(** ** C8: resubscribing to an unknown task *)

(** C8, as amended.  For a [tasks/resubscribe] request whose task has no
    registration in the hub (never created, or already finalized), the
    handler opens no stream and changes nothing, and the caller gets a
    JSON-RPC error whose code is the internal-error code -32603, not the
    task-not-found code -32001; the server returns a response for the
    request's body whatever the state. *)
Theorem resubscribe_unknown_task
    (validate_python : json -> res A2ARequest) (task_manager : TaskManager)
    (request : Req TaskIdParams) (s : TM) :
  task_sse_subscribers s !! params_id (req_params request) = None ->
  snd (on_resubscribe_to_task request s) = s
  /\ (forall rid tid q, fst (on_resubscribe_to_task request s) <> Ok (EventStream rid tid q))
  /\ http_error_code (answer (fst (on_resubscribe_to_task request s)))
     = Some A2AErrorCodes.INTERNAL_ERROR
  /\ http_error_code (answer (fst (on_resubscribe_to_task request s)))
     <> Some A2AErrorCodes.TASK_NOT_FOUND
  /\ (forall (i : json) (params : list (string * json)),
        let run := _process_request validate_python task_manager
                     (Body (JDict [("jsonrpc", JStr "2.0"); ("id", i);
                                   ("method", JStr "tasks/resubscribe");
                                   ("params", JDict params)])) s in
        http_error_code (fst run) = Some A2AErrorCodes.INTERNAL_ERROR
        /\ snd run = s).
Proof.
  intros Hnone.
  assert (Hrun : exists e,
    on_resubscribe_to_task request s = (Raise e, s)
    /\ (forall m input, e <> ValidationError m input) /\ e <> JSONDecodeError).
  { unfold on_resubscribe_to_task.
    erewrite try_except_Raise.
    2:{ erewrite bind_Raise; [reflexivity|].
        unfold InMemoryTaskManager.setup_sse_consumer. rewrite Hnone. reflexivity. }
    erewrite bind_Raise by reflexivity.
    eexists; split; [reflexivity|]. split; [intros m input|]; discriminate. }
  destruct Hrun as (e & Hrun & Hv & Hj).
  rewrite Hrun. simpl.
  rewrite (_handle_exception_not_validation e Hv Hj).
  split; [reflexivity|]. split; [intros; discriminate|].
  split; [reflexivity|]. split; [discriminate|].
  intros i params. cbv zeta.
  rewrite _process_request_other_method; [split; reflexivity|].
  intros method Hm. inversion Hm; subst. reflexivity.
Qed.

Lemma resubscribe_unknown_task_witness :
  http_error_code
    (answer (fst (on_resubscribe_to_task
                    {| req_id := IdInt 5;
                       req_params := {| params_id := "never-created";
                                        query_historyLength := None |} |}
                    Examples.fresh)))
  = Some A2AErrorCodes.INTERNAL_ERROR.
Proof.
  apply (resubscribe_unknown_task (validate_python Examples.uuid4)
           (cli_task_manager Examples.uuid4 Examples.are_modalities_compatible
              (Examples.manager Examples.greeter Examples.accepting))
           {| req_id := IdInt 5;
              req_params := {| params_id := "never-created";
                               query_historyLength := None |} |}
           Examples.fresh).
  reflexivity.
Defined.

(** Scenario E: the error returned for an id never created carries the
    internal-error code, not the task-not-found code. *)
Lemma resubscribe_counterexample :
  let body := Examples.envelope (JInt 5) "tasks/resubscribe"
                (JDict [("id", JStr "never-created")]) in
  http_error_code
    (fst (Examples.server Examples.greeter Examples.accepting (Body body) Examples.fresh))
  = Some A2AErrorCodes.INTERNAL_ERROR
  /\ http_error_code
       (fst (Examples.server Examples.greeter Examples.accepting (Body body)
               Examples.fresh))
     <> Some A2AErrorCodes.TASK_NOT_FOUND
  /\ http_error_code
       (answer (fst (on_resubscribe_to_task
                       {| req_id := IdInt 5;
                          req_params := {| params_id := "never-created";
                                           query_historyLength := None |} |}
                       Examples.fresh)))
     = Some A2AErrorCodes.INTERNAL_ERROR.
Proof.
  cbv zeta. repeat split; try (vm_compute; reflexivity).
  vm_compute. discriminate.
Qed.


(** * Further properties *)

(** ** The ids of a [message/send] exchange *)

Lemma on_a2a_message_send_ids (uuid4 : nat -> string) (self : CLIAgentTaskManager)
    (request : Req MessageSendParams) (s : TM) :
  let msg := params_message (req_params request) in
  let task := chosen_id (taskId msg) (uuid4 (uuid_count s)) in
  let session :=
    chosen_id (contextId msg)
      (uuid4 (if truthy (taskId msg) then uuid_count s else S (uuid_count s))) in
  exists t s',
    on_a2a_message_send uuid4 self request s
    = (Ok {| response_id := req_id request; result := Some (ResA2ATask t);
             error := None |}, s')
    /\ tr_id t = task
    /\ tr_contextId t = session
    /\ agent_calls s' = (agent_calls s ++ [(message_text_of (a2a_parts msg), session)])%list
    /\ state (tr_status t)
       = reported_state (invoke_async (self_agent self)
                           (message_text_of (a2a_parts msg)) session).
Proof.
  cbv zeta.
  unfold on_a2a_message_send, or_uuid, chosen_id, bind, try_except, agent_invoke_async,
    fresh_uuid, lift, ret, reported_state.
  destruct (truthy (taskId (params_message (req_params request))));
    destruct (truthy (contextId (params_message (req_params request))));
    simpl;
    match goal with
    | |- context [invoke_async ?a ?q ?sid] =>
        destruct (invoke_async a q sid) as [r|e] eqn:Hinv
    end;
    simpl;
    try (destruct (get_default (is_task_complete r) false) eqn:Hc; simpl);
    do 2 eexists;
    (split; [reflexivity|]);
    simpl; rewrite ?Hinv, ?Hc; simpl;
    repeat split; eauto.
Qed.

(** X1.  The [message/send] handler answers with the ids it was given and
    passes the given context id to the agent as session id; an id that is
    missing or the empty string is replaced by a generated uuid, the task
    id's drawn before the context id's. *)
Theorem message_send_ids (uuid4 : nat -> string) (self : CLIAgentTaskManager)
    (request : Req MessageSendParams) (s : TM) :
  let msg := params_message (req_params request) in
  let task := chosen_id (taskId msg) (uuid4 (uuid_count s)) in
  let session :=
    chosen_id (contextId msg)
      (uuid4 (if truthy (taskId msg) then uuid_count s else S (uuid_count s))) in
  (forall given, given <> "" -> chosen_id (Some given) (uuid4 (uuid_count s)) = given)
  /\ chosen_id (Some "") (uuid4 (uuid_count s)) = uuid4 (uuid_count s)
  /\ chosen_id None (uuid4 (uuid_count s)) = uuid4 (uuid_count s)
  /\ exists t s',
       on_a2a_message_send uuid4 self request s
       = (Ok {| response_id := req_id request; result := Some (ResA2ATask t);
                error := None |}, s')
       /\ tr_id t = task
       /\ tr_contextId t = session
       /\ agent_calls s'
          = (agent_calls s ++ [(message_text_of (a2a_parts msg), session)])%list.
Proof.
  cbv zeta. split; [|split; [reflexivity|split; [reflexivity|]]].
  - intros given Hne. unfold chosen_id, truthy.
    destruct (decide (given = "")); [contradiction|reflexivity].
  - destruct (on_a2a_message_send_ids uuid4 self request s)
      as (t & s' & Heq & Ht & Hc & Ha & _).
    exists t, s'. auto.
Qed.

(** ** The router's manual parsing of [message/send] *)

Lemma parse_parts_ok (items : list json) :
  forallb json_part_ok items = true ->
  parse_parts items = Ok (map part_of_json (List.filter json_is_text items)).
Proof.
  induction items as [|it items IH]; intros H; [reflexivity|].
  simpl in H. apply andb_true_iff in H. destruct H as [Hit Hrest].
  specialize (IH Hrest).
  destruct it as [| | | | |d|]; try discriminate.
  cbn [parse_parts List.filter py_get res_bind]. unfold json_is_text at 1.
  cbn [py_get]. unfold json_part_ok in Hit.
  destruct (py_eq_str (get_default (assoc "kind" d) JNull) "text") eqn:Ek.
  - destruct (get_default (assoc "text" d) (JStr "")) as [| | |text| | |] eqn:Et;
      try discriminate.
    destruct (get_default (assoc "mimeType" d) (JStr "text/plain")) as [| | |m| | |] eqn:Em;
      try discriminate;
      cbn [res_bind validate_str validate_optional_str]; rewrite IH;
      cbn [res_bind map];
      unfold part_of_json, json_text_field; cbn [py_get];
      rewrite Et, Em; reflexivity.
  - cbn [res_bind]. exact IH.
Qed.

Lemma parse_parts_bad (items : list json) :
  forallb json_part_ok items = false ->
  is_Ok (parse_parts items) = false.
Proof.
  induction items as [|it items IH]; intros H; [discriminate|].
  simpl in H. apply andb_false_iff in H.
  destruct it as [| | | | |d|]; try reflexivity.
  cbn [parse_parts py_get res_bind].
  unfold json_part_ok in H.
  destruct (py_eq_str (get_default (assoc "kind" d) JNull) "text") eqn:Ek.
  - destruct (get_default (assoc "text" d) (JStr "")) as [| | |text| | |] eqn:Et;
      cbn [res_bind validate_str]; try reflexivity.
    destruct (get_default (assoc "mimeType" d) (JStr "text/plain")) as [| | |m| | |] eqn:Em;
      cbn [res_bind validate_optional_str]; try reflexivity;
      (destruct H as [H|H]; [discriminate|]);
      specialize (IH H); (destruct (parse_parts items); [discriminate|reflexivity]).
  - destruct H as [H|H]; [discriminate|]. exact (IH H).
Qed.

(** X2.  The router's part loop accepts a list of JSON parts exactly when
    every part is an object and every part of kind "text" has a string (or
    no) [text] and a string, null (or no) [mimeType].  It then returns the
    parts of kind "text", in order, as text parts (a missing text is the
    empty string, a missing [mimeType] is "text/plain") and drops every
    other part; one part that is not an object fails the whole list, even
    if its kind would have been dropped. *)
Theorem parse_parts_characterised (items : list json) :
  (forallb json_part_ok items = true ->
   parse_parts items = Ok (map part_of_json (List.filter json_is_text items)))
  /\ (forallb json_part_ok items = false -> is_Ok (parse_parts items) = false).
Proof.
  split; [apply parse_parts_ok | apply parse_parts_bad].
Qed.

Lemma parse_parts_characterised_witness :
  parse_parts [JDict [("kind", JStr "text")];
               JDict [("kind", JStr "file"); ("file", JInt 3)];
               JDict [("kind", JStr "text"); ("text", JStr "b"); ("mimeType", JNull)]]
  = Ok [A2ATextPart "" (Some "text/plain"); A2ATextPart "b" None].
Proof.
  apply (proj1 (parse_parts_characterised
                  [JDict [("kind", JStr "text")];
                   JDict [("kind", JStr "file"); ("file", JInt 3)];
                   JDict [("kind", JStr "text"); ("text", JStr "b");
                          ("mimeType", JNull)]])).
  reflexivity.
Defined.







(** ** [tasks/send]: the query and the notifications *)

Lemma send_task_notification_run (t : Task) (s : TM) :
  exists s',
    send_task_notification t s = (Ok tt, s')
    /\ tasks s' = tasks s
    /\ push_notification_infos s' = push_notification_infos s
    /\ agent_calls s' = agent_calls s
    /\ uuid_count s' = uuid_count s
    /\ sent_notifications s'
       = match push_notification_infos s !! id t with
         | Some c => (sent_notifications s ++ [(url c, t)])%list
         | None => sent_notifications s
         end.
Proof.
  unfold send_task_notification, bind, ret,
    InMemoryTaskManager.has_push_notification_info,
    InMemoryTaskManager.get_push_notification_info.
  destruct (push_notification_infos s !! id t) as [c|] eqn:Hc.
  - rewrite bool_decide_eq_true_2 by eauto. simpl. rewrite Hc.
    eexists; split; [reflexivity|]. simpl. auto 10.
  - rewrite bool_decide_eq_false_2 by (intros [? ?]; discriminate). simpl.
    eexists; split; [reflexivity|]. auto 10.
Qed.

(** The store update and the notification that end
    [_process_agent_response]. *)
Lemma update_and_notify (task_id : string) (st : TaskStatus)
    (arts : option (list Artifact)) (k : Task -> M JSONRPCResponse) (s : TM) :
  (forall t s', agent_calls (snd (k t s')) = agent_calls s'
                /\ push_notification_infos (snd (k t s')) = push_notification_infos s'
                /\ sent_notifications (snd (k t s')) = sent_notifications s') ->
  let run := (let* task := InMemoryTaskManager.update_store task_id st arts in
              send_task_notification task ;; k task) s in
  agent_calls (snd run) = agent_calls s
  /\ push_notification_infos (snd run) = push_notification_infos s
  /\ (forall t, tasks s !! task_id = Some t ->
        sent_notifications (snd run)
        = match push_notification_infos s !! id t with
          | Some c =>
              (sent_notifications s
                 ++ [(url c,
                      {| id := id t; task_contextId := task_contextId t; status := st;
                         artifacts := match arts with
                                      | None => artifacts t
                                      | Some l => Some (default [] (artifacts t) ++ l)%list
                                      end;
                         history := history t |})])%list
          | None => sent_notifications s
          end).
Proof.
  intros Hk. cbv zeta.
  destruct (tasks s !! task_id) as [t0|] eqn:Hl.
  - erewrite bind_Ok by (unfold InMemoryTaskManager.update_store; rewrite Hl; reflexivity).
    cbv beta.
    match goal with
    | |- context [bind (send_task_notification ?t) _ ?st] =>
        destruct (send_task_notification_run t st)
          as (s2 & Hn & _ & Hnp & Hna & _ & Hsent)
    end.
    erewrite bind_Ok by exact Hn.
    destruct (Hk
      {| id := id t0; task_contextId := task_contextId t0; status := st;
         artifacts := match arts with
                      | None => artifacts t0
                      | Some l => Some (default [] (artifacts t0) ++ l)%list
                      end;
         history := history t0 |} s2) as (Hka & Hkp & Hks).
    rewrite Hka, Hkp, Hks. simpl in Hna, Hnp, Hsent.
    split; [exact Hna|split; [exact Hnp|]].
    intros t Ht. inversion Ht; subst t. exact Hsent.
  - erewrite bind_Raise by (unfold InMemoryTaskManager.update_store; rewrite Hl; reflexivity).
    simpl. split; [reflexivity|split; [reflexivity|intros; discriminate]].
Qed.

Section SendTaskNotifications.

Variable uuid4 : nat -> string.
Variable are_modalities_compatible : option (list string) -> list string -> bool.
Variable self : CLIAgentTaskManager.

(** An accepted request up to the point where the query is read: the
    task is stored WORKING under the request's id and the url registered
    for that id, if any, is notified of it. *)
Lemma on_send_task_notifies (request : Req TaskSendParams) (s : TM) :
  rejected are_modalities_compatible self request = false ->
  (forall t, tasks s !! send_id (req_params request) = Some t ->
             id t = send_id (req_params request)) ->
  exists t_working s1,
    let p := req_params request in
    id t_working = send_id p
    /\ state (status t_working) = WORKING
    /\ tasks s1 !! send_id p = Some t_working
    /\ agent_calls s1 = agent_calls s
    /\ push_notification_infos s1 = push_notification_infos (registered request s)
    /\ sent_notifications s1
       = match push_notification_infos (registered request s) !! send_id p with
         | Some c => (sent_notifications s ++ [(url c, t_working)])%list
         | None => sent_notifications s
         end
    /\ on_send_task uuid4 are_modalities_compatible self request s
       = (let* query := lift (_get_user_query p) in
          let* agent_response :=
            try_except (agent_invoke_async self query (sessionId p))
              (fun e => raise (ValueError ("Error invoking agent: " ++ exn_str e))) in
          _process_agent_response uuid4 request agent_response) s1.
Proof.
  unfold rejected, push_refused. intros Hrej Hwf.
  destruct (_validate_request are_modalities_compatible self request)
    as [[ve|]|e] eqn:Hv; try discriminate.
  assert (Hreg :
    (match pushNotification (req_params request) with
     | Some pn => set_push_notification_info self (send_id (req_params request)) pn
     | None => ret true
     end) s = (Ok true, registered request s)).
  { unfold registered, set_push_notification_info.
    destruct (pushNotification (req_params request)) as [pn|]; [|reflexivity].
    destruct (verify_push_notification_url _ _); [reflexivity|discriminate]. }
  set (s0 := registered request s) in *.
  assert (Hs0 : tasks s0 = tasks s /\ agent_calls s0 = agent_calls s
                /\ sent_notifications s0 = sent_notifications s).
  { unfold s0, registered.
    destruct (pushNotification (req_params request)); simpl; auto. }
  destruct Hs0 as (Ht0 & Ha0 & Hsent0).
  assert (Hup : exists t0, InMemoryTaskManager.upsert_task (req_params request) s0
                = (Ok t0, set_tasks (insert (send_id (req_params request)) t0) s0)
                /\ id t0 = send_id (req_params request)).
  { unfold InMemoryTaskManager.upsert_task. eexists; split; [reflexivity|].
    rewrite Ht0.
    destruct (tasks s !! send_id (req_params request)) as [t|] eqn:Hl; simpl; auto. }
  destruct Hup as (t0 & Hup & Hid).
  set (working := {| id := id t0; task_contextId := task_contextId t0;
                     status := {| state := WORKING; message := None |};
                     artifacts := artifacts t0; history := history t0 |}).
  set (sw := set_tasks (insert (send_id (req_params request)) working)
               (set_tasks (insert (send_id (req_params request)) t0) s0)).
  assert (Hupd : InMemoryTaskManager.update_store (send_id (req_params request))
                   {| state := WORKING; message := None |} None
                   (set_tasks (insert (send_id (req_params request)) t0) s0)
                 = (Ok working, sw)).
  { unfold InMemoryTaskManager.update_store. simpl tasks.
    rewrite lookup_insert_eq. reflexivity. }
  destruct (send_task_notification_run working sw)
    as (s1 & Hn & Hnt & Hnp & Hna & _ & Hns).
  exists working, s1. cbv zeta.
  simpl in Hnt, Hnp, Hna, Hns.
  rewrite Hnt, Hnp, Hna, Hns, Hid, Hsent0, Ha0.
  split; [exact Hid|]. split; [reflexivity|].
  split; [apply lookup_insert_eq|]. split; [reflexivity|]. split; [reflexivity|].
  split; [reflexivity|].
  unfold on_send_task.
  rewrite (bind_Ok _ _ s s None) by (unfold lift; rewrite Hv; reflexivity).
  cbv iota beta.
  rewrite (bind_Ok _ _ s s0 true Hreg). cbv beta.
  change (negb true) with false. cbv iota.
  rewrite (bind_Ok _ _ _ _ _ Hup). cbv beta.
  rewrite (bind_Ok _ _ _ _ _ Hupd). cbv beta.
  rewrite (bind_Ok _ _ _ _ _ Hn).
  reflexivity.
Qed.

(** Processing the agent's answer calls no agent and registers nothing;
    when the answer holds [content] and [require_user_input] it stores
    the final task and notifies the url registered for it. *)
Lemma _process_agent_response_notifies (request : Req TaskSendParams)
    (r : AgentResponse) (s : TM) (t : Task) :
  tasks s !! send_id (req_params request) = Some t ->
  let run := _process_agent_response uuid4 request r s in
  agent_calls (snd run) = agent_calls s
  /\ push_notification_infos (snd run) = push_notification_infos s
  /\ match content r, require_user_input r with
     | Some c, Some b =>
         exists t_final,
           id t_final = id t
           /\ state (status t_final) = (if b then INPUT_REQUIRED else COMPLETED)
           /\ sent_notifications (snd run)
              = match push_notification_infos s !! id t with
                | Some cfg => (sent_notifications s ++ [(url cfg, t_final)])%list
                | None => sent_notifications s
                end
     | _, _ => sent_notifications (snd run) = sent_notifications s
     end.
Proof.
  intros Ht. cbv zeta. unfold _process_agent_response.
  destruct (content r) as [c|]; [|simpl; auto].
  rewrite (bind_Ok _ _ s s c) by reflexivity. cbv beta.
  destruct (require_user_input r) as [b|]; [|simpl; auto].
  rewrite (bind_Ok _ _ s s b) by reflexivity. cbv beta.
  destruct b;
    (erewrite bind_Ok; [|unfold bind, fresh_uuid, ret; reflexivity]);
    cbv beta;
    match goal with
    | |- context [bind (InMemoryTaskManager.update_store ?k ?st ?a) ?f ?s0] =>
        destruct (update_and_notify k st a
                    (fun task => lift (new_JSONRPCResponse (req_id request)
                       (Some (ResTask (InMemoryTaskManager.append_task_history task
                          (historyLength (req_params request))))) None)) s0)
          as (Ha & Hp & Hs); [intros; unfold lift; simpl; auto|]
    end;
    cbv zeta in Ha, Hp, Hs; simpl fst in *; simpl snd in *;
    specialize (Hs t Ht);
    (split; [exact Ha|split; [exact Hp|]]);
    eexists; (split; [|split; [|exact Hs]]); reflexivity.
Qed.

End SendTaskNotifications.

Section SendTaskNotificationTheorems.

Variable uuid4 : nat -> string.
Variable are_modalities_compatible : option (list string) -> list string -> bool.
Variable self : CLIAgentTaskManager.

(** X5.  [tasks/send] reads its query from the first part of the message
    only: [_get_user_query] succeeds exactly when the first part is a
    text part and returns that part's text, and an accepted request calls
    the agent exactly once, with that text and the request's session id,
    whatever parts follow and whatever the agent answers. *)
Theorem first_part_is_the_query (request : Req TaskSendParams) (s : TM) :
  (forall q, _get_user_query (req_params request) = Ok q
             <-> exists rest, parts (send_message (req_params request)) = TextPart q :: rest)
  /\ (forall q rest,
        rejected are_modalities_compatible self request = false ->
        parts (send_message (req_params request)) = TextPart q :: rest ->
        agent_calls (snd (on_send_task uuid4 are_modalities_compatible self request s))
        = (agent_calls s ++ [(q, sessionId (req_params request))])%list).
Proof.
  split.
  - intros q. unfold _get_user_query.
    destruct (parts (send_message (req_params request))) as [|[t|f|d] rest]; split;
      try discriminate; try (intros [? H]; discriminate).
    + intros H. inversion H; subst. eauto.
    + intros [r H]. inversion H; subst. reflexivity.
  - intros q rest Hacc Hparts.
    destruct (on_send_task_accepted uuid4 are_modalities_compatible self request s Hacc)
      as (t0 & s1 & _ & Ht & Ha & _ & _ & _ & _ & Heq).
    cbv zeta in Heq. rewrite Heq.
    assert (Hq : _get_user_query (req_params request) = Ok q).
    { unfold _get_user_query. rewrite Hparts. reflexivity. }
    rewrite (bind_Ok _ _ s1 s1 q) by (unfold lift; rewrite Hq; reflexivity).
    cbv beta.
    destruct (invoke_async (self_agent self) q (sessionId (req_params request)))
      as [r|e] eqn:Hinv.
    + erewrite bind_Ok.
      2:{ eapply try_except_Ok. rewrite agent_invoke_async_run, Hinv. reflexivity. }
      edestruct (_process_agent_response_notifies uuid4 request r
                  (log_agent_call q (sessionId (req_params request)) s1)) as (Hc & _).
      { simpl. rewrite Ht. apply lookup_insert_eq. }
      cbv zeta in Hc. rewrite Hc. simpl. rewrite Ha. reflexivity.
    + erewrite bind_Raise.
      2:{ erewrite try_except_Raise; [|rewrite agent_invoke_async_run, Hinv; reflexivity].
          reflexivity. }
      simpl. rewrite Ha. reflexivity.
Qed.

(** X6.  An accepted [tasks/send] request that carries a push config
    registers it under the task id and notifies its url of each state the
    task is stored in, in order: of the WORKING task before the agent
    runs, and, when the agent answers with [content] and
    [require_user_input], of the final task (INPUT_REQUIRED or COMPLETED)
    that is left in the store.  When the agent raises, the WORKING
    notification is the only one. *)
Theorem push_notifications_follow_the_task (request : Req TaskSendParams) (s : TM)
    (pn : PushNotificationConfig) (q : string) (rest : list Part) :
  rejected are_modalities_compatible self request = false ->
  pushNotification (req_params request) = Some pn ->
  (forall t, tasks s !! send_id (req_params request) = Some t ->
             id t = send_id (req_params request)) ->
  parts (send_message (req_params request)) = TextPart q :: rest ->
  let p := req_params request in
  let s' := snd (on_send_task uuid4 are_modalities_compatible self request s) in
  push_notification_infos s' !! send_id p = Some pn
  /\ exists t_working,
       id t_working = send_id p /\ state (status t_working) = WORKING
       /\ match invoke_async (self_agent self) q (sessionId p) with
          | Raise _ =>
              sent_notifications s'
              = (sent_notifications s ++ [(url pn, t_working)])%list
          | Ok r =>
              forall c b, content r = Some c -> require_user_input r = Some b ->
              exists t_final,
                id t_final = send_id p
                /\ state (status t_final) = (if b then INPUT_REQUIRED else COMPLETED)
                /\ sent_notifications s'
                   = (sent_notifications s
                        ++ [(url pn, t_working); (url pn, t_final)])%list
          end.
Proof.
  intros Hacc Hpn Hwf Hparts p s'. subst p s'.
  destruct (on_send_task_notifies uuid4 are_modalities_compatible self request s Hacc Hwf)
    as (tw & s1 & Hid & Hst & Ht & Ha & Hp & Hs & Heq).
  cbv zeta in Heq. rewrite Heq. clear Heq.
  assert (Hreg : push_notification_infos (registered request s)
                   !! send_id (req_params request) = Some pn).
  { unfold registered. rewrite Hpn. simpl. apply lookup_insert_eq. }
  rewrite Hreg in Hs.
  assert (Hq : _get_user_query (req_params request) = Ok q).
  { unfold _get_user_query. rewrite Hparts. reflexivity. }
  rewrite (bind_Ok _ _ s1 s1 q) by (unfold lift; rewrite Hq; reflexivity).
  cbv beta.
  destruct (invoke_async (self_agent self) q (sessionId (req_params request)))
    as [r|e] eqn:Hinv.
  - erewrite bind_Ok.
    2:{ eapply try_except_Ok. rewrite agent_invoke_async_run, Hinv. reflexivity. }
    destruct (_process_agent_response_notifies uuid4 request r
                (log_agent_call q (sessionId (req_params request)) s1) tw Ht)
      as (_ & Hpp & Hfin).
    cbv zeta in Hpp, Hfin. rewrite Hpp. simpl push_notification_infos.
    rewrite Hp. split; [exact Hreg|].
    exists tw. split; [exact Hid|]. split; [exact Hst|].
    intros c b Hc Hb. rewrite Hc, Hb in Hfin.
    destruct Hfin as (tf & Hfid & Hfst & Hfs).
    exists tf. split; [congruence|]. split; [exact Hfst|].
    rewrite Hfs. simpl push_notification_infos. simpl sent_notifications.
    rewrite Hp, Hid, Hreg, Hs, <- app_assoc. reflexivity.
  - erewrite bind_Raise.
    2:{ erewrite try_except_Raise; [|rewrite agent_invoke_async_run, Hinv; reflexivity].
        reflexivity. }
    simpl. rewrite Hp. split; [exact Hreg|].
    exists tw. split; [exact Hid|]. split; [exact Hst|]. exact Hs.
Qed.

(** X7.  An accepted [tasks/send] request without a push config, for a
    task id that has none registered, sends no notification, whatever the
    message holds and whatever the agent does. *)
Theorem no_config_no_notification (request : Req TaskSendParams) (s : TM) :
  rejected are_modalities_compatible self request = false ->
  pushNotification (req_params request) = None ->
  push_notification_infos s !! send_id (req_params request) = None ->
  (forall t, tasks s !! send_id (req_params request) = Some t ->
             id t = send_id (req_params request)) ->
  sent_notifications (snd (on_send_task uuid4 are_modalities_compatible self request s))
  = sent_notifications s.
Proof.
  intros Hacc Hpn Hnone Hwf.
  destruct (on_send_task_notifies uuid4 are_modalities_compatible self request s Hacc Hwf)
    as (tw & s1 & Hid & Hst & Ht & Ha & Hp & Hs & Heq).
  cbv zeta in Heq. rewrite Heq. clear Heq.
  assert (Hreg : registered request s = s).
  { unfold registered. rewrite Hpn. reflexivity. }
  rewrite Hreg in Hs, Hp. rewrite Hnone in Hs.
  destruct (_get_user_query (req_params request)) as [q|e] eqn:Hq.
  - rewrite (bind_Ok _ _ s1 s1 q) by reflexivity.
    cbv beta.
    destruct (invoke_async (self_agent self) q (sessionId (req_params request)))
      as [r|e'] eqn:Hinv.
    + erewrite bind_Ok.
      2:{ eapply try_except_Ok. rewrite agent_invoke_async_run, Hinv. reflexivity. }
      destruct (_process_agent_response_notifies uuid4 request r
                  (log_agent_call q (sessionId (req_params request)) s1) tw Ht)
        as (_ & _ & Hfin).
      cbv zeta in Hfin. simpl push_notification_infos in Hfin.
      rewrite Hp, Hid, Hnone in Hfin.
      destruct (content r), (require_user_input r);
        try (destruct Hfin as (tf & _ & _ & Hfin)); rewrite Hfin; exact Hs.
    + erewrite bind_Raise.
      2:{ erewrite try_except_Raise; [|rewrite agent_invoke_async_run, Hinv; reflexivity].
          reflexivity. }
      exact Hs.
  - rewrite (bind_Raise _ _ s1 s1 e) by reflexivity.
    exact Hs.
Qed.

End SendTaskNotificationTheorems.

Lemma first_part_is_the_query_witness :
  agent_calls
    (snd (on_send_task Examples.uuid4 Examples.are_modalities_compatible
            (Examples.manager Examples.greeter Examples.accepting)
            {| req_id := IdInt 1;
               req_params :=
                 Examples.send_params "T1"
                   {| role := user; parts := [TextPart "Hello"; TextPart " world"] |}
                   None |}
            Examples.fresh))
  = [("Hello", "C1")].
Proof.
  apply (proj2 (first_part_is_the_query Examples.uuid4 Examples.are_modalities_compatible
                  (Examples.manager Examples.greeter Examples.accepting)
                  {| req_id := IdInt 1;
                     req_params :=
                       Examples.send_params "T1"
                         {| role := user;
                            parts := [TextPart "Hello"; TextPart " world"] |}
                         None |}
                  Examples.fresh) "Hello" [TextPart " world"]); reflexivity.
Defined.

Lemma push_notifications_follow_the_task_witness :
  push_notification_infos
    (snd (on_send_task Examples.uuid4 Examples.are_modalities_compatible
            (Examples.manager Examples.greeter Examples.accepting)
            {| req_id := IdInt 1;
               req_params :=
                 Examples.send_params "T1" Examples.hello
                   (Some {| url := "http://client/hook"; token := None |}) |}
            Examples.fresh)) !! "T1"
  = Some {| url := "http://client/hook"; token := None |}.
Proof.
  refine (proj1 (push_notifications_follow_the_task
                   Examples.uuid4 Examples.are_modalities_compatible
                   (Examples.manager Examples.greeter Examples.accepting)
                   {| req_id := IdInt 1;
                      req_params :=
                        Examples.send_params "T1" Examples.hello
                          (Some {| url := "http://client/hook"; token := None |}) |}
                   Examples.fresh {| url := "http://client/hook"; token := None |}
                   "Hello" [] _ _ _ _)); try reflexivity.
  intros t H. vm_compute in H. discriminate.
Defined.

Lemma no_config_no_notification_witness :
  sent_notifications
    (snd (on_send_task Examples.uuid4 Examples.are_modalities_compatible
            (Examples.manager Examples.greeter Examples.accepting)
            {| req_id := IdInt 1;
               req_params := Examples.send_params "T1" Examples.hello None |}
            Examples.fresh))
  = [].
Proof.
  apply (no_config_no_notification Examples.uuid4 Examples.are_modalities_compatible
           (Examples.manager Examples.greeter Examples.accepting)
           {| req_id := IdInt 1;
              req_params := Examples.send_params "T1" Examples.hello None |}
           Examples.fresh); try reflexivity.
  intros t H. vm_compute in H. discriminate.
Defined.

(** ** [tasks/sendSubscribe] and [tasks/resubscribe] *)

Section StreamHandlers.

Variable uuid4 : nat -> string.
Variable are_modalities_compatible : option (list string) -> list string -> bool.
Variable self : CLIAgentTaskManager.

(** One iteration of the producer's loop ends in an exception without
    having called the agent. *)
Lemma stream_item_calls_no_agent (p : TaskSendParams) (item : AgentResponse) (s : TM) :
  exists e s',
    stream_item uuid4 p item s = (Raise e, s')
    /\ agent_calls s' = agent_calls s.
Proof.
  unfold stream_item.
  destruct (is_task_complete item) as [c|];
    [|do 2 eexists; split; [reflexivity|auto]].
  destruct (require_user_input item) as [u|];
    [|do 2 eexists; split; [reflexivity|auto]].
  destruct (content item) as [text|];
    [|do 2 eexists; split; [reflexivity|auto]].
  rewrite (bind_Ok _ _ s s c) by reflexivity. cbv beta.
  rewrite (bind_Ok _ _ s s u) by reflexivity. cbv beta.
  rewrite (bind_Ok _ _ s s text) by reflexivity. cbv beta.
  destruct c, u; simpl andb; cbv iota;
    (erewrite bind_Ok; [|unfold bind, fresh_uuid, ret; reflexivity]);
    cbv beta iota;
    match goal with
    | |- context [bind (InMemoryTaskManager.update_store ?i ?st ?a) _ ?s0] =>
        destruct (InMemoryTaskManager.update_store i st a s0) as [[t|e] s1] eqn:Hu
    end;
    try (erewrite bind_Raise by exact Hu;
         unfold InMemoryTaskManager.update_store in Hu; simpl in Hu;
         destruct (tasks s !! send_id p); inversion Hu; subst;
         do 2 eexists; split; [reflexivity|auto]);
    (erewrite bind_Ok by exact Hu; cbv beta;
     unfold InMemoryTaskManager.update_store in Hu; simpl in Hu;
     destruct (tasks s !! send_id p); inversion Hu; subst; clear Hu;
     match goal with
     | |- context [bind (send_task_notification ?t) _ ?st] =>
         destruct (send_task_notification_frame t st)
           as (s2 & Hn & _ & _ & _ & _ & _ & Hna)
     end;
     erewrite bind_Ok by exact Hn; cbv beta;
     do 2 eexists; split; [reflexivity|];
     simpl in Hna; auto).
Qed.

(** The loop never gets past the first item of the agent's stream. *)
Lemma stream_loop_first_item (p : TaskSendParams) (item : res AgentResponse)
    (rest : list (res AgentResponse)) (s : TM) :
  stream_loop uuid4 p (item :: rest) s = stream_loop uuid4 p [item] s.
Proof.
  destruct item as [item|e]; simpl; [|reflexivity].
  destruct (stream_item_calls_no_agent p item s) as (e & s' & Heq & _).
  rewrite !(bind_Raise _ _ _ _ _ Heq). reflexivity.
Qed.

Lemma stream_loop_calls_no_agent (p : TaskSendParams)
    (items : list (res AgentResponse)) (s : TM) :
  agent_calls (snd (stream_loop uuid4 p items s)) = agent_calls s.
Proof.
  destruct items as [|[item|e] rest]; simpl; try reflexivity.
  destruct (stream_item_calls_no_agent p item s) as (e & s' & Heq & Ha).
  erewrite bind_Raise by exact Heq. exact Ha.
Qed.

(** The producer asks the agent for its stream once when the first part
    of the message is text, and not at all otherwise. *)
Lemma _run_streaming_agent_calls (request : Req TaskSendParams) (s : TM) :
  agent_calls (snd (_run_streaming_agent uuid4 self request s))
  = (agent_calls s
       ++ match _get_user_query (req_params request) with
          | Ok text => [(text, sessionId (req_params request))]
          | Raise _ => []
          end)%list.
Proof.
  unfold _run_streaming_agent.
  destruct (_get_user_query (req_params request)) as [q|e] eqn:Hq.
  2:{ erewrite bind_Raise by reflexivity. simpl. rewrite app_nil_r. reflexivity. }
  rewrite (bind_Ok _ _ s s q) by reflexivity. cbv beta.
  unfold try_except.
  rewrite (bind_Ok _ _ s
             (log_agent_call q (sessionId (req_params request)) s)
             (stream (self_agent self) q (sessionId (req_params request))))
    by reflexivity.
  cbv beta.
  pose proof (stream_loop_calls_no_agent (req_params request)
                (stream (self_agent self) q (sessionId (req_params request)))
                (log_agent_call q (sessionId (req_params request)) s)) as Hl.
  destruct (stream_loop _ _ _ _) as [[u|e] s'].
  - simpl in *. exact Hl.
  - simpl in Hl. erewrite bind_Raise by reflexivity. simpl. exact Hl.
Qed.

End StreamHandlers.

Section StreamHandlerTheorems.

Variable uuid4 : nat -> string.
Variable are_modalities_compatible : option (list string) -> list string -> bool.

(** X8.  The streaming producer never gets past the first item of the
    agent's stream: two agents whose streams start with the same item
    (or are both empty) leave the manager in the same state, whatever
    they stream afterwards. *)
Theorem producer_stops_at_first_item (self1 self2 : CLIAgentTaskManager)
    (request : Req TaskSendParams) (s : TM) :
  (forall query session_id,
     head (stream (self_agent self1) query session_id)
     = head (stream (self_agent self2) query session_id)) ->
  _run_streaming_agent uuid4 self1 request s = _run_streaming_agent uuid4 self2 request s.
Proof.
  intros Hhead. unfold _run_streaming_agent.
  destruct (_get_user_query (req_params request)) as [q|e]; [|reflexivity].
  rewrite !(bind_Ok _ _ s s q) by reflexivity. cbv beta.
  unfold try_except, agent_stream, bind at 1 3.
  specialize (Hhead q (sessionId (req_params request))).
  destruct (stream (self_agent self1) q (sessionId (req_params request)))
    as [|i1 r1];
    destruct (stream (self_agent self2) q (sessionId (req_params request)))
      as [|i2 r2]; try discriminate; [reflexivity|].
  inversion Hhead; subst i2.
  rewrite (stream_loop_first_item uuid4 _ i1 r1), (stream_loop_first_item uuid4 _ i1 r2).
  reflexivity.
Qed.

Variable self : CLIAgentTaskManager.

(** An accepted [tasks/sendSubscribe] request: the consumer queue is
    set up, the producer is started and the stream is returned. *)
Lemma on_send_task_subscribe_accepted (request : Req TaskSendParams) (s : TM) :
  rejected are_modalities_compatible self request = false ->
  let p := req_params request in
  let run := on_send_task_subscribe uuid4 are_modalities_compatible self request s in
  let queue := size (sse_queues s) in
  fst run = Ok (EventStream (req_id request) (send_id p) queue)
  /\ sse_queues (snd run) = <[queue := []]> (sse_queues s)
  /\ task_sse_subscribers (snd run) !! send_id p
     = Some (default [] (task_sse_subscribers s !! send_id p) ++ [queue])%list
  /\ agent_calls (snd run)
     = (agent_calls s
          ++ match _get_user_query p with
             | Ok text => [(text, sessionId p)]
             | Raise _ => []
             end)%list.
Proof.
  unfold rejected, push_refused. intros Hrej. cbv zeta.
  destruct (_validate_request are_modalities_compatible self request)
    as [[ve|]|e] eqn:Hv; try discriminate.
  unfold on_send_task_subscribe.
  assert (Hup : exists t0 s0,
    InMemoryTaskManager.upsert_task (req_params request) s = (Ok t0, s0)
    /\ task_sse_subscribers s0 = task_sse_subscribers s
    /\ sse_queues s0 = sse_queues s
    /\ agent_calls s0 = agent_calls s).
  { unfold InMemoryTaskManager.upsert_task. do 2 eexists; split; [reflexivity|].
    simpl. auto. }
  destruct Hup as (t0 & s0 & Hup & Hsub0 & Hq0 & Ha0).
  assert (Hreg : exists s1,
    (match pushNotification (req_params request) with
     | Some pn => set_push_notification_info self (send_id (req_params request)) pn
     | None => ret true
     end) s0 = (Ok true, s1)
    /\ task_sse_subscribers s1 = task_sse_subscribers s
    /\ sse_queues s1 = sse_queues s
    /\ agent_calls s1 = agent_calls s).
  { unfold set_push_notification_info.
    destruct (pushNotification (req_params request)) as [pn|].
    - destruct (verify_push_notification_url _ _); [|discriminate].
      eexists; split; [reflexivity|]. simpl. auto.
    - eexists; split; [reflexivity|]. auto. }
  destruct Hreg as (s1 & Hreg & Hsub1 & Hq1 & Ha1).
  set (q := size (sse_queues s)).
  assert (Hsetup : exists s2,
    InMemoryTaskManager.setup_sse_consumer (send_id (req_params request)) false s1
      = (Ok q, s2)
    /\ sse_queues s2 = <[q := []]> (sse_queues s)
    /\ task_sse_subscribers s2 !! send_id (req_params request)
       = Some (default [] (task_sse_subscribers s !! send_id (req_params request))
                 ++ [q])%list
    /\ agent_calls s2 = agent_calls s).
  { unfold InMemoryTaskManager.setup_sse_consumer. rewrite Hsub1, Hq1. fold q.
    destruct (task_sse_subscribers s !! send_id (req_params request)) as [qs|];
      (eexists; split; [reflexivity|]); simpl;
      rewrite lookup_insert_eq; auto. }
  destruct Hsetup as (s2 & Hsetup & Hq2 & Hsub2 & Ha2).
  erewrite try_except_Ok.
  2:{ rewrite (bind_Ok _ _ s s None) by (unfold lift; rewrite Hv; reflexivity).
      cbv iota beta.
      rewrite (bind_Ok _ _ _ _ _ Hup). cbv beta.
      rewrite (bind_Ok _ _ _ _ _ Hreg). cbv beta.
      change (negb true) with false. cbv iota.
      rewrite (bind_Ok _ _ _ _ _ Hsetup). cbv beta.
      unfold bind at 1, create_task at 1, ret. reflexivity. }
  simpl fst. simpl snd.
  destruct (_run_streaming_agent_publishes_nothing uuid4 self request s2) as (Hpq & Hps).
  rewrite Hpq, Hps, (_run_streaming_agent_calls uuid4 self request s2), Hq2, Hsub2, Ha2.
  auto.
Qed.


(** X9.  A [tasks/sendSubscribe] request that passes validation and push
    verification is always answered with an event stream, also when its
    first part is not text: the stream reads a new consumer queue
    attached to the task, the queue is empty when the handler returns,
    and the agent has been asked for its stream once if the first part
    is text and not at all otherwise. *)
Theorem subscribe_opens_a_stream (request : Req TaskSendParams) (s : TM) :
  rejected are_modalities_compatible self request = false ->
  let p := req_params request in
  let run := on_send_task_subscribe uuid4 are_modalities_compatible self request s in
  let queue := size (sse_queues s) in
  fst run = Ok (EventStream (req_id request) (send_id p) queue)
  /\ sse_queues (snd run) = <[queue := []]> (sse_queues s)
  /\ task_sse_subscribers (snd run) !! send_id p
     = Some (default [] (task_sse_subscribers s !! send_id p) ++ [queue])%list
  /\ agent_calls (snd run)
     = (agent_calls s
          ++ match _get_user_query p with
             | Ok text => [(text, sessionId p)]
             | Raise _ => []
             end)%list.
Proof.
  apply on_send_task_subscribe_accepted.
Qed.

(** X10.  Unlike [tasks/send], [tasks/sendSubscribe] writes the task to
    the store before it verifies the push url: when the verification
    fails the handler ends in a TypeError (both error responses it tries
    to build are constructed with a keyword the class does not take),
    the task stays in the store, and nothing else has changed: no config
    is registered, no consumer is attached and the agent is not called. *)
Theorem subscribe_refused_push_leaves_task (request : Req TaskSendParams) (s : TM)
    (pn : PushNotificationConfig) :
  _validate_request are_modalities_compatible self request = Ok None ->
  pushNotification (req_params request) = Some pn ->
  verify_push_notification_url (notification_sender_auth self) (url pn) = false ->
  let run := on_send_task_subscribe uuid4 are_modalities_compatible self request s in
  (exists m, fst run = Raise (TypeError m))
  /\ is_Some (tasks (snd run) !! send_id (req_params request))
  /\ (forall task_id, task_id <> send_id (req_params request) ->
        tasks (snd run) !! task_id = tasks s !! task_id)
  /\ push_notification_infos (snd run) = push_notification_infos s
  /\ task_sse_subscribers (snd run) = task_sse_subscribers s
  /\ sse_queues (snd run) = sse_queues s
  /\ agent_calls (snd run) = agent_calls s.
Proof.
  intros Hv Hpn Hverify. cbv zeta.
  unfold on_send_task_subscribe, try_except.
  rewrite (bind_Ok _ _ s s None) by (unfold lift; rewrite Hv; reflexivity).
  cbv iota beta. rewrite Hpn.
  unfold InMemoryTaskManager.upsert_task, set_push_notification_info.
  rewrite Hverify. unfold bind, lift, ret. simpl.
  split; [eexists; reflexivity|].
  split; [rewrite lookup_insert_eq; eauto|].
  split; [intros task_id Hne; apply lookup_insert_ne; congruence|].
  auto.
Qed.

(** X11.  The stream handlers never answer with the error responses of
    their fallback branches: the only JSON-RPC response
    [on_send_task_subscribe] returns is the content-type error of
    [_validate_request], with the state untouched, and
    [on_resubscribe_to_task] returns no response at all, only an event
    stream, or it raises. *)
Theorem stream_handlers_fallbacks_unreachable :
  (forall (request : Req TaskSendParams) (s : TM) (r : JSONRPCResponse),
     fst (on_send_task_subscribe uuid4 are_modalities_compatible self request s)
     = Ok (Single r) ->
     r = {| response_id := req_id request; result := None;
            error := Some ContentTypeNotSupportedError |}
     /\ snd (on_send_task_subscribe uuid4 are_modalities_compatible self request s) = s)
  /\ (forall (request : Req TaskIdParams) (s : TM) (r : JSONRPCResponse),
        fst (on_resubscribe_to_task request s) <> Ok (Single r)).
Proof.
  split.
  - intros request s r.
    destruct (rejected are_modalities_compatible self request) eqn:Hrej.
    2:{ destruct (on_send_task_subscribe_accepted request s Hrej) as (Hq & _).
        cbv zeta in Hq. rewrite Hq. discriminate. }
    unfold rejected, push_refused in Hrej.
    unfold on_send_task_subscribe, try_except.
    destruct (_validate_request are_modalities_compatible self request)
      as [[ve|]|e] eqn:Hv.
    + rewrite (bind_Ok _ _ s s (Some ve)) by reflexivity.
      simpl. intros H; inversion H; subst r.
      split; [|reflexivity].
      revert Hv. unfold _validate_request.
      destruct (are_modalities_compatible _ _); simpl.
      * destruct (pushNotification (req_params request)) as [pn|]; [|discriminate].
        destruct (decide (url pn = "")); discriminate.
      * intros H'; inversion H'; reflexivity.
    + rewrite (bind_Ok _ _ s s None) by reflexivity.
      cbv iota beta.
      destruct (pushNotification (req_params request)) as [pn|]; [|discriminate].
      unfold InMemoryTaskManager.upsert_task, set_push_notification_info.
      destruct (verify_push_notification_url _ _); [discriminate|].
      unfold bind, lift, ret. simpl. discriminate.
    + rewrite (bind_Raise _ _ s s e) by reflexivity.
      simpl. discriminate.
  - intros request s r. unfold on_resubscribe_to_task, try_except.
    unfold bind at 1, InMemoryTaskManager.setup_sse_consumer.
    destruct (task_sse_subscribers s !! params_id (req_params request));
      simpl; discriminate.
Qed.

End StreamHandlerTheorems.

Lemma producer_stops_at_first_item_witness :
  _run_streaming_agent Examples.uuid4
    (Examples.manager Examples.greeter Examples.accepting)
    {| req_id := IdInt 1; req_params := Examples.send_params "T2" Examples.hello None |}
    Examples.fresh
  = _run_streaming_agent Examples.uuid4
      (Examples.manager
         {| SUPPORTED_CONTENT_TYPES := ["text"];
            invoke_async _ _ := Raise (RuntimeError "boom");
            stream _ _ := [Ok (Examples.working "one")] |}
         Examples.accepting)
      {| req_id := IdInt 1; req_params := Examples.send_params "T2" Examples.hello None |}
      Examples.fresh.
Proof.
  apply (producer_stops_at_first_item Examples.uuid4
           (Examples.manager Examples.greeter Examples.accepting)
           (Examples.manager
              {| SUPPORTED_CONTENT_TYPES := ["text"];
                 invoke_async _ _ := Raise (RuntimeError "boom");
                 stream _ _ := [Ok (Examples.working "one")] |}
              Examples.accepting)).
  intros query session_id. reflexivity.
Defined.

Lemma subscribe_opens_a_stream_witness :
  fst (on_send_task_subscribe Examples.uuid4 Examples.are_modalities_compatible
         (Examples.manager Examples.greeter Examples.accepting)
         {| req_id := IdInt 1; req_params := Examples.send_params "T2" image None |}
         Examples.fresh)
  = Ok (EventStream (IdInt 1) "T2" 0)
  /\ agent_calls
       (snd (on_send_task_subscribe Examples.uuid4 Examples.are_modalities_compatible
               (Examples.manager Examples.greeter Examples.accepting)
               {| req_id := IdInt 1; req_params := Examples.send_params "T2" image None |}
               Examples.fresh))
     = [].
Proof.
  destruct (subscribe_opens_a_stream Examples.uuid4 Examples.are_modalities_compatible
              (Examples.manager Examples.greeter Examples.accepting)
              {| req_id := IdInt 1; req_params := Examples.send_params "T2" image None |}
              Examples.fresh eq_refl) as (Hfst & _ & _ & Hcalls).
  split; [exact Hfst|exact Hcalls].
Defined.

Lemma subscribe_refused_push_leaves_task_witness :
  is_Some
    (tasks
       (snd (on_send_task_subscribe Examples.uuid4 Examples.are_modalities_compatible
               (Examples.manager Examples.greeter Examples.rejecting)
               {| req_id := IdInt 1;
                  req_params :=
                    Examples.send_params "T3" Examples.hello
                      (Some {| url := "http://client/hook"; token := None |}) |}
               Examples.fresh)) !! "T3").
Proof.
  refine (proj1 (proj2 (subscribe_refused_push_leaves_task
                   Examples.uuid4 Examples.are_modalities_compatible
                   (Examples.manager Examples.greeter Examples.rejecting)
                   {| req_id := IdInt 1;
                      req_params :=
                        Examples.send_params "T3" Examples.hello
                          (Some {| url := "http://client/hook"; token := None |}) |}
                   Examples.fresh {| url := "http://client/hook"; token := None |}
                   _ _ _))); reflexivity.
Defined.

(** ** custom_types.py: validation and [model_dump] *)

Lemma validate_FileContent_dump (f : FileContent) :
  validate_FileContent (dump_FileContent f)
  = if one_of_bytes_uri f then Ok f
    else if truthy (file_bytes f) then
      Raise (ValidationError "Only one of 'bytes' or 'uri' can be present in the file data"
               (dump_FileContent f))
    else
      Raise (ValidationError "Either 'bytes' or 'uri' must be present in the file data"
               (dump_FileContent f)).
Proof.
  destruct f as [[n|] [m|] [[|cb b]|] [[|cu u]|]]; reflexivity.
Qed.

(** X12.  [FileContent.check_content]: a file that passes validation
    carries exactly one of [bytes] and [uri] as a non-empty string (an
    empty string counts as absent), and a [FileContent] comes back
    unchanged from [model_dump(exclude_none=True)] followed by validation
    exactly when it satisfies that condition. *)
Theorem check_content_one_of_bytes_uri :
  (forall (v : json) (f : FileContent),
     validate_FileContent v = Ok f -> one_of_bytes_uri f = true)
  /\ (forall f : FileContent,
        validate_FileContent (dump_FileContent f) = Ok f <-> one_of_bytes_uri f = true).
Proof.
  assert (H1 : forall v f, validate_FileContent v = Ok f -> one_of_bytes_uri f = true).
  { intros v f. unfold validate_FileContent, one_of_bytes_uri.
    destruct (validate_dict "file" v) as [d|]; [|discriminate]. cbn [res_bind].
    destruct (optional d "name" _) as [name|]; [|discriminate]. cbn [res_bind].
    destruct (optional d "mimeType" _) as [mime|]; [|discriminate]. cbn [res_bind].
    destruct (optional d "bytes" _) as [bytes|]; [|discriminate]. cbn [res_bind].
    destruct (optional d "uri" _) as [uri|]; [|discriminate]. cbn [res_bind].
    destruct (truthy bytes) eqn:Hb, (truthy uri) eqn:Hu; cbn;
      intros H; inversion H; subst; cbn; rewrite Hb, Hu; reflexivity. }
  split; [exact H1|].
  intros f. split; [apply H1|].
  intros H. rewrite validate_FileContent_dump, H. reflexivity.
Qed.

Lemma validate_Part_dump (p : Part) :
  part_valid p = true -> validate_Part (dump_Part p) = Ok p.
Proof.
  destruct p as [text|file|data]; intros H.
  - reflexivity.
  - change (validate_Part (dump_Part (FilePart file)))
      with (res_bind (validate_FileContent (dump_FileContent file))
              (fun f => Ok (FilePart f))).
    cbn in H. rewrite validate_FileContent_dump, H. reflexivity.
  - destruct data; try discriminate. reflexivity.
Qed.

Lemma validate_A2APart_dump (p : A2APart) :
  a2a_part_valid p = true ->
  validate_A2APart (dump_A2APart p) = Ok (with_default_mimeType p).
Proof.
  destruct p as [text [m|]|file|data]; intros H.
  - reflexivity.
  - reflexivity.
  - change (validate_A2APart (dump_A2APart (A2AFilePart file)))
      with (res_bind (validate_FileContent (dump_FileContent file))
              (fun f => Ok (A2AFilePart f))).
    cbn in H. rewrite validate_FileContent_dump, H. reflexivity.
  - destruct data; try discriminate. reflexivity.
Qed.

Lemma validate_list_map {A} (validate : json -> res A) (dump : A -> json)
    (norm : A -> A) (ok : A -> bool) (l : list A) :
  (forall a, ok a = true -> validate (dump a) = Ok (norm a)) ->
  forallb ok l = true ->
  validate_list validate (map dump l) = Ok (map norm l).
Proof.
  intros Hone. induction l as [|a l IH]; cbn; [reflexivity|].
  intros H. apply andb_prop in H as [Ha Hl].
  rewrite (Hone a Ha). cbn. rewrite (IH Hl). reflexivity.
Qed.

(** X13.  What [model_dump(exclude_none=True)] writes for a message is
    accepted by the validator of the same model.  A legacy [Message]
    comes back unchanged.  An [A2AMessage] comes back with its ids and
    role unchanged, but a text part whose [mimeType] was [None] comes
    back with the default "text/plain": the dump leaves the field out
    and validation fills the default in. *)
Theorem message_dump_validates (uuid4 : nat -> string) :
  (forall m : Message,
     forallb part_valid (parts m) = true ->
     validate_Message (dump_Message m) = Ok m)
  /\ (forall m : A2AMessage,
        forallb a2a_part_valid (a2a_parts m) = true ->
        validate_A2AMessage uuid4 (dump_A2AMessage m)
        = Ok {| a2a_role := a2a_role m;
                a2a_parts := map with_default_mimeType (a2a_parts m);
                messageId := messageId m; taskId := taskId m;
                contextId := contextId m |}).
Proof.
  split.
  - intros [r ps] H. cbn in H.
    change (validate_Message (dump_Message {| role := r; parts := ps |}))
      with (res_bind (validate_role (JStr (Role_value r))) (fun role =>
            res_bind (validate_list validate_Part (map dump_Part ps)) (fun parts =>
            Ok {| role := role; parts := parts |}))).
    rewrite (validate_list_map validate_Part dump_Part (fun p => p) part_valid ps
               validate_Part_dump H).
    rewrite map_id. destruct r; reflexivity.
  - intros [r ps mid tid cid] H. cbn in H.
    pose proof (validate_list_map validate_A2APart dump_A2APart with_default_mimeType
                  a2a_part_valid ps validate_A2APart_dump H) as Hps.
    destruct tid, cid;
      match goal with
      | |- validate_A2AMessage _ (dump_A2AMessage ?m) = _ =>
          change (validate_A2AMessage uuid4 (dump_A2AMessage m))
            with (res_bind (validate_role (JStr (Role_value r))) (fun role =>
                  res_bind (validate_list validate_A2APart (map dump_A2APart ps))
                    (fun parts =>
                  Ok {| a2a_role := role; a2a_parts := parts; messageId := mid;
                        taskId := taskId m; contextId := contextId m |})))
      end;
      rewrite Hps; destruct r; reflexivity.
Qed.

(** ** server.py: [log_a2a_communication] *)




(** ** shared/agent.py: [CurrencyAgent.invoke_async] *)

Lemma invoke_async_loop_incomplete (pre : list AgentResponse)
    (rest : list (res AgentResponse)) (result_items : list AgentResponse) :
  forallb (fun item => negb (complete item)) pre = true ->
  invoke_async_loop (map Ok pre ++ rest)%list result_items
  = invoke_async_loop rest (result_items ++ pre)%list.
Proof.
  revert result_items. induction pre as [|item pre IH]; intros result_items H; cbn.
  - rewrite app_nil_r. reflexivity.
  - cbn in H. apply andb_prop in H as [Hi Hpre].
    unfold complete in Hi. destruct (get_default (is_task_complete item) false);
      [discriminate|].
    rewrite (IH _ Hpre), <- app_assoc. reflexivity.
Qed.

Lemma last_default {A} (l : list A) (d : A) :
  match last l with Some x => x | None => d end = List.last l d.
Proof.
  induction l as [|a [|b l] IH]; try reflexivity. exact IH.
Qed.

(** X15.  [CurrencyAgent.invoke_async] returns the first item of the
    stream that is marked complete and reads nothing after it, so an
    exception the stream would raise later is never seen; an exception
    raised before any complete item is propagated; a stream that ends
    without a complete item gives its last item, and an empty stream the
    fixed "Unable to process request" answer that asks for user input. *)
Theorem invoke_async_first_complete
    (self_stream : string -> string -> list (res AgentResponse))
    (query sessionId : string) (pre : list AgentResponse) :
  forallb (fun item => negb (complete item)) pre = true ->
  (forall item post,
     self_stream query sessionId = (map Ok pre ++ Ok item :: post)%list ->
     complete item = true ->
     CurrencyAgent_invoke_async self_stream query sessionId = Ok item)
  /\ (forall e post,
        self_stream query sessionId = (map Ok pre ++ Raise e :: post)%list ->
        CurrencyAgent_invoke_async self_stream query sessionId = Raise e)
  /\ (self_stream query sessionId = map Ok pre ->
      CurrencyAgent_invoke_async self_stream query sessionId
      = Ok (List.last pre unable_to_process)).
Proof.
  intros Hpre. unfold CurrencyAgent_invoke_async. repeat split.
  - intros item post -> Hc.
    rewrite (invoke_async_loop_incomplete pre _ [] Hpre). cbn.
    unfold complete in Hc. rewrite Hc. reflexivity.
  - intros e post ->.
    rewrite (invoke_async_loop_incomplete pre _ [] Hpre). reflexivity.
  - intros ->.
    rewrite <- (app_nil_r (map Ok pre)).
    rewrite (invoke_async_loop_incomplete pre [] [] Hpre). cbn.
    rewrite last_default. reflexivity.
Qed.

Lemma invoke_async_first_complete_witness :
  CurrencyAgent_invoke_async
    (fun _ _ => [Ok (Examples.working "one"); Ok (Examples.completed "done");
                 Raise (RuntimeError "boom")])
    "query" "session"
  = Ok (Examples.completed "done").
Proof.
  apply (proj1 (invoke_async_first_complete
                  (fun _ _ => [Ok (Examples.working "one");
                               Ok (Examples.completed "done");
                               Raise (RuntimeError "boom")])
                  "query" "session" [Examples.working "one"] eq_refl)
           (Examples.completed "done") [Raise (RuntimeError "boom")]);
    reflexivity.
Defined.

(** ** host/base_host_agent.py against the server *)

Lemma parse_message_send_payload (request_id message message_id : string)
    (context task : json) :
  parse_message_send (message_send_payload request_id message message_id context task)
  = Ok {| req_id := IdStr request_id;
          req_params :=
            {| params_message :=
                 {| a2a_role := user;
                    a2a_parts := [A2ATextPart message (Some "text/plain")];
                    messageId := message_id; taskId := None; contextId := None |} |} |}.
Proof. reflexivity. Qed.

Section HostAndServer.

Variable uuid4 : nat -> string.
Variable are_modalities_compatible : option (list string) -> list string -> bool.
Variable self : CLIAgentTaskManager.
Variable validate_python : json -> res A2ARequest.
Variable host_uuid4 : nat -> string.

Local Abbreviation the_server :=
  (_process_request validate_python
     (cli_task_manager uuid4 are_modalities_compatible self)).

(** What the host's connection gets back from the server for its
    payload, by the outcome of the agent. *)
Lemma serve_message_send_payload (base_url request_id message message_id : string)
    (context task : json) (s : TM) :
  let session := uuid4 (S (uuid_count s)) in
  exists result s',
    serve the_server base_url
      (message_send_payload request_id message message_id context task) s
    = (Responded 200
         (Some (JDict [("jsonrpc", JStr "2.0"); ("id", JStr request_id);
                       ("result", result)])), s')
    /\ agent_calls s' = (agent_calls s ++ [(message, session)])%list
    /\ py_get result "id" JNull = Ok (JStr (uuid4 (uuid_count s)))
    /\ py_get result "sessionId" JNull = Ok JNull
    /\ (exists status,
          py_get result "status" (JDict []) = Ok status
          /\ py_get status "state" (JStr "unknown")
             = Ok (JStr (TaskState_value
                           (reported_state
                              (invoke_async (self_agent self) message session)))))
    /\ match invoke_async (self_agent self) message session with
       | Ok r =>
           _extract_message result
           = Ok (JStr (get_default (content r)
                         (if complete r then "Task completed" else "Task in progress")))
       | Raise _ => True
       end.
Proof.
  cbv zeta. unfold serve.
  pose proof (parse_message_send_payload request_id message message_id context task)
    as Hparse.
  unfold message_send_payload in *.
  rewrite (_process_request_message_send uuid4 are_modalities_compatible self
             validate_python) by reflexivity.
  rewrite Hparse.
  unfold on_a2a_message_send, or_uuid, bind, try_except, agent_invoke_async,
    fresh_uuid, lift, ret, complete.
  cbn [params_message req_params taskId contextId truthy a2a_parts message_text_of
       fold_left fst snd uuid_count req_id].
  change ("" ++ message) with message.
  destruct (invoke_async (self_agent self) message (uuid4 (S (uuid_count s))))
    as [r|e] eqn:Hinv.
  - unfold reported_state.
    destruct (get_default (is_task_complete r) false) eqn:Hc;
      cbn; do 2 eexists; (split; [reflexivity|]); cbn;
      repeat (split; [reflexivity|]);
      (split; [eexists; split; reflexivity|reflexivity]).
  - cbn. do 2 eexists. split; [reflexivity|]. cbn.
    repeat (split; [reflexivity|]).
    split; [eexists; split; reflexivity|exact I].
Qed.

(** [RemoteAgentConnection.send_message] against the server: the call
    returns the [result] of the server's response and leaves the host's
    session state alone. *)
Lemma connection_send_message_served (base_url message : string)
    (context task : json) (h : Host TM) :
  let session := uuid4 (S (uuid_count (network h))) in
  exists result h',
    connection_send_message TM (serve the_server) host_uuid4 base_url message
      context task h
    = (Returned result, h')
    /\ session_active h' = session_active h
    /\ context_id h' = context_id h
    /\ task_id h' = task_id h
    /\ active_agent h' = active_agent h
    /\ host_type h' = host_type h
    /\ remote_agent_connections h' = remote_agent_connections h
    /\ agent_calls (network h') = (agent_calls (network h) ++ [(message, session)])%list
    /\ py_get result "id" JNull = Ok (JStr (uuid4 (uuid_count (network h))))
    /\ py_get result "sessionId" JNull = Ok JNull
    /\ (exists status,
          py_get result "status" (JDict []) = Ok status
          /\ py_get status "state" (JStr "unknown")
             = Ok (JStr (TaskState_value
                           (reported_state
                              (invoke_async (self_agent self) message session)))))
    /\ match invoke_async (self_agent self) message session with
       | Ok r =>
           _extract_message result
           = Ok (JStr (get_default (content r)
                         (if complete r then "Task completed" else "Task in progress")))
       | Raise _ => True
       end.
Proof.
  cbv zeta.
  unfold connection_send_message, or_fresh.
  destruct (py_truthy task), (py_truthy context);
    unfold hbind, host_fresh_uuid, hret, requests_post;
    cbn [network host_uuids];
    match goal with
    | |- context [serve the_server base_url
                    (message_send_payload ?rid message ?mid ?c ?t) (network h)] =>
        destruct (serve_message_send_payload base_url rid message mid c t (network h))
          as (result & s' & Hserve & Hcalls & Hid & Hsid & Hstatus & Hout)
    end;
    rewrite Hserve; cbn;
    exists result; eexists; (split; [reflexivity|]); cbn;
    repeat (split; [reflexivity|]);
    (split; [exact Hcalls|]); (split; [exact Hid|]); (split; [exact Hsid|]);
    (split; [exact Hstatus|exact Hout]).
Qed.

(** [BaseHostAgent.send_message] against the server. *)
Lemma host_send_message_run (h : Host TM) (agent_name base_url message : string) :
  connection_of agent_name (remote_agent_connections h) = Some base_url ->
  uuid4 (uuid_count (network h)) <> "" ->
  let session := uuid4 (S (uuid_count (network h))) in
  let outcome := invoke_async (self_agent self) message session in
  exists h',
    host_send_message TM (serve the_server) host_uuid4 agent_name message h
    = (host_outcome agent_name outcome, h')
    /\ agent_calls (network h')
       = (agent_calls (network h) ++ [(message, session)])%list
    /\ task_id h' = JStr (uuid4 (uuid_count (network h)))
    /\ context_id h' = context_id h
    /\ active_agent h' = Some agent_name
    /\ session_active h'
       = match outcome with
         | Ok r => negb (complete r)
         | Raise _ => false
         end.
Proof.
  intros Hconn Hne. cbv zeta.
  assert (Htruthy : py_truthy (JStr (uuid4 (uuid_count (network h)))) = true).
  { cbn. destruct (String.eqb_spec (uuid4 (uuid_count (network h))) "");
      [contradiction|reflexivity]. }
  unfold host_send_message. rewrite Hconn.
  unfold hbind at 1. unfold before_message_callback, set_session_active.
  destruct (session_active h) eqn:Hsa; cbn [negb]; cbv iota beta;
    unfold hbind at 1; cbv iota beta; unfold htry, send_and_process;
    unfold hbind at 1;
    match goal with
    | |- context [connection_send_message TM _ _ ?u ?m ?c ?t ?h1] =>
        destruct (connection_send_message_served u m c t h1)
          as (result & h2 & Hsend & Hsa2 & Hctx2 & Htask2 & Hact2 & _ & _
              & Hcalls & Hid & Hsid & (status & Hstatus & Hstate) & Hout)
    end;
    rewrite Hsend; cbv iota beta;
    cbn [update_state network context_id task_id session_active active_agent]
      in Hsa2, Hctx2, Htask2, Hact2, Hcalls, Hid, Hstate, Hout;
    unfold hbind, hlift, hret, hraise, set_session_active;
    rewrite Hstatus; cbn [of_res]; rewrite Hstate; cbn [of_res];
    rewrite Hid; cbn [of_res]; rewrite Htruthy, Hsid; cbn [of_res py_truthy];
    unfold host_outcome, reported_state;
    (destruct (invoke_async (self_agent self) message
                 (uuid4 (S (uuid_count (network h))))) as [r|e] eqn:Hinv;
     [change (get_default (is_task_complete r) false) with (complete r);
      destruct (complete r) eqn:Hc|]);
    try rewrite Hout; cbn;
    (eexists; split; [reflexivity|]); cbn;
    rewrite ?Hcalls, ?Hctx2, ?Hact2;
    repeat split; reflexivity.
Qed.

(** X16.  A host's [send_message] to a CLI agent's server, end to end.
    The agent is asked exactly the host's message, in a session whose id
    is a uuid the server has just drawn: neither the context id nor the
    task id the host sends is read by the server, and since the answer
    carries no [sessionId] the host's own context id never changes.  A
    completed or input-required answer is returned with the agent's
    content as message; an agent that raises makes the call raise, as a
    failed task.  The host stores the server's task id in every case and
    keeps the session active only while the task asks for input. *)
Theorem host_send_message_served (h : Host TM) (agent_name base_url message : string) :
  connection_of agent_name (remote_agent_connections h) = Some base_url ->
  uuid4 (uuid_count (network h)) <> "" ->
  let session := uuid4 (S (uuid_count (network h))) in
  let outcome := invoke_async (self_agent self) message session in
  let run := host_send_message TM (serve the_server) host_uuid4 agent_name message h in
  fst run = host_outcome agent_name outcome
  /\ agent_calls (network (snd run))
     = (agent_calls (network h) ++ [(message, session)])%list
  /\ task_id (snd run) = JStr (uuid4 (uuid_count (network h)))
  /\ context_id (snd run) = context_id h
  /\ active_agent (snd run) = Some agent_name
  /\ session_active (snd run)
     = match outcome with
       | Ok r => negb (complete r)
       | Raise _ => false
       end.
Proof.
  intros Hconn Hne. cbv zeta.
  destruct (host_send_message_run h agent_name base_url message Hconn Hne)
    as (h' & Hrun & Hcalls & Htask & Hctx & Hact & Hsa).
  cbv zeta in Hrun, Hcalls, Hsa. rewrite Hrun. cbn [fst snd]. auto 10.
Qed.

End HostAndServer.

Lemma host_send_message_served_witness :
  fst (host_send_message TM
         (serve (Examples.server Examples.greeter Examples.accepting))
         Examples.uuid4 "vision" "Hello"
         (initial_host "BaseHost" [("vision", "http://localhost:8031")] Examples.fresh))
  = Returned {| reply_status := JStr "completed"; reply_message := JStr "Hi";
                reply_agent := "vision" |}.
Proof.
  refine (proj1 (host_send_message_served
                   Examples.uuid4 Examples.are_modalities_compatible
                   (Examples.manager Examples.greeter Examples.accepting)
                   (validate_python Examples.uuid4) Examples.uuid4
                   (initial_host "BaseHost" [("vision", "http://localhost:8031")]
                      Examples.fresh)
                   "vision" "http://localhost:8031" "Hello" eq_refl _)).
  intros H. vm_compute in H. discriminate.
Defined.

(** ** host/base_host_agent.py on any network *)

Section HostOnAnyNetwork.

Variable Net : Type.
Variable post : string -> json -> Net -> HTTPResult * Net.
Variable host_uuid4 : nat -> string.

(** [RemoteAgentConnection.send_message] does not touch the host's
    session state. *)
Lemma connection_send_message_frame (base_url message : string)
    (context task : json) (h : Host Net) :
  let run := connection_send_message Net post host_uuid4 base_url message context task h in
  session_active (snd run) = session_active h
  /\ context_id (snd run) = context_id h
  /\ task_id (snd run) = task_id h
  /\ active_agent (snd run) = active_agent h.
Proof.
  cbv zeta. unfold connection_send_message, or_fresh.
  destruct (py_truthy task), (py_truthy context);
    unfold hbind, host_fresh_uuid, hret, hraise, hlift, requests_post;
    cbn [network host_uuids];
    match goal with
    | |- context [post ?u ?p ?n] => destruct (post u p n) as [[|status body] net]
    end; cbn; auto;
    destruct ((400 <=? status)%Z && (status <? 600)%Z); cbn; auto;
    destruct body as [resp|]; cbn; auto;
    destruct (py_in "error" resp) as [[|]|]; cbn; auto;
    try (destruct (py_getitem resp "error") as [[]|]; cbn; auto);
    destruct (py_get resp "result" (JDict [])); cbn; auto.
Qed.

Lemma py_eq_str_refl (s : string) : py_eq_str (JStr s) s = true.
Proof. apply String.eqb_refl. Qed.

(** What [send_message]'s [try] body can return. *)
Lemma send_and_process_returns (agent_name base_url message : string)
    (context task : json) (h h' : Host Net) (reply : HostReply) :
  send_and_process Net post host_uuid4 agent_name base_url message context task h
  = (Returned reply, h') ->
  reply_agent reply = agent_name
  /\ reply_status reply <> JStr "failed"
  /\ reply_status reply <> JStr "canceled"
  /\ (reply_status reply = JStr "completed" -> session_active h' = false)
  /\ (reply_status reply = JStr "input_required" -> session_active h' = true)
  /\ active_agent h' = active_agent h.
Proof.
  unfold send_and_process. unfold hbind at 1.
  pose proof (connection_send_message_frame base_url message context task h) as Hframe.
  cbv zeta in Hframe.
  destruct (connection_send_message Net post host_uuid4 base_url message context task h)
    as [[result|e] h2]; [|discriminate].
  cbn [snd] in Hframe. destruct Hframe as (_ & _ & _ & Hact).
  unfold hbind at 1, hlift at 1.
  destruct (py_get result "status" (JDict [])) as [status|]; cbn [of_res]; [|discriminate].
  unfold hbind at 1, hlift at 1.
  destruct (py_get status "state" (JStr "unknown")) as [state|]; cbn [of_res];
    [|discriminate].
  unfold hbind at 1, set_session_active. cbv beta iota.
  unfold hbind at 1, hlift at 1.
  destruct (py_get result "id" JNull) as [rid|]; cbn [of_res]; [|discriminate].
  unfold hbind at 1, hlift at 1, hret at 1.
  unfold keeps_session.
  destruct (py_truthy rid); cbv beta iota;
    unfold hbind at 1;
    (destruct (py_get result "sessionId" JNull) as [sid|]; cbn [of_res];
     [|discriminate]);
    unfold hbind at 1, hret at 1;
    destruct (py_truthy sid); cbv beta iota;
    unfold hbind, hret, hraise, hlift;
    destruct (py_eq_str state "input-required") eqn:E1;
    try (destruct (_extract_message result); cbn [of_res]; [|discriminate];
         intros H; inversion H; subst; cbn;
         rewrite ?orb_false_r;
         destruct state as [| | |st| | |]; try discriminate;
         cbn in E1; apply String.eqb_eq in E1; subst st;
         repeat split; auto; discriminate);
    destruct (py_eq_str state "completed") eqn:E2;
    try (destruct (_extract_message result); cbn [of_res]; [|discriminate];
         intros H; inversion H; subst; cbn;
         repeat split; auto; discriminate);
    destruct (py_eq_str state "failed") eqn:E3; try discriminate;
    destruct (py_eq_str state "canceled") eqn:E4; try discriminate;
    (destruct (_extract_message result); cbn [of_res]; [|discriminate];
     intros H; inversion H; subst; cbn;
     (split; [reflexivity|]);
     (split; [intros ->; rewrite py_eq_str_refl in E3; discriminate|]);
     (split; [intros ->; rewrite py_eq_str_refl in E4; discriminate|]);
     (split; [intros ->; rewrite py_eq_str_refl in E2; discriminate|]);
     (split; [intros ->; reflexivity|exact Hact])).
Qed.

Lemma send_and_process_active_agent (agent_name base_url message : string)
    (context task : json) (h : Host Net) :
  active_agent
    (snd (send_and_process Net post host_uuid4 agent_name base_url message context task h))
  = active_agent h.
Proof.
  unfold send_and_process. unfold hbind at 1.
  pose proof (connection_send_message_frame base_url message context task h) as Hframe.
  cbv zeta in Hframe.
  destruct (connection_send_message Net post host_uuid4 base_url message context task h)
    as [[result|e] h2]; cbn [snd] in Hframe; destruct Hframe as (_ & _ & _ & Hact);
    [|exact Hact].
  unfold hbind at 1, hlift at 1.
  destruct (py_get result "status" (JDict [])) as [status|]; cbn [of_res]; [|exact Hact].
  unfold hbind at 1, hlift at 1.
  destruct (py_get status "state" (JStr "unknown")) as [state|]; cbn [of_res];
    [|exact Hact].
  unfold hbind at 1, set_session_active. cbv beta iota.
  unfold hbind at 1, hlift at 1.
  destruct (py_get result "id" JNull) as [rid|]; cbn [of_res]; [|exact Hact].
  unfold hbind at 1, hlift at 1, hret at 1.
  destruct (py_truthy rid); cbv beta iota;
    unfold hbind at 1;
    (destruct (py_get result "sessionId" JNull) as [sid|]; cbn [of_res];
     [|exact Hact]);
    unfold hbind at 1, hret at 1;
    destruct (py_truthy sid); cbv beta iota;
    unfold hbind, hret, hraise, hlift;
    destruct (py_eq_str state "input-required");
    try (destruct (_extract_message result); exact Hact);
    destruct (py_eq_str state "completed");
    try (destruct (_extract_message result); exact Hact);
    destruct (py_eq_str state "failed"); try exact Hact;
    destruct (py_eq_str state "canceled"); try exact Hact;
    destruct (_extract_message result); exact Hact.
Qed.

(** [send_message] for an agent the host has a connection to. *)
Lemma host_send_message_connected (h : Host Net) (agent_name base_url message : string) :
  connection_of agent_name (remote_agent_connections h) = Some base_url ->
  exists out h',
    host_send_message Net post host_uuid4 agent_name message h = (out, h')
    /\ active_agent h' = Some agent_name
    /\ match out with
       | Raised e =>
           (exists cause, e = SendError agent_name cause)
           /\ session_active h' = false
       | Returned reply =>
           reply_agent reply = agent_name
           /\ reply_status reply <> JStr "failed"
           /\ reply_status reply <> JStr "canceled"
           /\ (reply_status reply = JStr "completed" -> session_active h' = false)
           /\ (reply_status reply = JStr "input_required" -> session_active h' = true)
       end.
Proof.
  intros Hconn. unfold host_send_message. rewrite Hconn.
  unfold hbind at 1, before_message_callback, set_session_active.
  destruct (session_active h); cbn [negb]; cbv iota beta;
    unfold hbind at 1; cbv iota beta; unfold htry;
    match goal with
    | |- context [send_and_process Net post host_uuid4 ?n ?u ?m ?c ?t ?h1] =>
        pose proof (send_and_process_active_agent n u m c t h1) as Hact;
        destruct (send_and_process Net post host_uuid4 n u m c t h1)
          as [[reply|e] h'] eqn:Hsp
    end;
    cbn [snd update_state active_agent] in Hact.
  all: try (apply send_and_process_returns in Hsp;
            destruct Hsp as (Hr1 & Hr2 & Hr3 & Hr4 & Hr5 & _);
            do 2 eexists; split; [reflexivity|]; auto 10).
  all: unfold hbind, set_session_active, hraise; cbn;
    do 2 eexists; (split; [reflexivity|]); cbn; split; eauto.
Qed.

(** X17.  [BaseHostAgent.send_message] on any network.  For an agent it
    has no connection to, it raises at once and its state is untouched.
    Otherwise the named agent becomes the active agent, and: whatever
    goes wrong (no connection, an HTTP error status, a body that is not
    JSON, a JSON-RPC error, a failed or canceled task, a result of an
    unexpected shape) is raised as one [RuntimeError] naming the agent,
    with the session marked inactive; a reply that is returned names the
    agent, never has status "failed" or "canceled", leaves the session
    inactive when its status is "completed" and active when it is
    "input_required". *)
Theorem host_send_message_outcomes (h : Host Net) (agent_name message : string) :
  let run := host_send_message Net post host_uuid4 agent_name message h in
  match connection_of agent_name (remote_agent_connections h) with
  | None => run = (Raised (AgentNotFound agent_name), h)
  | Some _ =>
      active_agent (snd run) = Some agent_name
      /\ match fst run with
         | Raised e =>
             (exists cause, e = SendError agent_name cause)
             /\ session_active (snd run) = false
         | Returned reply =>
             reply_agent reply = agent_name
             /\ reply_status reply <> JStr "failed"
             /\ reply_status reply <> JStr "canceled"
             /\ (reply_status reply = JStr "completed" -> session_active (snd run) = false)
             /\ (reply_status reply = JStr "input_required" ->
                 session_active (snd run) = true)
         end
  end.
Proof.
  cbv zeta.
  destruct (connection_of agent_name (remote_agent_connections h)) as [base_url|] eqn:Hconn.
  - destruct (host_send_message_connected h agent_name base_url message Hconn)
      as (out & h' & Hrun & Hact & Hout).
    rewrite Hrun. cbn [fst snd]. split; [exact Hact|exact Hout].
  - unfold host_send_message. rewrite Hconn. reflexivity.
Qed.

End HostOnAnyNetwork.

(** ** The server's answers, over all requests *)

Section ServerAnswers.

Variable uuid4 : nat -> string.
Variable are_modalities_compatible : option (list string) -> list string -> bool.
Variable self : CLIAgentTaskManager.
Variable validate_python : json -> res A2ARequest.

Local Abbreviation the_server :=
  (_process_request validate_python
     (cli_task_manager uuid4 are_modalities_compatible self)).


End ServerAnswers.

(** Scenario: two [message/send] requests whose id is a float.  With id
    1.5 the id fails validation and the request is answered with status
    400, the invalid-request error and id null.  With an id that is not
    finite (a JSON number such as 1e400 is read as infinity) the error
    list built by the exception handler repeats the id, rendering the
    response raises, and the server has no answer. *)
Lemma float_id_scenario :
  let server := Examples.server Examples.greeter Examples.accepting in
  let run1 := server (Body (Examples.envelope (JFloat 1.5) "message/send" (JDict [])))
                Examples.fresh in
  let run2 := server (Body (Examples.envelope (JFloat PrimFloat.infinity)
                              "message/send" (JDict [])))
                Examples.fresh in
  http_status (fst run1) = Some 400%Z
  /\ http_id (fst run1) = Some IdNone
  /\ http_error_code (fst run1) = Some A2AErrorCodes.INVALID_REQUEST
  /\ run2 = (Raise render_failure, Examples.fresh).
Proof.
  cbv zeta. repeat split; vm_compute; reflexivity.
Qed.
